(* ===== verification/_CoqProject ===== *)
-Q . S2P
Prelude.v
SerialDevice.v
SerialCharManager.v
SerialFormat.v
SerialDeviceWin.v
HciDefs.v
StatusTables.v
RtcCodec.v
Encoder.v
LoRaWANRx.v
LoRaWANRsp.v
DevMgmtRsp.v
RxSafety.v
Dispatcher.v
Bridge.v
