(* ===== verification/Prelude.v ===== *)
(** * WiMOD LoRaWAN host driver of tcp2lorawan: a verification development

    ** The program

    tcp2lorawan is STM32 firmware that bridges a TCP client and a WiMOD
    LoRaWAN radio module.  The part verified here is the host side of
    the module's Host Controller Interface (HCI), in
    [src/Middlewares/Third_Party/WiMOD/src/]:
    - [WiMOD_LoRaWAN_API.c] encodes the requests of the two endpoints
      (SAPs) Device Management and LoRaWAN into the static [TxMessage]
      and hands it to the HCI layer ([WiMOD_DevMgmt_Msg_Req],
      [WiMOD_LoRaWAN_Msg_Req] and the wrappers and console actions on
      top of them).  It also dispatches every received message by SAP and
      then by message identifier to a decoder
      ([WiMOD_LoRaWAN_Process_RxMessage] and the routines it calls).  The
      decoders print what they decode.  On port 100 the unconfirmed-data
      indication writes the downlink to the TCP client ([tcp_write]).  On
      port 99 it resets the MCU.
    - [SerialDevice.c] is the UART driver under the HCI layer.  It also
      holds the number formatting the decoders print with: [num2str],
      [str2num] and [num2hex].

    ** The files

    - [Prelude] (this file): the result monad [res] ([Ok], [Fault] for
      an access outside a C object, [NoFuel] for a loop out of fuel) and
      its notation [x <- c ;; k] in [wimod_scope].  The machine widths
      [u8], [u16] and [u32] as wrap-around modulo [2^w], the
      conversion of an argument to a [uint8_t] or [uint16_t]
      parameter, and [s32], an [int] result wrapped as the target
      computes it.  Bytes, the
      checked reads [rd]/[rd_seq]/[slice] and stores [wr]/[wr_seq] of
      C arrays as lists.  The little-endian reads of [memcpy],
      [MAKEWORD] and [MAKELONG].  The shared lemmas, with the rewrite
      database [wimod_reads], the hint database [wimod] and the tactics
      [reads], [bind_inv], [no_fault] and [run_ok].  The C widths as
      [fits w x].  Transition systems: [star] and the omnisemantic
      [eventually], with rule induction [star_inv].
    - [SerialDevice]: the UART driver of [SerialDevice.c] as built for
      the STM32 target.  The handle objects live in a store by address,
      so that [hWiModUart] aliases the caller's handle.  The HAL is the
      class [STM32_UART_HAL], and its one-byte receive interrupt is an
      event that can be interleaved with the driver calls.
    - [SerialCharManager]: [USART_ITCharManager], the receive-character
      routine of the STM32 driver.  It acts on the receive fields of the
      handle and on the UART's DR and SR registers.  The registers are
      modelled as a device: a byte that arrives sets RXNE, and reading
      DR clears it.
    - [SerialDeviceWin], Module [Win]: the [Q_OS_WIN] branches of the
      same driver, for the PC build of the HCI code.  The state is the
      static [ComHandle].  The Win32 API is the class [Win32_API], and
      its calls on the port are recorded in order.  [devName[80]] is a
      checked store.
    - [SerialFormat]: [num2str], [str2num] and [num2hex] with their
      [uint8_t] and [uint32_t] variables at width.  It also holds the
      reference decimal and hexadecimal digit strings that the
      theorems compare them with.
    - [HciDefs]: the message [TWiMOD_HCI_Message] and the SAP, message
      and status identifiers.  Their numeric values live in headers
      outside [src/], so they are an interface.  The class
      [WiMOD_HCI_Codes] has laws (codes are bytes, pairwise distinct
      within an endpoint).  Every theorem is proved against the class.
      The instance [WiMOD_API_h] gives the header values and is used only
      by the witnesses.  [WiMOD_HCI_Transport] is the contract of the HCI
      send.
    - [StatusTables]: the three [TIDString] tables and
      [WiMOD_LoRaWAN_ShowResponse].
    - [RtcCodec]: the RTC word, with the decoder of [Get_RTC_Rsp], the
      module-side packing from the specification, and the hand-packed
      word of the console action [SetRTC].
    - [Encoder]: both [Msg_Req] functions over the state [TxState]
      (the [TxMessage] global and the list of messages sent), every API
      wrapper and every console action.  [encode_spec] is the encoder
      contract of the specification.
    - [LoRaWANRx]: the data and MAC-command indications, with the
      port-99 reset and the port-100 [tcp_write].
    - [LoRaWANRsp]: the transmit and join indications and the LoRaWAN
      responses.
    - [DevMgmtRsp]: the Device-Management responses.  The uninitialised
      local [uint32_t help] that they fill by [memcpy] is a parameter
      [help0], so every theorem holds for any value it may hold.
    - [RxSafety]: one lemma per decoder that it returns normally
      ([res_ok]), under the section hypotheses that the message is well
      formed and leaves room after [Length].  The C-Data loop gets the
      weaker "no fault" and "returns when short".  The lemmas are
      collected in the hint database [rx_safety].
    - [Dispatcher]: the three [switch] routines.  Each returns the event
      it produced and the receive buffer it leaves behind.  The boolean
      [rx_deliverable] says which messages are dispatched to the end.
    - [Bridge]: the program around the receive and transmit paths.
      [WiMOD_LoRaWAN_Init] and [WiMOD_LoRaWAN_Process] act on the state
      [Bridge]: [TxMessage] and what was sent, [RxMessage], the serial
      driver of [SerialDevice], the [num2hex] buffer, the HCI callback
      registration, the queue of framed messages, and the log of
      dispatched frames with their events.  The HCI layer between them
      is not under [src/] and follows the transport contract.
      [WiMOD_HCI_Init] registers the callback and calls
      [SerialDevice_Open] at 115200 8N1.  [WiMOD_HCI_Process] copies one
      framed message into [RxMessage] and calls
      [WiMOD_LoRaWAN_Process_RxMessage].  [bridge_step] interleaves
      initialisation, requests of both encoders, process calls and frame
      arrivals; [reachable] is its closure from the zeroed globals.

    A decoder's result is the values it hands to [printf], [num2str] or
    [num2hex], together with the actions it takes.  The strings those
    helpers print from the values are the subject of [SerialFormat].

    ** The theorems

    - Encoding refines the contract: every request the specification
      accepts is sent as exactly one message carrying its envelope
      ([LoRaWAN_Msg_Req_refines], [DevMgmt_Msg_Req_refines]).  The
      encoders take their identifier as a [uint8_t] and their length
      as a [uint16_t].  The static [TxMessage] stays well formed.  The
      length guards of the wrappers are exact.  Unknown identifiers and
      data that overflow are errors.  [WiMOD_LoRaWAN_SetOPMODE] refuses
      the customer mode its console asks for
      ([SetOPMODE_rejects_customer_mode]).
    - The whole program, by rule induction on [bridge_step]: every
      dispatched frame that wrote to the TCP client or reset the MCU was
      a LoRaWAN unconfirmed-data indication ([reachable_log_origin]).
      The shared buffers stay well formed ([reachable_bridge_wf]), given
      the framing layer's well-formed frames.
    - Liveness of the main loop: repeated [WiMOD_LoRaWAN_Process] calls
      eventually dispatch every queued deliverable frame, in order
      ([Process_delivers_all]).  A long C-Data indication at the head of
      the queue stops delivery for good ([CData_blocks_receive]).
    - Safety of the receive path: dispatch is memory safe
      on every well-formed message except the two kinds the findings
      name ([Process_RxMessage_memory_safe]).  The receive buffer changes
      only by the firmware-version decoder's NUL.  Unknown identifiers
      are reported as unhandled, and unknown endpoints are dropped.
    - Functional behaviour of each decoder on every branch: device
      status, RTC, RTC alarm, firmware version, join address, supported
      bands, custom config, radio stack, data indications.  Each reads
      from the offsets of the specification with exact masks, whatever
      [help] held.
    - The serial driver on the target: a transmit that timed out, or
      whose length the HAL's [uint16_t Size] truncated, is reported as
      sent; reception is one-shot and reads do not consume; opening with
      a NULL handle dereferences NULL.
    - The receive-character routine: its behaviour on every branch
      ([CharManager_line_end]).  A byte arriving during its RXNE wait
      makes it spin for ever ([CharManager_spins]).
    - The serial driver on Windows: [SerialDevice_Open] leaves no stale
      handle ([Open_handle_discipline]).  The port name must fit
      [devName[80]] ([Open_devName_bound]).  A failed [ReadFile] runs
      off the end of [ReadData] ([ReadData_missing_return]).  A partial
      write is [-1], the opposite of the target build
      ([SendData_partial_write]).
    - Round trips: RTC word pack/unpack, [str2num] of [num2str], the
      value of [num2hex]'s digits, the join address.
    - Equivalence: the status-table scan is a lookup in the finite map
      ([gmap]) of the table ([ShowResponse_map_equiv]).
    - Bounds on machine integers: the join address is the [UINT32] of
      its four bytes, and [MAKELONG]'s [int] shift overflows exactly
      when the high byte is [0x80] or more ([join_address_int_overflow]).
      [num2hex] prints the hexadecimal digits of its argument modulo
      [16^HexDigits] ([num2hex_spec]).
    - Defects found while modelling, each proved as the behaviour the
      code has (see the findings of the manifest):
      - the port-100 forward sends one byte too many;
      - [SetRTC] packs with the wrong shifts;
      - the C-Data loop never terminates, and then blocks every later
        frame;
      - short frames and full frames index outside the payload;
      - [num2str] truncates numbers of 10^7 or more;
      - [str2num] reads [str[255]] on the empty string;
      - [SetOPMODE] refuses mode 3, which its console documents and
        asks for, and sends reserved mode 1;
      - [MAKELONG] overflows [int] for addresses of [0x80000000] and up;
      - [USART_Transmit] truncates its length to 16 bits;
      - the receive-character routine hangs on a CR LF line end.

    ** Bounds and fuel

    - [WIMOD_HCI_MSG_PAYLOAD_SIZE] is only assumed to lie in
      [64, 65535].  This covers the largest fixed layout (the 60-byte
      device status) and the [UINT16 Length].  The witnesses use 300.
    - Fuel bounds the C loops:
      - [num2str]: 7 for each loop, enough since the divisor runs
        through 10^6..10;
      - [str2num]: 256, the range of its [uint8_t] index;
      - [num2hex]: 9, for at most 8 digits;
      - band loop: [Length + 1], more than its [Length / 2] iterations;
      - the RXNE wait of [USART_ITCharManager]: a parameter.  One test
        suffices when no byte arrives, and no fuel suffices when one
        does.
    - The C-Data loop takes its fuel as a parameter, and the theorem
      states that no fuel suffices.  A process step of [Bridge] picks
      its fuel.  Liveness is stated with one iteration's worth of fuel,
      enough for every deliverable frame.
    - Fuel theorems are stated as "enough fuel gives the result", or
      "no fuel gives a result".

    ** Not modelled

    - [USART_ITCharManager] is registered nowhere (line 145 is
      commented out), so no caller composes it with the driver.  Its
      model takes the handle's receive fields and the UART registers as
      they are when it is called.  The HAL receive interrupt that would
      fill [pRxBuffPtr] is not modelled.
    - Everything else under [src/] that runs is modelled.  What the map
      leaves out of [WiMOD_LoRaWAN_API.c] is includes, forward
      declarations and comments.  What it leaves out of
      [SerialDevice.h] is prototypes.
    - Windows: [(int)numRxBytes] and [return numTxBytes] convert a
      [DWORD] to [int].  The model keeps the value, exact for the byte
      counts below [2^31] that a COM port transfers.
    - The HCI layer ([WiMOD_HCI_Layer.c]: SLIP framing, CRC) is not
      under [src/].  [Bridge] models it from the transport contract:
      framing and CRC are the environment that queues well-formed
      frames, one frame delivered per call.  Delivery is one frame per
      call because [SerialDevice_ReadData] returns one byte per call.
      [HexValue] is carried unchanged from call to call.  The digits
      [num2hex] prints do not depend on its previous contents
      ([num2hex_buffer]).
    - The text of the [printf] banners is not modelled.
    - For the DOUBLEWORD format, [num2hex]'s [0x0F << 28] is undefined
      behaviour in C.  It is modelled as the two's-complement mask the
      target computes. *)

From Stdlib Require Import ZArith Lia List.
From stdpp Require Import base list strings decidable.
Import ListNotations.

Declare Scope wimod_scope.
Delimit Scope wimod_scope with wimod.
Open Scope Z_scope.

(** ** Execution results

    A C routine either completes with a value, performs an access outside
    the array it indexes (undefined behaviour in C, a [Fault] here), or
    exhausts the fuel given to a loop ([NoFuel]). *)

Inductive res (A : Type) : Type :=
| Ok (a : A)
| Fault
| NoFuel.
Arguments Ok {A} a.
Arguments Fault {A}.
Arguments NoFuel {A}.

Definition res_bind {A B} (r : res A) (k : A -> res B) : res B :=
  match r with
  | Ok a => k a
  | Fault => Fault
  | NoFuel => NoFuel
  end.

Notation "x <- c ;; k" := (res_bind c (fun x => k))
  (at level 100, c at next level, right associativity) : wimod_scope.

Open Scope wimod_scope.

Definition res_map {A B} (f : A -> B) (r : res A) : res B := x <- r ;; Ok (f x).

Lemma res_bind_Ok {A B} (a : A) (k : A -> res B) : res_bind (Ok a) k = k a.
Proof. reflexivity. Qed.

(** A bind faults only if one of its two steps does. *)
Lemma res_bind_nf {A B} (r : res A) (k : A -> res B) :
  r <> Fault -> (forall a, r = Ok a -> k a <> Fault) -> res_bind r k <> Fault.
Proof. destruct r; simpl; auto; congruence. Qed.

(** [r] returns normally: neither an access outside an object nor a
    loop out of fuel. *)
Definition res_ok {A} (r : res A) : Prop := exists a, r = Ok a.

Lemma res_ok_bind {A B} (r : res A) (k : A -> res B) :
  res_ok r -> (forall a, r = Ok a -> res_ok (k a)) -> res_ok (res_bind r k).
Proof. intros [a Ha] Hk. subst r. simpl. auto. Qed.

Lemma res_ok_nf {A} (r : res A) : res_ok r -> r <> Fault.
Proof. intros [a ->]. discriminate. Qed.

Lemma res_bind_Ok_inv {A B} (r : res A) (k : A -> res B) b :
  res_bind r k = Ok b -> exists a, r = Ok a /\ k a = Ok b.
Proof. destruct r; simpl; try discriminate. eauto. Qed.

(** ** Machine integers

    [uint8_t], [uint16_t] and [uint32_t] values are kept as [Z]; a store
    into a variable of width [w] wraps modulo [2^w]. *)

Definition wrap (w z : Z) : Z := z mod 2 ^ w.
Abbreviation u8 := (wrap 8).
Abbreviation u16 := (wrap 16).
Abbreviation u32 := (wrap 32).

Definition is_byte (z : Z) : bool := (0 <=? z) && (z <? 256).
Definition bytes_ok (l : list Z) : bool := forallb is_byte l.

Lemma wrap_range w z : 0 <= w -> 0 <= wrap w z < 2 ^ w.
Proof. intros. unfold wrap. apply Z.mod_pos_bound. lia. Qed.

Lemma wrap_small w z : 0 <= z < 2 ^ w -> wrap w z = z.
Proof. intros. unfold wrap. apply Z.mod_small. lia. Qed.

(** An [int] result as the target computes it: the value modulo [2^32]
    read in two's complement.  C leaves a signed result above [INT_MAX]
    undefined; the compiler of the target wraps it. *)
Definition INT_MAX : Z := 2 ^ 31 - 1.
Definition s32 (z : Z) : Z := if u32 z <=? INT_MAX then u32 z else u32 z - 2 ^ 32.

Lemma s32_small z : 0 <= z <= INT_MAX -> s32 z = z.
Proof.
  unfold s32, INT_MAX. intros. rewrite wrap_small by lia.
  rewrite (proj2 (Z.leb_le _ _)) by lia. reflexivity.
Qed.

Lemma s32_high z : INT_MAX < z < 2 ^ 32 -> s32 z = z - 2 ^ 32.
Proof.
  unfold s32, INT_MAX. intros. rewrite wrap_small by lia.
  rewrite (proj2 (Z.leb_gt _ _)) by lia. reflexivity.
Qed.

(** An unsigned C integer of [w] bits holds [x]. *)
Definition fits (w x : Z) : bool := (0 <=? x) && (x <? 2 ^ w).

Lemma fits_spec w x : fits w x = true <-> 0 <= x < 2 ^ w.
Proof. unfold fits. rewrite andb_true_iff, Z.leb_le, Z.ltb_lt. tauto. Qed.

Lemma is_byte_spec z : is_byte z = true <-> 0 <= z < 256.
Proof. unfold is_byte. rewrite andb_true_iff, Z.leb_le, Z.ltb_lt. lia. Qed.

Lemma u8_is_byte z : is_byte (u8 z) = true.
Proof. apply is_byte_spec. pose proof (wrap_range 8 z). simpl in *. lia. Qed.

Lemma bytes_ok_app l1 l2 : bytes_ok (l1 ++ l2) = bytes_ok l1 && bytes_ok l2.
Proof. unfold bytes_ok. apply forallb_app. Qed.

Lemma bytes_ok_In l x : bytes_ok l = true -> In x l -> 0 <= x < 256.
Proof.
  unfold bytes_ok. rewrite forallb_forall. intros H Hx.
  apply is_byte_spec, H, Hx.
Qed.

(** ** Bit fields *)

Lemma lor_shiftl_add a b k :
  0 <= k -> 0 <= b < 2 ^ k -> Z.lor (Z.shiftl a k) b = Z.shiftl a k + b.
Proof.
  intros Hk Hb. rewrite <- Z.lxor_lor, Z.add_nocarry_lxor; [reflexivity| |];
  apply Z.bits_inj'; intros i Hi; rewrite Z.land_spec, Z.bits_0;
  (destruct (Z.lt_ge_cases i k);
   [rewrite Z.shiftl_spec_low by lia; reflexivity
   | rewrite <- (Z.mod_small b (2 ^ k)) by lia;
     rewrite Z.mod_pow2_bits_high by lia; apply Bool.andb_false_r]).
Qed.

(** The field of width [n] at bit [k], extracted with a shift and a mask. *)
Definition bit_field (w k n : Z) : Z := Z.land (Z.shiftr w k) (Z.ones n).

Lemma bit_field_div w k n :
  0 <= k -> 0 <= n -> bit_field w k n = (w / 2 ^ k) mod 2 ^ n.
Proof.
  intros. unfold bit_field. rewrite Z.land_ones, Z.shiftr_div_pow2 by lia.
  reflexivity.
Qed.

(** [(w & (ones(n) << k)) >> k], the C idiom for a bit field. *)
Lemma mask_field w k n :
  0 <= k -> 0 <= n -> Z.shiftr (Z.land w (Z.shiftl (Z.ones n) k)) k = bit_field w k n.
Proof.
  intros. unfold bit_field. rewrite Z.shiftr_land. f_equal.
  rewrite Z.shiftr_shiftl_l by lia. rewrite Z.sub_diag. apply Z.shiftl_0_r.
Qed.

(** A flag test [x & (1 << i)] of the C code, as a boolean. *)
Definition flag (x i : Z) : bool := Z.testbit x i.
Arguments flag : simpl never.

(** ** Little-endian byte sequences

    [MAKEWORD], [MAKELONG] and a [memcpy] into a [uint32_t] on the
    little-endian Cortex-M target all read bytes least significant first. *)

Fixpoint le_read (l : list Z) : Z :=
  match l with
  | [] => 0
  | b :: t => Z.lor b (Z.shiftl (le_read t) 8)
  end.

Fixpoint le_bytes (n : nat) (z : Z) : list Z :=
  match n with
  | O => []
  | S n' => u8 z :: le_bytes n' (Z.shiftr z 8)
  end.

Lemma length_le_bytes n z : length (le_bytes n z) = n.
Proof. revert z; induction n; simpl; auto. Qed.

Lemma le_read_bound l :
  bytes_ok l = true -> 0 <= le_read l < 2 ^ (8 * Z.of_nat (length l)).
Proof.
  induction l as [|b t IH]; simpl; [lia|].
  intros H. apply andb_true_iff in H as [Hb Ht].
  apply is_byte_spec in Hb. specialize (IH Ht).
  rewrite Z.lor_comm, lor_shiftl_add, Z.shiftl_mul_pow2 by lia.
  replace (8 * Z.of_nat (S (length t))) with (8 * Z.of_nat (length t) + 8) by lia.
  rewrite Z.pow_add_r by lia. nia.
Qed.

Lemma le_read_cons b t :
  0 <= b < 256 -> le_read (b :: t) = b + le_read t * 256.
Proof.
  intros. simpl. rewrite Z.lor_comm, lor_shiftl_add, Z.shiftl_mul_pow2 by lia.
  lia.
Qed.

Lemma le_read_le_bytes n z :
  0 <= z -> le_read (le_bytes n z) = z mod 2 ^ (8 * Z.of_nat n).
Proof.
  revert z; induction n as [|n IH]; intros z Hz; cbn [le_bytes].
  - rewrite Z.mod_1_r. reflexivity.
  - rewrite le_read_cons by (apply wrap_range; lia).
    rewrite IH by (apply Z.shiftr_nonneg; lia).
    rewrite Z.shiftr_div_pow2 by lia. unfold wrap.
    replace (8 * Z.of_nat (S n)) with (8 + 8 * Z.of_nat n) by lia.
    rewrite Z.pow_add_r by lia.
    rewrite Z.rem_mul_r by (apply Z.pow_pos_nonneg || apply Z.pow_nonzero; lia).
    simpl (2 ^ 8). lia.
Qed.

(** ** Arrays: reads, [memset] and [memcpy]

    A C array is a [list Z] of its full declared size.  A read or a
    [memcpy] that leaves the array is a [Fault]. *)

Definition rd (p : list Z) (i : Z) : res Z :=
  if 0 <=? i then
    match p !! Z.to_nat i with Some b => Ok b | None => Fault end
  else Fault.

(** [p[i]], [p[i+1]], ..., [p[i+n-1]], read one after the other. *)
Fixpoint rd_seq (p : list Z) (i : Z) (n : nat) : res (list Z) :=
  match n with
  | O => Ok []
  | S n' => b <- rd p i ;; t <- rd_seq p (i + 1) n' ;; Ok (b :: t)
  end.

Definition slice (p : list Z) (i : Z) (n : nat) : list Z :=
  take n (drop (Z.to_nat i) p).

Definition zeros (n : Z) : list Z := repeat 0 (Z.to_nat n).

Definition memcpy (dst : list Z) (off : Z) (src : list Z) (n : Z) : res (list Z) :=
  if (0 <=? off) && (0 <=? n) && (off + n <=? Z.of_nat (length dst))
     && (n <=? Z.of_nat (length src))
  then Ok (take (Z.to_nat off) dst ++ take (Z.to_nat n) src
           ++ drop (Z.to_nat (off + n)) dst)
  else Fault.

Lemma rd_ok p i :
  0 <= i < Z.of_nat (length p) -> rd p i = Ok (nth (Z.to_nat i) p 0).
Proof.
  intros H. unfold rd. destruct (Z.leb_spec 0 i); [|lia].
  destruct (lookup_lt_is_Some_2 p (Z.to_nat i)) as [x Hx]; [lia|].
  rewrite Hx. erewrite nth_lookup_Some by eauto. reflexivity.
Qed.

(** [p[i]] of an index inside the array. *)
Definition byte (p : list Z) (i : Z) : Z := nth (Z.to_nat i) p 0.

Lemma rd_byte p i : 0 <= i < Z.of_nat (length p) -> rd p i = Ok (byte p i).
Proof. apply rd_ok. Qed.

Lemma bytes_ok_byte p i : bytes_ok p = true -> 0 <= byte p i < 256.
Proof.
  intros Hb. unfold byte. destruct (Nat.lt_ge_cases (Z.to_nat i) (length p)).
  - apply (bytes_ok_In p); [exact Hb|]. apply nth_In. assumption.
  - rewrite nth_overflow by assumption. lia.
Qed.

Lemma lookup_byte p i : 0 <= i < Z.of_nat (length p) -> p !! Z.to_nat i = Some (byte p i).
Proof.
  intros. destruct (lookup_lt_is_Some_2 p (Z.to_nat i)) as [x Hx]; [lia|].
  rewrite Hx. unfold byte. erewrite nth_lookup_Some by eauto. reflexivity.
Qed.

Lemma rd_neg p i : i < 0 -> rd p i = Fault.
Proof. intros. unfold rd. destruct (Z.leb_spec 0 i); [lia|reflexivity]. Qed.

Lemma rd_high p i : Z.of_nat (length p) <= i -> rd p i = Fault.
Proof.
  intros. unfold rd. destruct (Z.leb_spec 0 i); [|reflexivity].
  rewrite lookup_ge_None_2 by lia. reflexivity.
Qed.

Lemma slice_S p i n :
  0 <= i < Z.of_nat (length p) ->
  slice p i (S n) = nth (Z.to_nat i) p 0 :: slice p (i + 1) n.
Proof.
  intros H. unfold slice.
  destruct (lookup_lt_is_Some_2 p (Z.to_nat i)) as [x Hx]; [lia|].
  rewrite (drop_S p x (Z.to_nat i) Hx).
  replace (Z.to_nat (i + 1)) with (S (Z.to_nat i)) by lia.
  erewrite nth_lookup_Some by eauto. reflexivity.
Qed.

Lemma rd_seq_ok p i n :
  0 <= i -> i + Z.of_nat n <= Z.of_nat (length p) ->
  rd_seq p i n = Ok (slice p i n).
Proof.
  revert i; induction n as [|n IH]; intros i Hi Hn; cbn [rd_seq].
  - reflexivity.
  - rewrite rd_ok, IH, slice_S by lia. reflexivity.
Qed.

Lemma length_slice p i n :
  0 <= i -> i + Z.of_nat n <= Z.of_nat (length p) -> length (slice p i n) = n.
Proof. intros. unfold slice. rewrite length_take, length_drop. lia. Qed.

Lemma memcpy_ok dst off src n :
  0 <= off -> 0 <= n -> off + n <= Z.of_nat (length dst) ->
  n <= Z.of_nat (length src) ->
  memcpy dst off src n = Ok (take (Z.to_nat off) dst ++ take (Z.to_nat n) src
                              ++ drop (Z.to_nat (off + n)) dst).
Proof.
  intros. unfold memcpy.
  repeat match goal with |- context [?a <=? ?b] =>
    destruct (Z.leb_spec a b); [|lia] end. reflexivity.
Qed.

Lemma memcpy_fault dst off src n :
  0 <= off -> 0 <= n ->
  (Z.of_nat (length dst) < off + n \/ Z.of_nat (length src) < n) ->
  memcpy dst off src n = Fault.
Proof.
  intros H1 H2 H3. unfold memcpy.
  destruct (Z.leb_spec (off + n) (Z.of_nat (length dst)));
  destruct (Z.leb_spec n (Z.of_nat (length src)));
  rewrite ?andb_false_r; try reflexivity; lia.
Qed.

Lemma length_memcpy dst off src n dst' :
  memcpy dst off src n = Ok dst' -> length dst' = length dst.
Proof.
  unfold memcpy.
  repeat match goal with |- context [?a <=? ?b] =>
    destruct (Z.leb_spec a b) end; simpl; intros Hm; inversion Hm; subst.
  rewrite !length_app, !length_take, length_drop. lia.
Qed.

Lemma length_zeros n : 0 <= n -> length (zeros n) = Z.to_nat n.
Proof. intros. unfold zeros. apply repeat_length. Qed.

Lemma bytes_ok_zeros n : bytes_ok (zeros n) = true.
Proof. unfold zeros, bytes_ok. induction (Z.to_nat n); simpl; auto. Qed.

Lemma bytes_ok_take n l : bytes_ok l = true -> bytes_ok (take n l) = true.
Proof.
  revert n; induction l as [|x l IH]; intros [|n] H; simpl in *; auto.
  apply andb_true_iff in H as [Hx Hl]. rewrite Hx. simpl. auto.
Qed.

Lemma bytes_ok_drop n l : bytes_ok l = true -> bytes_ok (drop n l) = true.
Proof.
  revert n; induction l as [|x l IH]; intros [|n] H; simpl in *; auto.
  apply andb_true_iff in H as [Hx Hl]. auto.
Qed.

Lemma slice_snoc p i n :
  0 <= i -> i + Z.of_nat n < Z.of_nat (length p) ->
  slice p i (S n) = slice p i n ++ [nth (Z.to_nat i + n) p 0].
Proof.
  revert i; induction n as [|n IH]; intros i Hi Hn.
  - rewrite slice_S by lia. unfold slice. simpl. rewrite Nat.add_0_r. reflexivity.
  - rewrite (slice_S p i (S n)) by lia. rewrite (IH (i + 1)) by lia.
    rewrite (slice_S p i n) by lia. simpl.
    replace (Z.to_nat (i + 1) + n)%nat with (Z.to_nat i + S n)%nat by lia.
    reflexivity.
Qed.

(** [p[i] = v]: a store inside the array, a [Fault] outside it. *)
Definition wr (p : list Z) (i v : Z) : res (list Z) :=
  if (0 <=? i) && (i <? Z.of_nat (length p)) then Ok (<[Z.to_nat i := v]> p) else Fault.

(** [*ptr++ = v] for each [v] of [l], from [p[i]] on. *)
Fixpoint wr_seq (p : list Z) (i : Z) (l : list Z) : res (list Z) :=
  match l with
  | [] => Ok p
  | v :: l' => p' <- wr p i v ;; wr_seq p' (i + 1) l'
  end.

Lemma wr_ok p i v :
  0 <= i < Z.of_nat (length p) -> wr p i v = Ok (<[Z.to_nat i := v]> p).
Proof.
  intros. unfold wr. destruct (Z.leb_spec 0 i), (Z.ltb_spec i (Z.of_nat (length p))); simpl;
    [reflexivity|lia..].
Qed.

Lemma wr_fault p i v : Z.of_nat (length p) <= i -> wr p i v = Fault.
Proof. intros. unfold wr. destruct (Z.ltb_spec i (Z.of_nat (length p))); [lia|]. now rewrite andb_false_r. Qed.

Lemma wr_Ok_inv p i v p' :
  wr p i v = Ok p' -> 0 <= i < Z.of_nat (length p) /\ p' = <[Z.to_nat i := v]> p.
Proof.
  unfold wr. destruct (Z.leb_spec 0 i), (Z.ltb_spec i (Z.of_nat (length p))); simpl;
    try discriminate. intros E. injection E as <-. auto.
Qed.

Lemma bytes_ok_insert p i v :
  bytes_ok p = true -> is_byte v = true -> bytes_ok (<[i := v]> p) = true.
Proof.
  revert i. induction p as [|x p IH]; intros [|i] Hp Hv; simpl in *; auto.
  - apply andb_true_iff in Hp as [_ Hp]. rewrite Hv, Hp. reflexivity.
  - apply andb_true_iff in Hp as [Hx Hp]. rewrite Hx, IH; auto.
Qed.

Lemma length_wr p i v p' : wr p i v = Ok p' -> length p' = length p.
Proof.
  unfold wr. destruct (_ && _); [|discriminate]. intros [= <-]. apply length_insert.
Qed.

Lemma wr_seq_app p i l1 l2 :
  wr_seq p i (l1 ++ l2) = (p' <- wr_seq p i l1 ;; wr_seq p' (i + Z.of_nat (length l1)) l2).
Proof.
  revert p i; induction l1 as [|v l1 IH]; intros p i; simpl.
  - rewrite Z.add_0_r. reflexivity.
  - destruct (wr p i v); simpl; [|reflexivity..]. rewrite IH.
    replace (i + 1 + Z.of_nat (length l1)) with (i + Z.of_nat (S (length l1))) by lia.
    reflexivity.
Qed.

(** A second store to the same element overrides the first. *)
Lemma wr_wr {A} p i a b (k : list Z -> res A) :
  (p1 <- wr p i a ;; p2 <- wr p1 i b ;; k p2) = (p2 <- wr p i b ;; k p2).
Proof.
  unfold wr. destruct (_ && _) eqn:E; simpl; [|reflexivity].
  rewrite length_insert, E. simpl. rewrite list_insert_insert_eq. reflexivity.
Qed.

(** A store sequence that starts inside the array and runs past it
    faults. *)
Lemma wr_seq_fault p i l :
  0 <= i <= Z.of_nat (length p) -> Z.of_nat (length p) < i + Z.of_nat (length l) ->
  wr_seq p i l = Fault.
Proof.
  revert p i; induction l as [|v l IH]; intros p i Hi Hl; [simpl in Hl; lia|].
  rewrite length_cons, Nat2Z.inj_succ in Hl. cbn [wr_seq].
  unfold wr. destruct (Z.ltb_spec i (Z.of_nat (length p))) as [Hlt|Hge].
  - rewrite (proj2 (Z.leb_le 0 i) (proj1 Hi)). simpl.
    apply IH; rewrite length_insert; lia.
  - rewrite andb_false_r. reflexivity.
Qed.

(** Sequential stores inside the array leave [l] in place of the bytes
    they cover. *)
Lemma wr_seq_ok p i l :
  0 <= i -> i + Z.of_nat (length l) <= Z.of_nat (length p) ->
  wr_seq p i l = Ok (take (Z.to_nat i) p ++ l ++ drop (Z.to_nat i + length l) p).
Proof.
  revert p i; induction l as [|v l IH]; intros p i Hi Hl; simpl in *.
  - rewrite Nat.add_0_r, take_drop. reflexivity.
  - rewrite wr_ok by lia. rewrite res_bind_Ok, IH by (rewrite ?length_insert; lia).
    replace (Z.to_nat (i + 1)) with (S (Z.to_nat i)) by lia.
    f_equal.
    rewrite (take_S_r _ _ v) by (apply list_lookup_insert_eq; lia).
    rewrite take_insert_ge by lia. rewrite <- app_assoc. simpl. f_equal. f_equal.
    rewrite drop_insert_lt by lia. do 2 f_equal. lia.
Qed.

(** ** Automation

    The rewrite database [wimod_reads] turns a chain of checked reads
    whose indices are inside the array (the side conditions go to [lia])
    and the binds they feed into values; [reads] runs it.  The database
    [wimod] holds the byte-range facts. *)

Create Rewrite HintDb wimod_reads.
#[export] Hint Rewrite @res_bind_Ok : wimod_reads.
#[export] Hint Rewrite rd_byte using lia : wimod_reads.

Create HintDb wimod.
#[export] Hint Resolve u8_is_byte bytes_ok_zeros bytes_ok_take bytes_ok_drop : wimod.

Ltac reads := autorewrite with wimod_reads.

(** [res_ok r] for straight-line code whose accesses are inside their
    objects and whose loops have their fuel: split the binds, the
    conditionals and the reads. *)
Ltac run_ok :=
  repeat match goal with
  | |- res_ok (Ok _) => eexists; reflexivity
  | |- res_ok (let _ := _ in _) => cbv zeta
  | |- res_ok (match ?x with _ => _ end) => destruct x
  | |- context [rd_seq ?p ?i ?n] => rewrite (rd_seq_ok p i n) by lia
  | |- res_ok _ => progress reads; cbv beta
  | |- res_ok (res_bind _ _) => apply res_ok_bind; [|intros ? _]
  end.

(** [r <> Fault] for straight-line code whose accesses are inside their
    objects: split the binds, the conditionals and the reads. *)
Ltac no_fault :=
  repeat match goal with
  | |- Ok _ <> Fault => discriminate
  | |- NoFuel <> Fault => discriminate
  | |- (let _ := _ in _) <> Fault => cbv zeta
  | |- (match ?x with _ => _ end) <> Fault => destruct x
  | |- context [rd_seq ?p ?i ?n] => rewrite (rd_seq_ok p i n) by lia
  | |- _ <> Fault => progress reads; cbv beta
  | |- res_bind _ _ <> Fault => apply res_bind_nf; [|intros ? _]
  end.

(** Take apart a successful chain of binds in [H]. *)
Ltac bind_inv H :=
  repeat match type of H with
  | res_bind _ _ = Ok _ =>
      let a := fresh "a" in let Ha := fresh "Ha" in
      apply res_bind_Ok_inv in H as (a & Ha & H)
  end.

(** ** Transition systems

    The reflexive-transitive closure of a step relation, as in Leroy's
    [Sequences], and the "eventually" of the omnisemantics of coqutil:
    [eventually R P s] holds when [P s] holds, or when [s] can step and
    every successor eventually satisfies [P]. *)

Section Relations.
Context {S : Type} (R : S -> S -> Prop).

Inductive star : S -> S -> Prop :=
| star_refl s : star s s
| star_step s1 s2 s3 : R s1 s2 -> star s2 s3 -> star s1 s3.

Inductive eventually (P : S -> Prop) : S -> Prop :=
| eventually_now s : P s -> eventually P s
| eventually_later s :
    (exists s', R s s') -> (forall s', R s s' -> eventually P s') -> eventually P s.

(** An invariant of every step holds along every run. *)
Lemma star_inv (I : S -> Prop) :
  (forall s s', I s -> R s s' -> I s') -> forall s s', star s s' -> I s -> I s'.
Proof. intros Hstep s s' Hs. induction Hs; eauto. Qed.

Lemma star_one s s' : R s s' -> star s s'.
Proof. intros. eapply star_step; [eassumption | apply star_refl]. Qed.

Lemma star_trans s1 s2 s3 : star s1 s2 -> star s2 s3 -> star s1 s3.
Proof. induction 1; eauto using star_step. Qed.

Lemma eventually_mono (P Q : S -> Prop) s :
  (forall s, P s -> Q s) -> eventually P s -> eventually Q s.
Proof. intros HPQ Hev. induction Hev; [apply eventually_now | apply eventually_later]; auto. Qed.

(** A state that cannot step and does not satisfy [P] never will. *)
Lemma eventually_stuck (P : S -> Prop) s :
  ~ P s -> (forall s', ~ R s s') -> ~ eventually P s.
Proof. intros HP Hs Hev. inversion Hev as [? Hp|? [s' Hr] _]; [exact (HP Hp)|exact (Hs s' Hr)]. Qed.

End Relations.

Arguments star_refl {S R s}.
