(* ===== verification/SerialDevice.v ===== *)
(** * The serial device of the STM32 target

    [SerialDevice.c] has two implementations selected by [Q_OS_WIN]; the
    firmware is built without it, so the [#else] branches are the code
    that runs on the target.  This file models them: lines 39, 50,
    133-158, 209-214, 247-253, 288-294, 323-327 and 344-346.  The
    [Q_OS_WIN] branches are modelled in [SerialDeviceWin].

    The driver keeps a static pointer [hWiModUart] to the caller's
    [UART_HandleTypeDef] and the one-byte receive buffer
    [UsartTextString].  The handles are objects of a store indexed by
    address, so that [SerialDevice_Open] writes through [hWiModUart]
    into the caller's object, and dereferencing the NULL pointer (0) or
    an address without an object is a [Fault].

    The STM32 HAL is not in [src/]: the class [STM32_UART_HAL] holds the
    register constants and the results of [HAL_UART_Init] and
    [HAL_UART_Transmit], and [Error_Handler] of [main.c].  The receive
    interrupt of the HAL is the event [HAL_UART_RxCplt]: after
    [HAL_UART_Receive_IT(huart, &UsartTextString, 1)], the next byte the
    UART receives is stored in [UsartTextString] and the reception is
    complete; nothing in [src/] starts another one. *)

From Stdlib Require Import ZArith Lia List.
From stdpp Require Import base list gmap decidable.
From S2P Require Import Prelude.
Import ListNotations.
Open Scope Z_scope.
Open Scope wimod_scope.

Inductive HAL_StatusTypeDef := HAL_OK | HAL_ERROR | HAL_BUSY | HAL_TIMEOUT.

#[export] Instance HAL_StatusTypeDef_eq_dec : EqDecision HAL_StatusTypeDef.
Proof. solve_decision. Defined.

(** The fields of [huart->Init] the driver writes. *)
Record UART_InitTypeDef := mkUartInit {
  BaudRate : Z; WordLength : Z; StopBits : Z; Parity : Z;
  Mode : Z; HwFlowCtl : Z; OverSampling : Z
}.

Record UART_HandleTypeDef := mkUartHandle {
  Instance : Z; Init : UART_InitTypeDef
}.

(** The HAL and [main.c], as the driver sees them. *)
Class STM32_UART_HAL := {
  USART6 : Z;
  UART_MODE_TX_RX : Z; UART_HWCONTROL_NONE : Z;
  UART_OVERSAMPLING_16 : Z; UART_STOPBITS_1 : Z;
  UART_WORDLENGTH_8B : Z; UART_PARITY_NONE : Z;
  HAL_UART_Init : UART_HandleTypeDef -> HAL_StatusTypeDef;
  HAL_UART_Transmit : UART_HandleTypeDef -> list Z -> Z -> HAL_StatusTypeDef;
  Error_Handler : res unit
}.

(** [hWiModUart], [UsartTextString], whether a [HAL_UART_Receive_IT] is
    pending, and the chunks handed to [HAL_UART_Transmit] with the
    status it returned. *)
Record SerialState := mkSerial {
  uart_objs : gmap Z UART_HandleTypeDef;
  hWiModUart : Z;
  UsartTextString : Z;
  rx_pending : bool;
  uart_sent : list (list Z * HAL_StatusTypeDef)
}.

Section Driver.
Context `{STM32_UART_HAL}.

Definition set_hWiModUart (p : Z) (st : SerialState) : SerialState :=
  mkSerial (uart_objs st) p (UsartTextString st) (rx_pending st) (uart_sent st).

Definition set_rx_pending (b : bool) (st : SerialState) : SerialState :=
  mkSerial (uart_objs st) (hWiModUart st) (UsartTextString st) b (uart_sent st).

Definition store_uart (p : Z) (h : UART_HandleTypeDef) (st : SerialState) : SerialState :=
  mkSerial (<[p := h]> (uart_objs st)) (hWiModUart st) (UsartTextString st)
    (rx_pending st) (uart_sent st).

Definition log_sent (c : list Z * HAL_StatusTypeDef) (st : SerialState) : SerialState :=
  mkSerial (uart_objs st) (hWiModUart st) (UsartTextString st) (rx_pending st)
    (uart_sent st ++ [c]).

(** [huart->...]: the object the pointer designates. *)
Definition uart_deref (st : SerialState) (p : Z) : res UART_HandleTypeDef :=
  if p =? 0 then Fault
  else match uart_objs st !! p with Some h => Ok h | None => Fault end.

(** [HAL_UART_DeInit(hWiModUart)] stops the UART, pending reception
    included; the target branch then falls through to [return false].
    The HAL's [HAL_UART_DeInit] returns [HAL_ERROR] on a NULL handle
    before touching it, and the driver ignores the status, so a NULL
    [hWiModUart] is no fault here. *)
Definition SerialDevice_Close (st : SerialState) : res (bool * SerialState) :=
  Ok (false, set_rx_pending false st).

(** Every field of [huart->Init] the HAL uses is written, so the new
    handle does not depend on the old one; the object must exist. *)
Definition SerialDevice_Open (huart baudRate dataBits parity : Z) (st : SerialState)
    : res (bool * SerialState) :=
  let st := if huart =? 0 then st else set_hWiModUart huart st in
  _ <- uart_deref st (hWiModUart st) ;;
  let h := mkUartHandle USART6
             (mkUartInit baudRate dataBits UART_STOPBITS_1 parity
                UART_MODE_TX_RX UART_HWCONTROL_NONE UART_OVERSAMPLING_16) in
  let st := store_uart (hWiModUart st) h st in
  match HAL_UART_Init h with
  | HAL_OK => Ok (true, set_rx_pending true st)
  | _ =>
      r <- SerialDevice_Close st ;;
      let '(_, st) := r in
      _ <- Error_Handler ;;
      Ok (false, st)
  end.

(** [HAL_UART_Transmit(huart, data, len, 500)]: the [size_t len] is
    converted to the [uint16_t Size] of the HAL, which sends that many
    bytes of [data]. *)
Definition USART_Transmit (huart : Z) (data : list Z) (len : Z) (st : SerialState)
    : res (HAL_StatusTypeDef * SerialState) :=
  h <- uart_deref st huart ;;
  bytes <- rd_seq data 0 (Z.to_nat (u16 len)) ;;
  let s := HAL_UART_Transmit h bytes 500 in
  Ok (s, log_sent (bytes, s) st).

Definition SerialDevice_SendData (txBuffer : list Z) (txLength : Z) (st : SerialState)
    : res (Z * SerialState) :=
  r <- USART_Transmit (hWiModUart st) txBuffer txLength st ;;
  let '(s, st) := r in
  if decide (s <> HAL_ERROR) then Ok (txLength, st) else Ok (-1, st).

Definition SerialDevice_SendByte (txByte : Z) (st : SerialState) : res (Z * SerialState) :=
  r <- USART_Transmit (hWiModUart st) [txByte] 1 st ;;
  let '(s, st) := r in
  if decide (s <> HAL_ERROR) then Ok (1, st) else Ok (-1, st).

(** [*rxBuffer = UsartTextString; rxBufferSize = 1; return rxBufferSize;] *)
Definition SerialDevice_ReadData (rxBuffer : list Z) (rxBufferSize : Z) (st : SerialState)
    : res (Z * list Z) :=
  b <- wr rxBuffer 0 (UsartTextString st) ;;
  Ok (1, b).

(** The receive interrupt of the HAL for a byte [c] from the UART. *)
Definition HAL_UART_RxCplt (c : Z) (st : SerialState) : SerialState :=
  if rx_pending st
  then mkSerial (uart_objs st) (hWiModUart st) c false (uart_sent st)
  else st.

(** An interleaving of driver calls and received bytes. *)
Inductive SerialEvent :=
| EvReadData (rxBuffer : list Z) (rxBufferSize : Z)
| EvReceive (c : Z).

(** The bytes the successive [SerialDevice_ReadData] calls return. *)
Fixpoint serial_run (st : SerialState) (evs : list SerialEvent) : res (list Z) :=
  match evs with
  | [] => Ok []
  | EvReadData b n :: evs =>
      r <- SerialDevice_ReadData b n st ;;
      let '(_, b') := r in
      rest <- serial_run st evs ;;
      Ok (hd 0 b' :: rest)
  | EvReceive c :: evs => serial_run (HAL_UART_RxCplt c st) evs
  end.

End Driver.

Fixpoint count_reads (evs : list SerialEvent) : nat :=
  match evs with
  | [] => O
  | EvReadData _ _ :: evs => S (count_reads evs)
  | EvReceive _ :: evs => count_reads evs
  end.

Definition reads_nonempty (evs : list SerialEvent) : bool :=
  forallb (fun e => match e with EvReadData b _ => negb (length b =? 0)%nat | _ => true end) evs.

(** ** Lemmas *)

Section SerialLemmas.
Context `{STM32_UART_HAL}.

Lemma ReadData_ok rxBuffer n st :
  (0 < length rxBuffer)%nat ->
  SerialDevice_ReadData rxBuffer n st = Ok (1, <[0%nat := UsartTextString st]> rxBuffer).
Proof. intros. unfold SerialDevice_ReadData. rewrite wr_ok by lia. reflexivity. Qed.

(** [rxBufferSize] is not consulted: an empty buffer is written anyway. *)
Lemma ReadData_empty n st : SerialDevice_ReadData [] n st = Fault.
Proof. reflexivity. Qed.

Lemma hd_insert_0 (v : Z) l : (0 < length l)%nat -> hd 0 (<[0%nat := v]> l) = v.
Proof. destruct l; simpl; [lia | reflexivity]. Qed.

(** With no reception pending, every read returns [UsartTextString]. *)
Lemma serial_run_idle st evs :
  rx_pending st = false -> reads_nonempty evs = true ->
  serial_run st evs = Ok (repeat (UsartTextString st) (count_reads evs)).
Proof.
  intros Hp. induction evs as [|[b n|c] evs IH]; simpl; intros Hne; [reflexivity| |].
  - apply andb_true_iff in Hne as [Hb Hne]. apply negb_true_iff, Nat.eqb_neq in Hb.
    rewrite ReadData_ok by lia. rewrite res_bind_Ok. cbv iota.
    rewrite IH, res_bind_Ok, hd_insert_0 by (auto; lia). reflexivity.
  - unfold HAL_UART_RxCplt. rewrite Hp. auto.
Qed.

Lemma USART_Transmit_ok huart data len st h :
  huart <> 0 -> uart_objs st !! huart = Some h -> 0 <= len <= Z.of_nat (length data) ->
  USART_Transmit huart data len st
  = Ok (HAL_UART_Transmit h (slice data 0 (Z.to_nat (u16 len))) 500,
        log_sent (slice data 0 (Z.to_nat (u16 len)),
                  HAL_UART_Transmit h (slice data 0 (Z.to_nat (u16 len))) 500) st).
Proof.
  intros Hn Hh Hl. unfold USART_Transmit, uart_deref.
  destruct (Z.eqb_spec huart 0); [contradiction|]. rewrite Hh, res_bind_Ok.
  assert (0 <= u16 len <= len) by (unfold wrap; split; [apply Z.mod_pos_bound | apply Z.mod_le]; lia).
  rewrite rd_seq_ok by lia. reflexivity.
Qed.

(** [SerialDevice_Open] on a handle object, with [HAL_UART_Init]
    succeeding: the caller's object is configured for USART6 and one
    byte of reception is pending. *)
Lemma Open_ok huart baudRate dataBits parity st h0 :
  huart <> 0 -> uart_objs st !! huart = Some h0 ->
  let h := mkUartHandle USART6 (mkUartInit baudRate dataBits UART_STOPBITS_1 parity
                                  UART_MODE_TX_RX UART_HWCONTROL_NONE UART_OVERSAMPLING_16) in
  HAL_UART_Init h = HAL_OK ->
  SerialDevice_Open huart baudRate dataBits parity st
  = Ok (true, set_rx_pending true (store_uart huart h (set_hWiModUart huart st))).
Proof.
  intros Hn Hh h Hi. unfold SerialDevice_Open, uart_deref. cbv zeta.
  destruct (Z.eqb_spec huart 0); [contradiction|]. simpl.
  destruct (Z.eqb_spec huart 0); [contradiction|]. rewrite Hh, res_bind_Ok.
  fold h. rewrite Hi. reflexivity.
Qed.

End SerialLemmas.

(** ** Theorems *)

Section SerialTheorems.
Context `{STM32_UART_HAL}.

(** C17: [SerialDevice_SendData] reports every byte sent unless
    [HAL_UART_Transmit] returns [HAL_ERROR].  On a handle object and a
    buffer holding [txLength] bytes, it hands the first [txLength] bytes,
    as many as the HAL's [uint16_t Size] carries, to the HAL with the
    500 ms timeout, and returns [txLength] also when the HAL returns
    [HAL_TIMEOUT] or [HAL_BUSY], that is when the bytes were not all
    sent, and when [txLength] exceeds [65535] and only [txLength mod
    65536] bytes were handed over. *)
Theorem SendData_status txBuffer txLength st h :
  hWiModUart st <> 0 -> uart_objs st !! hWiModUart st = Some h ->
  0 <= txLength <= Z.of_nat (length txBuffer) ->
  let bytes := slice txBuffer 0 (Z.to_nat (u16 txLength)) in
  let s := HAL_UART_Transmit h bytes 500 in
  SerialDevice_SendData txBuffer txLength st
  = Ok (match s with HAL_ERROR => -1 | HAL_OK | HAL_BUSY | HAL_TIMEOUT => txLength end,
        log_sent (bytes, s) st).
Proof.
  intros Hn Hh Hl bytes s. unfold SerialDevice_SendData.
  rewrite (USART_Transmit_ok _ _ _ _ h) by assumption. rewrite res_bind_Ok.
  fold bytes s. destruct s; reflexivity.
Qed.

(** C18: reception is one-shot and [SerialDevice_ReadData] does not
    consume.  Once the pending one-byte reception has completed with a
    byte [c], every later call of [SerialDevice_ReadData] returns [c],
    whatever bytes the UART receives afterwards: nothing re-arms
    [HAL_UART_Receive_IT]. *)
Theorem ReadData_one_shot st c evs :
  rx_pending st = true -> reads_nonempty evs = true ->
  serial_run st (EvReceive c :: evs) = Ok (repeat c (count_reads evs)).
Proof.
  intros Hp Hne. simpl. unfold HAL_UART_RxCplt. rewrite Hp.
  apply serial_run_idle; auto.
Qed.

(** C32: [SerialDevice_Open(NULL, ...)] before any handle was registered
    dereferences the NULL [hWiModUart]: the [if (huart != NULL)] guard
    only skips the assignment. *)
Theorem Open_null_fault baudRate dataBits parity st :
  hWiModUart st = 0 -> SerialDevice_Open 0 baudRate dataBits parity st = Fault.
Proof. intros Hn. unfold SerialDevice_Open, uart_deref. simpl. rewrite Hn. reflexivity. Qed.

End SerialTheorems.

(** ** Witnesses, with register values of the STM32F4 HAL *)

(** The HAL of an STM32F4 whose UART initialises and whose transmit
    returns [tx]; [Error_Handler] is CubeMX's [while (1)]. *)
Definition F4_HAL (tx : HAL_StatusTypeDef) : STM32_UART_HAL := {|
  USART6 := 1073812480;
  UART_MODE_TX_RX := 12; UART_HWCONTROL_NONE := 0;
  UART_OVERSAMPLING_16 := 0; UART_STOPBITS_1 := 0;
  UART_WORDLENGTH_8B := 0; UART_PARITY_NONE := 0;
  HAL_UART_Init := fun _ => HAL_OK;
  HAL_UART_Transmit := fun _ _ _ => tx;
  Error_Handler := NoFuel
|}.

#[local] Instance F4_HAL_timeout : STM32_UART_HAL := F4_HAL HAL_TIMEOUT.

Definition huart6 : UART_HandleTypeDef :=
  mkUartHandle 1073812480 (mkUartInit 115200 0 0 0 12 0 0).

(** The driver after [SerialDevice_Open(&huart6, ...)], [huart6] at
    address 0x20000100. *)
Definition st_open : SerialState :=
  mkSerial {[536871168 := huart6]} 536871168 0 true [].

Lemma SendData_status_witness :
  SerialDevice_SendData [1; 2; 3] 3 st_open
  = Ok (3, log_sent ([1; 2; 3], HAL_TIMEOUT) st_open).
Proof.
  exact (SendData_status [1; 2; 3] 3 st_open huart6 ltac:(discriminate) eq_refl
           ltac:(simpl; lia)).
Defined.

(** Bytes [A] then [B] received; three reads all return [A]. *)
Lemma ReadData_one_shot_witness :
  serial_run st_open [EvReceive 65; EvReadData [0] 1; EvReceive 66;
                      EvReadData [0; 0] 2; EvReadData [0] 1] = Ok [65; 65; 65].
Proof.
  exact (ReadData_one_shot st_open 65
           [EvReadData [0] 1; EvReceive 66; EvReadData [0; 0] 2; EvReadData [0] 1]
           eq_refl eq_refl).
Defined.

Lemma Open_null_fault_witness :
  SerialDevice_Open 0 115200 0 0 (mkSerial {[536871168 := huart6]} 0 0 false []) = Fault.
Proof. exact (Open_null_fault 115200 0 0 (mkSerial {[536871168 := huart6]} 0 0 false []) eq_refl). Defined.
