(* ===== verification/SerialCharManager.v ===== *)
(** * The receive-character handler of the STM32 driver

    [USART_ITCharManager] (lines 354-384 of [SerialDevice.c]) is the
    routine the driver provides for a UART receive interrupt.  It reads
    the character from the data register.  On a carriage return, or with
    one byte left in the transfer, it ends the line: it steps the
    transfer back over the last byte and stores a NUL there.  It then
    echoes ["\r\n"], waits until the RXNE flag of the status register
    is clear, and disables the receive interrupts, returning the handle
    to [HAL_UART_STATE_BUSY_TX] or [HAL_UART_STATE_READY].

    The routine touches the receive fields of the handle
    ([RxXferCount], [pRxBuffPtr], [gState], the enabled interrupts),
    kept here in [UART_RxXfer] with the object [pRxBuffPtr] points
    into.  The UART is the register pair [UART_Regs], in the style of a
    device state machine: a byte that arrives sets DR and RXNE, and
    reading DR clears RXNE.  The wait loop reads only the status
    register, so a byte that arrives during the wait is never consumed.
    The bytes arriving before each test of the loop are the function
    [arrive]; the loop takes fuel. *)

From Stdlib Require Import ZArith Lia List.
From stdpp Require Import base list gmap decidable.
From S2P Require Import Prelude SerialDevice.
Import ListNotations.
Open Scope Z_scope.
Open Scope wimod_scope.

Inductive HAL_UART_StateTypeDef :=
| HAL_UART_STATE_RESET | HAL_UART_STATE_READY | HAL_UART_STATE_BUSY
| HAL_UART_STATE_BUSY_TX | HAL_UART_STATE_BUSY_RX | HAL_UART_STATE_BUSY_TX_RX
| HAL_UART_STATE_TIMEOUT | HAL_UART_STATE_ERROR.

#[export] Instance HAL_UART_StateTypeDef_eq_dec : EqDecision HAL_UART_StateTypeDef.
Proof. solve_decision. Defined.

(** The receive fields of [*huart]: [RxXferCount] ([uint16_t]), the
    object [pRxBuffPtr] points into and its offset, [gState], and the
    enable bits of the RXNE, parity-error and error interrupts. *)
Record UART_RxXfer := mkRxXfer {
  RxXferCount : Z;
  rx_buffer : list Z;
  pRxBuffPtr : Z;
  gState : HAL_UART_StateTypeDef;
  IT_RXNE : bool; IT_PE : bool; IT_ERR : bool
}.

(** The data register and the RXNE flag of the status register. *)
Record UART_Regs := mkRegs { DR : Z; RXNE : bool }.

Definition uart_arrive (c : Z) (r : UART_Regs) : UART_Regs := mkRegs c true.

Definition read_DR (r : UART_Regs) : Z * UART_Regs := (DR r, mkRegs (DR r) false).

(** [while (HAL_IS_BIT_SET(huart->Instance->SR, UART_FLAG_RXNE)) {}]:
    before the [k]-th test the byte [arrive k], if any, reaches the
    UART. *)
Fixpoint wait_rxne (fuel : nat) (arrive : nat -> option Z) (k : nat) (r : UART_Regs)
    : res UART_Regs :=
  match fuel with
  | O => NoFuel
  | S fuel =>
      let r := match arrive k with Some c => uart_arrive c r | None => r end in
      if RXNE r then wait_rxne fuel arrive (S k) r else Ok r
  end.

(** The handle after [__HAL_UART_DISABLE_IT(huart, UART_IT_RXNE)] and the
    state update of lines 372-381. *)
Definition end_reception (x : UART_RxXfer) : UART_RxXfer :=
  if decide (gState x = HAL_UART_STATE_BUSY_TX_RX)
  then mkRxXfer (RxXferCount x) (rx_buffer x) (pRxBuffPtr x) HAL_UART_STATE_BUSY_TX
         false (IT_PE x) (IT_ERR x)
  else mkRxXfer (RxXferCount x) (rx_buffer x) (pRxBuffPtr x) HAL_UART_STATE_READY
         false false false.

Section CharManager.
Context `{STM32_UART_HAL}.

Definition USART_ITCharManager (fuel : nat) (arrive : nat -> option Z) (huart : Z)
    (x : UART_RxXfer) (r : UART_Regs) (st : SerialState)
    : res (UART_RxXfer * UART_Regs * SerialState) :=
  let '(d, r) := read_DR r in
  let c := u8 d in
  if (RxXferCount x =? 1) || (c =? 13) then
    let cnt := u16 (RxXferCount x + 1) in
    let ptr := pRxBuffPtr x - 1 in
    buf <- wr (rx_buffer x) ptr 0 ;;
    t <- USART_Transmit huart [13; 10; 0] 2 st ;;
    let '(_, st) := t in
    r <- wait_rxne fuel arrive O r ;;
    Ok (end_reception (mkRxXfer cnt buf ptr (gState x) (IT_RXNE x) (IT_PE x) (IT_ERR x)), r, st)
  else Ok (x, r, st).

End CharManager.

(** ** Lemmas *)

(** RXNE stays set: the loop never reads DR. *)
Lemma wait_rxne_stuck fuel arrive k r :
  RXNE r = true -> wait_rxne fuel arrive k r = NoFuel.
Proof.
  revert k r. induction fuel as [|fuel IH]; intros k r Hr; [reflexivity|]. simpl.
  destruct (arrive k); simpl; [apply IH; reflexivity|]. rewrite Hr. apply IH, Hr.
Qed.

(** A byte arriving before a test sets RXNE for good. *)
Lemma wait_rxne_arrival fuel arrive k r c :
  arrive k = Some c -> wait_rxne fuel arrive k r = NoFuel.
Proof.
  intros Ha. destruct fuel; [reflexivity|]. simpl. rewrite Ha. simpl.
  apply wait_rxne_stuck. reflexivity.
Qed.

Lemma wait_rxne_clear fuel arrive k r :
  arrive k = None -> RXNE r = false -> wait_rxne (S fuel) arrive k r = Ok r.
Proof. intros Ha Hr. simpl. rewrite Ha, Hr. reflexivity. Qed.

Section CharManagerLemmas.
Context `{STM32_UART_HAL}.

(** The end of a line up to the wait loop. *)
Lemma CharManager_eol fuel arrive huart x r st h :
  huart <> 0 -> uart_objs st !! huart = Some h ->
  (RxXferCount x = 1 \/ u8 (DR r) = 13) ->
  1 <= pRxBuffPtr x <= Z.of_nat (length (rx_buffer x)) ->
  USART_ITCharManager fuel arrive huart x r st
  = (r' <- wait_rxne fuel arrive O (mkRegs (DR r) false) ;;
     Ok (end_reception (mkRxXfer (u16 (RxXferCount x + 1))
                          (<[Z.to_nat (pRxBuffPtr x - 1) := 0]> (rx_buffer x))
                          (pRxBuffPtr x - 1) (gState x) (IT_RXNE x) (IT_PE x) (IT_ERR x)),
         r', log_sent ([13; 10], HAL_UART_Transmit h [13; 10] 500) st)).
Proof.
  intros Hn Hh Hc Hp. unfold USART_ITCharManager, read_DR. cbn [fst snd].
  replace ((RxXferCount x =? 1) || (u8 (DR r) =? 13)) with true
    by (destruct Hc as [E|E]; rewrite E, ?Z.eqb_refl, ?orb_true_r; reflexivity).
  rewrite wr_ok by lia. rewrite res_bind_Ok.
  rewrite (USART_Transmit_ok huart _ 2 st h) by (auto; simpl; lia). rewrite res_bind_Ok.
  reflexivity.
Qed.

End CharManagerLemmas.

(** ** Theorems *)

Section CharManagerTheorems.
Context `{STM32_UART_HAL}.

(** C20: what [USART_ITCharManager] does with a received character.  Any
    character but a carriage return, with more than one byte left in
    the transfer, is left alone: only the read of DR (which clears RXNE)
    happens.  A carriage return, or the last byte of the transfer, ends
    the line.  With [pRxBuffPtr] at the start of its buffer, the
    routine writes the NUL before the buffer.  Otherwise, when no byte
    arrives during the wait, it replaces the last received byte by NUL,
    counts it back, echoes ["\r\n"] through [HAL_UART_Transmit] and ends
    the reception with the receive interrupt disabled. *)
Theorem CharManager_line_end fuel arrive huart x r st h :
  huart <> 0 -> uart_objs st !! huart = Some h ->
  (RxXferCount x <> 1 -> u8 (DR r) <> 13 ->
   USART_ITCharManager fuel arrive huart x r st = Ok (x, mkRegs (DR r) false, st))
  /\ ((RxXferCount x = 1 \/ u8 (DR r) = 13) ->
      (pRxBuffPtr x = 0 -> USART_ITCharManager fuel arrive huart x r st = Fault)
      /\ (1 <= pRxBuffPtr x <= Z.of_nat (length (rx_buffer x)) -> arrive O = None ->
          USART_ITCharManager (S fuel) arrive huart x r st
          = Ok (end_reception (mkRxXfer (u16 (RxXferCount x + 1))
                                 (<[Z.to_nat (pRxBuffPtr x - 1) := 0]> (rx_buffer x))
                                 (pRxBuffPtr x - 1) (gState x) false (IT_PE x) (IT_ERR x)),
                mkRegs (DR r) false, log_sent ([13; 10], HAL_UART_Transmit h [13; 10] 500) st))).
Proof.
  intros Hn Hh. split; [|intros Hc; split].
  - intros H1 H2. unfold USART_ITCharManager, read_DR. cbn [fst snd].
    rewrite (proj2 (Z.eqb_neq _ _) H1), (proj2 (Z.eqb_neq _ _) H2). reflexivity.
  - intros Hp. unfold USART_ITCharManager, read_DR. cbn [fst snd].
    replace ((RxXferCount x =? 1) || (u8 (DR r) =? 13)) with true
      by (destruct Hc as [E|E]; rewrite E, ?Z.eqb_refl, ?orb_true_r; reflexivity).
    rewrite Hp. reflexivity.
  - intros Hp Ha. rewrite (CharManager_eol _ _ _ _ _ _ h) by assumption.
    rewrite wait_rxne_clear by auto. rewrite res_bind_Ok.
    unfold end_reception. simpl. destruct (decide _); reflexivity.
Qed.

(** C19: the RXNE wait of [USART_ITCharManager] never ends once a byte
    arrives.  When a line ends and another byte reaches the UART before
    the first test of RXNE (the line feed that follows a carriage
    return, which arrives while the routine echoes ["\r\n"] at the same
    baud rate), the routine spins for ever: only a read of DR clears
    RXNE, and the loop reads the status register alone. *)
Theorem CharManager_spins fuel arrive huart x r st h c :
  huart <> 0 -> uart_objs st !! huart = Some h ->
  (RxXferCount x = 1 \/ u8 (DR r) = 13) ->
  1 <= pRxBuffPtr x <= Z.of_nat (length (rx_buffer x)) ->
  arrive O = Some c ->
  USART_ITCharManager fuel arrive huart x r st = NoFuel.
Proof.
  intros Hn Hh Hc Hp Ha. rewrite (CharManager_eol _ _ _ _ _ _ h) by assumption.
  rewrite (wait_rxne_arrival _ _ _ _ c Ha). reflexivity.
Qed.

End CharManagerTheorems.

(** ** Witnesses: an STM32F4 whose transmits succeed *)

#[local] Instance F4_ok : STM32_UART_HAL := F4_HAL HAL_OK.

(** ["Hi\r"] received with 61 bytes of the transfer left, the pointer
    after the carriage return; DR holds the carriage return. *)
Definition x_line : UART_RxXfer :=
  mkRxXfer 61 [72; 105; 13] 3 HAL_UART_STATE_BUSY_RX true true true.

Definition r_cr : UART_Regs := mkRegs 13 true.

(** The line feed of a CR LF terminal. *)
Definition lf_arrives (k : nat) : option Z := if (k =? 0)%nat then Some 10 else None.

Lemma CharManager_line_end_witness :
  USART_ITCharManager 1 (fun _ => None) 536871168 x_line r_cr st_open
  = Ok (mkRxXfer 62 [72; 105; 0] 2 HAL_UART_STATE_READY false false false,
        mkRegs 13 false, log_sent ([13; 10], HAL_OK) st_open).
Proof.
  destruct (CharManager_line_end 0 (fun _ => None) 536871168 x_line r_cr st_open huart6
              ltac:(discriminate) eq_refl) as [_ H2].
  destruct (H2 (or_intror eq_refl)) as [_ H3].
  refine (eq_trans (H3 ltac:(simpl; lia) eq_refl) _). vm_compute. reflexivity.
Defined.

Lemma CharManager_spins_witness :
  USART_ITCharManager 1000 lf_arrives 536871168 x_line r_cr st_open = NoFuel.
Proof.
  apply (CharManager_spins 1000 lf_arrives 536871168 x_line r_cr st_open huart6 10);
    first [discriminate | reflexivity | right; reflexivity | simpl; lia].
Defined.
