(* ===== verification/SerialFormat.v ===== *)
(** * Number formatting of [SerialDevice.c]: [num2str], [str2num], [num2hex]

    The response routines print every number through these helpers.
    [num2str] writes the decimal digits of a [uint32_t] into the caller's
    buffer (always [uint8_t str[8]] in [WiMOD_LoRaWAN_API.c]); [str2num]
    parses a NUL-terminated digit string into a [uint32_t]; [num2hex]
    formats 1, 2, 4 or 8 hexadecimal digits into its static buffer
    [HexValue[9]] and returns that buffer.

    Buffers are byte lists and every store is a checked [wr]: a store
    outside the buffer is a [Fault].  Variables keep their C widths: the
    digit index of [str2num] and the quotient [k] of [num2str] are
    [uint8_t], the accumulators [uint32_t].  The [while] loops run on
    fuel; the fuel constants (7 for [num2str], 256 for [str2num]) are
    proved enough, or, for [str2num] over 256 digits, proved to be what
    the wrap-around of the [uint8_t] index makes the loop need. *)

From Stdlib Require Import ZArith Lia List.
From stdpp Require Import base list decidable.
From S2P Require Import Prelude.
Import ListNotations.
Open Scope Z_scope.
Open Scope wimod_scope.

(** ** [num2str] (lines 429-458) *)

(** [for (k = 0; k < 7; k++) pstrbuff[k] = '\0';] *)
Fixpoint num2str_reset (n : nat) (str : list Z) (k : Z) : res (list Z) :=
  match n with
  | O => Ok str
  | S n' => s <- wr str k 0 ;; num2str_reset n' s (k + 1)
  end.

(** [while (!(nbr / divisor)) divisor /= 10;] *)
Fixpoint num2str_skip (fuel : nat) (nbr divisor : Z) : res Z :=
  match fuel with
  | O => NoFuel
  | S fuel' =>
      if divisor =? 0 then Fault
      else if nbr / divisor =? 0 then num2str_skip fuel' nbr (divisor / 10)
      else Ok divisor
  end.

(** [while (divisor >= 10) { k = nbr / divisor; *pstrbuff++ = '0' + k;
    nbr = nbr - (k * divisor); divisor /= 10; }] with [k] a [uint8_t];
    the state is the buffer, the write position and [nbr]. *)
Fixpoint num2str_digits (fuel : nat) (str : list Z) (pos nbr divisor : Z)
    : res (list Z * Z * Z) :=
  match fuel with
  | O => NoFuel
  | S fuel' =>
      if divisor >=? 10 then
        let k := u8 (nbr / divisor) in
        s <- wr str pos (u8 (48 + k)) ;;
        num2str_digits fuel' s (pos + 1) (u32 (nbr - k * divisor)) (divisor / 10)
      else Ok (str, pos, nbr)
  end.

Definition num2str (nbr : Z) (str : list Z) : res (list Z) :=
  s <- num2str_reset 7 str 0 ;;
  r <- (if nbr =? 0 then Ok (s, 0, nbr)
        else divisor <- num2str_skip 7 nbr 1000000 ;; num2str_digits 7 s 0 nbr divisor) ;;
  let '(s, pos, nbr) := r in
  s <- wr s pos (u8 (48 + nbr)) ;;
  wr s (pos + 1) 0.

(** ** [str2num] (lines 392-419) *)

(** [FlagStatus] of the STM32 HAL. *)
Inductive FlagStatus := RESET | SET.

#[export] Instance FlagStatus_eq_dec : EqDecision FlagStatus.
Proof. solve_decision. Defined.

Definition is_digit (c : Z) : bool := (48 <=? c) && (c <=? 57).

(** [while (str[digit] != '\0') { if (str[digit] is a digit) digit++;
    else { *pnum = 0; return RESET; } }]: the number of digits, or [None]
    on the first character that is not one. *)
Fixpoint str2num_scan (fuel : nat) (str : list Z) (digit : Z) : res (option Z) :=
  match fuel with
  | O => NoFuel
  | S fuel' =>
      c <- rd str digit ;;
      if c =? 0 then Ok (Some digit)
      else if is_digit c then str2num_scan fuel' str (u8 (digit + 1))
      else Ok None
  end.

(** [do { TxtStr_digit = str[--digit]; number += ((TxtStr_digit - '0')
    * tenpwr); tenpwr *= 10; } while (digit);] *)
Fixpoint str2num_acc (fuel : nat) (str : list Z) (digit number tenpwr : Z) : res Z :=
  match fuel with
  | O => NoFuel
  | S fuel' =>
      let digit := u8 (digit - 1) in
      c <- rd str digit ;;
      let number := u32 (number + (c - 48) * tenpwr) in
      let tenpwr := u32 (tenpwr * 10) in
      if digit =? 0 then Ok number else str2num_acc fuel' str digit number tenpwr
  end.

Definition str2num (str : list Z) : res (FlagStatus * Z) :=
  r <- str2num_scan 256 str 0 ;;
  match r with
  | None => Ok (RESET, 0)
  | Some digit => number <- str2num_acc 256 str digit 0 1 ;; Ok (SET, number)
  end.

(** ** [num2hex] (lines 468-505) *)

Inductive eHexFormat := HALFBYTE_F | BYTE_F | WORD_F | DOUBLEWORD_F.

Definition hex_digits (f : eHexFormat) : Z :=
  match f with HALFBYTE_F => 1 | BYTE_F => 2 | WORD_F => 4 | DOUBLEWORD_F => 8 end.

(** [HexValue[i] = '\0'; dummy = (num & (0x0F << s)) >> s;] with
    [s = ((HexDigits - 1) - i) * 4], then the digit or letter. *)
Definition hex_char (dummy : Z) : Z :=
  if dummy <? 10 then u8 (dummy + 48) else u8 (dummy - 10 + 65).

Fixpoint num2hex_loop (fuel : nat) (HexValue : list Z) (HexDigits i num : Z)
    : res (list Z * Z) :=
  match fuel with
  | O => NoFuel
  | S fuel' =>
      if i <? HexDigits then
        h <- wr HexValue i 0 ;;
        let sh := ((HexDigits - 1) - i) * 4 in
        let dummy := u8 (Z.shiftr (Z.land num (Z.shiftl 15 sh)) sh) in
        h <- wr h i (hex_char dummy) ;;
        num2hex_loop fuel' h HexDigits (i + 1) num
      else Ok (HexValue, i)
  end.

(** The static [HexValue] is the state; the result is its new contents,
    which is also what the returned pointer designates. *)
Definition num2hex (HexValue : list Z) (num : Z) (f : eHexFormat) : res (list Z) :=
  r <- num2hex_loop 9 HexValue (hex_digits f) 0 num ;;
  let '(h, i) := r in
  wr h i 0.

(** ** Reading the results *)

(** The C string a buffer holds: its bytes up to the first NUL. *)
Fixpoint cstr (l : list Z) : list Z :=
  match l with
  | [] => []
  | c :: t => if c =? 0 then [] else c :: cstr t
  end.

Lemma cstr_app_nul l t : cstr (l ++ 0 :: t) = cstr l.
Proof. induction l as [|c l IH]; simpl; [reflexivity|]. destruct (c =? 0); [|rewrite IH]; reflexivity. Qed.

Lemma cstr_idem l : cstr (cstr l) = cstr l.
Proof. induction l as [|c l IH]; simpl; [reflexivity|]. destruct (Z.eqb_spec c 0); simpl; [reflexivity|]. destruct (Z.eqb_spec c 0); [lia|]. rewrite IH. reflexivity. Qed.

(** The [k] lowest digits of [n] in base [b], most significant first,
    each turned into a character by [ch]. *)
Fixpoint radix_digits (b : Z) (ch : Z -> Z) (k : nat) (n : Z) : list Z :=
  match k with
  | O => []
  | S k' => ch ((n / b ^ Z.of_nat k') mod b) :: radix_digits b ch k' n
  end.

(** The value of a digit string in base [b], most significant first. *)
Definition radix_value (b : Z) (val : Z -> Z) (l : list Z) : Z :=
  fold_left (fun a c => a * b + val c) l 0.

Definition digits : nat -> Z -> list Z := radix_digits 10 (fun x => 48 + x).
Definition dec_value : list Z -> Z := radix_value 10 (fun c => c - 48).

Fixpoint ndigits (fuel : nat) (n : Z) : nat :=
  match fuel with
  | O => 1
  | S fuel' => if n <? 10 then 1 else S (ndigits fuel' (n / 10))
  end.

(** The decimal representation of a [uint32_t] (at most 10 digits). *)
Definition decimal (n : Z) : list Z := digits (ndigits 10 n) n.

Definition hexdigits : nat -> Z -> list Z := radix_digits 16 hex_char.

Definition hex_nibble (c : Z) : Z := if c <=? 57 then c - 48 else c - 55.
Definition hex_value : list Z -> Z := radix_value 16 hex_nibble.

(** ** Digit strings *)

Section Radix.
Variable b : Z.
Hypothesis Hb : 1 < b.

Lemma radix_digits_snoc ch k n :
  radix_digits b ch (S k) n = radix_digits b ch k (n / b) ++ [ch (n mod b)].
Proof.
  revert n; induction k as [|k IH]; intros n.
  - simpl. rewrite Z.div_1_r. reflexivity.
  - change (radix_digits b ch (S (S k)) n)
      with (ch ((n / b ^ Z.of_nat (S k)) mod b) :: radix_digits b ch (S k) n).
    rewrite IH. simpl. rewrite Z.div_div by (try apply Z.pow_pos_nonneg; lia).
    rewrite Nat2Z.inj_succ, Z.pow_succ_r by lia. rewrite (Z.mul_comm b). reflexivity.
Qed.

Lemma length_radix_digits ch k n : length (radix_digits b ch k n) = k.
Proof. induction k; simpl; auto. Qed.

Lemma radix_digits_In ch k n c :
  In c (radix_digits b ch k n) -> exists x, 0 <= x < b /\ c = ch x.
Proof.
  induction k as [|k IH]; simpl; [tauto|]. intros [<-|Hc]; [|auto].
  eexists. split; [apply Z.mod_pos_bound; lia|reflexivity].
Qed.

Lemma radix_value_snoc val l c : radix_value b val (l ++ [c]) = radix_value b val l * b + val c.
Proof. unfold radix_value. rewrite fold_left_app. reflexivity. Qed.

(** Reading back [k] digits gives [n] modulo [b^k]. *)
Lemma radix_value_digits ch val k n :
  (forall x, 0 <= x < b -> val (ch x) = x) -> 0 <= n ->
  radix_value b val (radix_digits b ch k n) = n mod b ^ Z.of_nat k.
Proof.
  intros Hv. revert n; induction k as [|k IH]; intros n Hn.
  - simpl. rewrite Z.mod_1_r. reflexivity.
  - rewrite radix_digits_snoc, radix_value_snoc, IH by (apply Z.div_pos; lia).
    rewrite Hv by (apply Z.mod_pos_bound; lia).
    rewrite Nat2Z.inj_succ, Z.pow_succ_r by lia.
    rewrite Z.rem_mul_r by (try apply Z.pow_pos_nonneg; lia). lia.
Qed.

End Radix.

(** ** Lemmas on [num2str] *)

Section Num2StrLemmas.

Lemma num2str_reset_wr_seq n str k : num2str_reset n str k = wr_seq str k (repeat 0 n).
Proof.
  revert str k; induction n as [|n IH]; intros str k; simpl; [reflexivity|].
  destruct (wr str k 0); simpl; [apply IH|reflexivity..].
Qed.

Lemma pow10_pos (j : nat) : 0 < 10 ^ Z.of_nat j.
Proof. apply Z.pow_pos_nonneg; lia. Qed.

Lemma pow10_S (j : nat) : 10 ^ Z.of_nat (S j) = 10 ^ Z.of_nat j * 10.
Proof. rewrite Nat2Z.inj_succ, Z.pow_succ_r by lia. lia. Qed.

(** The digit at [10^j] and the remainder below it. *)
Lemma mod_pow10_split n (j : nat) :
  n mod (10 ^ Z.of_nat (S j)) = n mod 10 ^ Z.of_nat j + 10 ^ Z.of_nat j * ((n / 10 ^ Z.of_nat j) mod 10).
Proof. rewrite pow10_S. apply Z.rem_mul_r; [pose proof (pow10_pos j); lia | lia]. Qed.

Lemma div_mod_pow10 n (j : nat) :
  (n mod 10 ^ Z.of_nat (S j)) / 10 ^ Z.of_nat j = (n / 10 ^ Z.of_nat j) mod 10.
Proof.
  pose proof (pow10_pos j). rewrite mod_pow10_split, Z.add_comm, Z.mul_comm.
  rewrite Z.div_add_l by lia.
  rewrite (Z.div_small (n mod _)) by (apply Z.mod_pos_bound; lia). lia.
Qed.

Lemma div10_pow10 n (j : nat) : n / 10 / 10 ^ Z.of_nat j = n / 10 ^ Z.of_nat (S j).
Proof. rewrite Z.div_div, pow10_S by (pose proof (pow10_pos j); lia). f_equal. lia. Qed.

Lemma pow10_div10 (j : nat) : 10 ^ Z.of_nat (S j) / 10 = 10 ^ Z.of_nat j.
Proof. rewrite pow10_S. apply Z.div_mul. lia. Qed.

Lemma pow10_le (i j : nat) : (i <= j)%nat -> 10 ^ Z.of_nat i <= 10 ^ Z.of_nat j.
Proof. intros. apply Z.pow_le_mono_r; lia. Qed.

Lemma digit_range n (j : nat) : 0 <= (n / 10 ^ Z.of_nat j) mod 10 < 10.
Proof. apply Z.mod_pos_bound. lia. Qed.

Lemma digits_snoc k n : digits (S k) n = digits k (n / 10) ++ [48 + n mod 10].
Proof. apply radix_digits_snoc. lia. Qed.

Lemma length_digits k n : length (digits k n) = k.
Proof. apply length_radix_digits. Qed.

Lemma digits_are_digits k n c : In c (digits k n) -> 48 <= c <= 57.
Proof. intros H. apply radix_digits_In in H as (x & Hx & ->); lia. Qed.

(** The skipping loop stops at the highest power of ten below [nbr]. *)
Lemma num2str_skip_spec (j : nat) fuel nbr :
  1 <= nbr < 10 ^ Z.of_nat (S j) -> (j < fuel)%nat ->
  exists e, (e <= j)%nat /\ 10 ^ Z.of_nat e <= nbr < 10 ^ Z.of_nat (S e)
         /\ num2str_skip fuel nbr (10 ^ Z.of_nat j) = Ok (10 ^ Z.of_nat e).
Proof.
  revert fuel; induction j as [|j IH]; intros [|fuel] Hn Hf; try lia; cbn [num2str_skip].
  - destruct (Z.eqb_spec (nbr / 10 ^ Z.of_nat 0) 0) as [E|E]; simpl in *.
    + rewrite Z.div_1_r in E. lia.
    + exists 0%nat. simpl. split; [lia|]. split; [lia|reflexivity].
  - pose proof (pow10_pos j). pose proof (pow10_pos (S j)).
    destruct (Z.eqb_spec (10 ^ Z.of_nat (S j)) 0); [lia|].
    destruct (Z.eqb_spec (nbr / 10 ^ Z.of_nat (S j)) 0) as [E|E].
    + rewrite Z.div_small_iff in E by lia. destruct E as [E|E]; [|lia].
      rewrite pow10_div10. destruct (IH fuel) as (e & He & Hr & Hs); [lia..|].
      exists e. split; [lia|]. split; assumption.
    + exists (S j). split; [lia|]. split; [|reflexivity].
      split; [|lia]. destruct (Z.le_gt_cases (10 ^ Z.of_nat (S j)) nbr); [lia|].
      exfalso. apply E. apply Z.div_small. lia.
Qed.

(** The digit loop writes the [j] digits of [n / 10] from position
    [pos] and leaves the units digit in [nbr]. *)
Lemma num2str_digits_spec (j : nat) fuel str pos n :
  0 <= n -> (j <= 9)%nat -> (j < fuel)%nat ->
  num2str_digits fuel str pos (n mod 10 ^ Z.of_nat (S j)) (10 ^ Z.of_nat j)
  = (s <- wr_seq str pos (digits j (n / 10)) ;; Ok (s, pos + Z.of_nat j, n mod 10)).
Proof.
  revert fuel str pos; induction j as [|j IH]; intros [|fuel] str pos Hn Hj Hf; try lia;
    cbn [num2str_digits].
  - simpl. rewrite Z.add_0_r. reflexivity.
  - pose proof (pow10_pos j). pose proof (pow10_le 1 (S j)).
    destruct (Z.geb_spec (10 ^ Z.of_nat (S j)) 10); [|simpl in *; lia].
    rewrite div_mod_pow10, (wrap_small 8 ((n / _) mod 10)) by (pose proof (digit_range n (S j)); simpl; lia).
    rewrite (wrap_small 8 (48 + _)) by (pose proof (digit_range n (S j)); simpl; lia).
    change (digits (S j) (n / 10)) with
      ((48 + (n / 10 / 10 ^ Z.of_nat j) mod 10) :: digits j (n / 10)).
    rewrite div10_pow10. cbn [wr_seq].
    destruct (wr str pos _) as [s| |]; cbn [res_bind]; [|reflexivity..].
    rewrite pow10_div10.
    replace (n mod 10 ^ Z.of_nat (S (S j)) - (n / 10 ^ Z.of_nat (S j)) mod 10 * 10 ^ Z.of_nat (S j))
      with (n mod 10 ^ Z.of_nat (S j)) by (rewrite (mod_pow10_split n (S j)); lia).
    rewrite wrap_small.
    + rewrite IH by lia. destruct (wr_seq s (pos + 1) _); simpl; [|reflexivity..].
      do 3 f_equal. lia.
    + pose proof (Z.mod_pos_bound n (10 ^ Z.of_nat (S j))) as Hm.
      pose proof (pow10_le (S j) 9). simpl (10 ^ Z.of_nat 9) in *. simpl (2 ^ 32). lia.
Qed.

(** The two final stores, after the digit loop, extend the digits with
    the units character and the NUL. *)
Lemma num2str_tail s0 D d :
  (r <- (s' <- wr_seq s0 0 D ;; Ok (s', Z.of_nat (length D), d)) ;;
   let '(s, pos, nbr) := r in s <- wr s pos (u8 (48 + nbr)) ;; wr s (pos + 1) 0)
  = wr_seq s0 0 (D ++ [u8 (48 + d); 0]).
Proof.
  rewrite wr_seq_app. destruct (wr_seq s0 0 D); simpl; [|reflexivity..].
  rewrite Z.add_0_l. destruct (wr _ _ _); simpl; [|reflexivity..].
  destruct (wr _ _ _); reflexivity.
Qed.

Lemma ndigits_spec (e : nat) fuel n :
  10 ^ Z.of_nat e <= n < 10 ^ Z.of_nat (S e) -> (e < fuel)%nat -> ndigits fuel n = S e.
Proof.
  revert fuel n; induction e as [|e IH]; intros [|fuel] n Hn Hf; try lia; cbn [ndigits].
  - simpl in Hn. destruct (Z.ltb_spec n 10); [reflexivity|lia].
  - pose proof (pow10_le 1 (S e)). simpl (10 ^ Z.of_nat 1) in *.
    destruct (Z.ltb_spec n 10); [lia|]. f_equal. apply IH; [|lia].
    pose proof (pow10_pos e). rewrite pow10_S in Hn. rewrite (pow10_S (S e)) in Hn.
    rewrite pow10_S in Hn |- *. split.
    + apply Z.div_le_lower_bound; lia.
    + apply Z.div_lt_upper_bound; lia.
Qed.

Lemma ndigits_ge (k : nat) fuel n :
  10 ^ Z.of_nat k <= n -> (k < fuel)%nat -> (S k <= ndigits fuel n)%nat.
Proof.
  revert fuel n; induction k as [|k IH]; intros [|fuel] n Hn Hf; try lia; cbn [ndigits].
  - destruct (n <? 10); lia.
  - pose proof (pow10_le 1 (S k)). simpl (10 ^ Z.of_nat 1) in *.
    destruct (Z.ltb_spec n 10); [lia|]. apply le_n_S, IH; [|lia].
    pose proof (pow10_pos k). rewrite pow10_S in Hn. apply Z.div_le_lower_bound; lia.
Qed.

(** Below [10^7], [num2str] leaves the decimal representation and a NUL
    at the start of the buffer. *)
Lemma num2str_small nbr str :
  0 <= nbr < 10 ^ 7 -> length str = 8%nat ->
  num2str nbr str
  = Ok (decimal nbr ++ 0 :: drop (S (length (decimal nbr))) (repeat 0 7 ++ drop 7 str)).
Proof.
  intros Hn Hl. unfold num2str. rewrite num2str_reset_wr_seq, wr_seq_ok by (simpl; lia).
  rewrite res_bind_Ok. simpl (take _ str). rewrite app_nil_l.
  change (Z.to_nat 0) with 0%nat.
  set (s0 := repeat 0 7 ++ drop (0 + length (repeat 0 7)) str).
  assert (Hs0 : length s0 = 8%nat) by (unfold s0; rewrite length_app, length_drop; simpl; lia).
  destruct (Z.eqb_spec nbr 0) as [->|Hz].
  - rewrite res_bind_Ok. cbv beta iota. simpl (u8 (48 + 0)). simpl (0 + 1).
    rewrite wr_ok, res_bind_Ok, wr_ok by (rewrite ?length_insert; lia).
    unfold s0. reflexivity.
  - destruct (num2str_skip_spec 6 7 nbr) as (e & He & Hr & Hs); [simpl; lia|lia|].
    change 1000000 with (10 ^ Z.of_nat 6). rewrite Hs, res_bind_Ok.
    replace (num2str_digits 7 s0 0 nbr) with (num2str_digits 7 s0 0 (nbr mod 10 ^ Z.of_nat (S e)))
      by (rewrite Z.mod_small by lia; reflexivity).
    rewrite num2str_digits_spec by lia.
    rewrite Z.add_0_l.
    replace (Z.of_nat e) with (Z.of_nat (length (digits e (nbr / 10))))
      by (rewrite length_digits; reflexivity).
    rewrite num2str_tail.
    rewrite (wrap_small 8 (48 + _)) by (pose proof (Z.mod_pos_bound nbr 10); simpl; lia).
    change [48 + nbr mod 10; 0] with ([48 + nbr mod 10] ++ [0]).
    rewrite app_assoc, <- digits_snoc.
    unfold decimal. rewrite (ndigits_spec e) by lia.
    rewrite wr_seq_ok by (rewrite ?length_app, ?length_digits, ?Hs0; simpl; lia).
    change (Z.to_nat 0) with 0%nat. rewrite take_0, app_nil_l, <- app_assoc.
    rewrite length_app, length_digits. simpl (length [0]). simpl (0 + _)%nat.
    unfold s0. rewrite Nat.add_1_r. reflexivity.
Qed.

Lemma cstr_nul l k : (k < length l)%nat -> nth k l 0 = 0 -> (length (cstr l) <= k)%nat.
Proof.
  revert k; induction l as [|c l IH]; intros k Hk Hn; simpl in *; [lia|].
  destruct k as [|k]; [subst c; simpl; lia|].
  destruct (c =? 0); simpl; [lia|]. specialize (IH k). lia.
Qed.

Lemma cstr_digits l t : (forall c, In c l -> 0 < c) -> cstr (l ++ 0 :: t) = l.
Proof.
  induction l as [|c l IH]; intros Hd; simpl; [reflexivity|].
  destruct (Z.eqb_spec c 0); [specialize (Hd c (or_introl eq_refl)); lia|].
  f_equal. apply IH. intros x Hx. apply Hd. right. exact Hx.
Qed.

(** Whatever [nbr] is, the digit loop stays inside the buffer. *)
Lemma num2str_digits_inside (j : nat) fuel str pos nbr :
  (j < fuel)%nat -> 0 <= pos -> pos + Z.of_nat j <= Z.of_nat (length str) ->
  exists s nbr', num2str_digits fuel str pos nbr (10 ^ Z.of_nat j) = Ok (s, pos + Z.of_nat j, nbr')
              /\ length s = length str.
Proof.
  revert fuel str pos nbr; induction j as [|j IH]; intros [|fuel] str pos nbr Hf Hp Hl; try lia;
    cbn [num2str_digits].
  - simpl. exists str, nbr. rewrite Z.add_0_r. auto.
  - pose proof (pow10_le 1 (S j)). simpl (10 ^ Z.of_nat 1) in *.
    destruct (Z.geb_spec (10 ^ Z.of_nat (S j)) 10); [|lia].
    rewrite wr_ok, res_bind_Ok by lia. rewrite pow10_div10.
    destruct (IH fuel (<[Z.to_nat pos := u8 (48 + u8 (nbr / 10 ^ Z.of_nat (S j)))]> str) (pos + 1)
                (u32 (nbr - u8 (nbr / 10 ^ Z.of_nat (S j)) * 10 ^ Z.of_nat (S j))))
      as (s & nbr' & E & Hs); [lia|lia|rewrite length_insert; lia|].
    rewrite E. exists s, nbr'. rewrite Hs, length_insert. split; [|reflexivity]. do 3 f_equal. lia.
Qed.

End Num2StrLemmas.

(** ** Lemmas on [str2num] and [num2hex] *)

Section ParseLemmas.

(** The scan counts the digits up to the NUL. *)
Lemma str2num_scan_digits (k : nat) fuel str i :
  0 <= i -> i + Z.of_nat k < 256 -> i + Z.of_nat k < Z.of_nat (length str) -> (k < fuel)%nat ->
  (forall j, i <= j < i + Z.of_nat k -> is_digit (byte str j) = true) ->
  byte str (i + Z.of_nat k) = 0 ->
  str2num_scan fuel str i = Ok (Some (i + Z.of_nat k)).
Proof.
  revert fuel i; induction k as [|k IH]; intros [|fuel] i Hi H256 Hl Hf Hd H0; try lia;
    cbn [str2num_scan]; rewrite rd_byte, res_bind_Ok by lia.
  - rewrite Z.add_0_r in *. rewrite H0. reflexivity.
  - assert (Hdi : is_digit (byte str i) = true) by (apply Hd; lia).
    unfold is_digit in Hdi. rewrite andb_true_iff, !Z.leb_le in Hdi.
    destruct (Z.eqb_spec (byte str i) 0); [lia|].
    unfold is_digit. replace ((48 <=? byte str i) && (byte str i <=? 57)) with true
      by (symmetry; apply andb_true_iff; split; apply Z.leb_le; lia).
    rewrite wrap_small by (simpl; lia).
    rewrite (IH fuel (i + 1))
      by first [lia | intros; apply Hd; lia | rewrite <- H0; f_equal; lia].
    do 2 f_equal. lia.
Qed.

Lemma u32_add_mul_idemp a c t : u32 (a + u32 c * t) = u32 (a + c * t).
Proof.
  unfold wrap. rewrite Z.add_mod, (Z.add_mod a (c * t)), Z.mul_mod, (Z.mul_mod c t), Z.mod_mod
    by (apply Z.pow_nonzero; lia).
  reflexivity.
Qed.

Lemma u32_add_idemp a c : u32 (u32 a + c) = u32 (a + c).
Proof. unfold wrap. apply Z.add_mod_idemp_l. apply Z.pow_nonzero; lia. Qed.

(** The accumulation reads the [d] digits before the NUL back to front
    and computes their value modulo [2^32]. *)
Lemma str2num_acc_spec (d : nat) fuel str number tenpwr :
  (1 <= d)%nat -> Z.of_nat d <= 255 -> Z.of_nat d <= Z.of_nat (length str) -> (d <= fuel)%nat ->
  str2num_acc fuel str (Z.of_nat d) number tenpwr
  = Ok (u32 (number + tenpwr * dec_value (take d str))).
Proof.
  revert fuel number tenpwr; induction d as [|d IH]; intros [|fuel] number tenpwr H1 H255 Hl Hf;
    try lia; cbn [str2num_acc].
  rewrite (wrap_small 8 (Z.of_nat (S d) - 1)) by (simpl; lia).
  replace (Z.of_nat (S d) - 1) with (Z.of_nat d) by lia.
  rewrite rd_byte, res_bind_Ok by lia.
  rewrite (take_S_r _ _ (byte str (Z.of_nat d))); cycle 1.
  { rewrite <- (Nat2Z.id d) at 1. apply lookup_byte. lia. }
  unfold dec_value. rewrite radix_value_snoc by lia. fold dec_value.
  destruct (Z.eqb_spec (Z.of_nat d) 0) as [E|E].
  - assert (d = 0%nat) as -> by lia. rewrite take_0. change (dec_value []) with 0.
    do 2 f_equal. lia.
  - rewrite IH by lia. f_equal.
    rewrite u32_add_mul_idemp, (Z.add_comm (u32 _)), Z.add_comm, u32_add_idemp.
    f_equal. lia.
Qed.

Lemma dec_value_digits k n : 0 <= n -> dec_value (digits k n) = n mod 10 ^ Z.of_nat k.
Proof. intros. apply radix_value_digits; [lia|intros; lia|assumption]. Qed.

Lemma hex_nibble_char x : 0 <= x < 16 -> hex_nibble (hex_char x) = x.
Proof.
  intros. unfold hex_nibble, hex_char.
  destruct (Z.ltb_spec x 10); rewrite wrap_small by (simpl; lia).
  - rewrite (proj2 (Z.leb_le _ _)) by lia. lia.
  - rewrite (proj2 (Z.leb_gt _ _)) by lia. lia.
Qed.

Lemma hex_char_range x : 0 <= x < 16 -> 48 <= hex_char x <= 57 \/ 65 <= hex_char x <= 70.
Proof. intros. unfold hex_char. destruct (Z.ltb_spec x 10); rewrite wrap_small by (simpl; lia); lia. Qed.

Lemma hexdigits_nonzero k n c : In c (hexdigits k n) -> 48 <= c <= 57 \/ 65 <= c <= 70.
Proof. intros H. apply radix_digits_In in H as (x & Hx & ->); [apply hex_char_range; lia|lia]. Qed.

(** [(num & (0x0F << s)) >> s] is the nibble of [num] at bit [s]. *)
Lemma nibble_mask num s : 0 <= s -> Z.shiftr (Z.land num (Z.shiftl 15 s)) s = (num / 2 ^ s) mod 16.
Proof. intros. change 15 with (Z.ones 4). rewrite mask_field, bit_field_div by lia. reflexivity. Qed.

Lemma num2hex_loop_spec (k : nat) fuel h d i num :
  0 <= i -> d = i + Z.of_nat k -> (k < fuel)%nat ->
  num2hex_loop fuel h d i num = (h' <- wr_seq h i (hexdigits k num) ;; Ok (h', d)).
Proof.
  revert fuel h i; induction k as [|k IH]; intros [|fuel] h i Hi Hd Hf; try lia;
    cbn [num2hex_loop].
  - destruct (Z.ltb_spec i d); [lia|]. simpl. f_equal. f_equal. lia.
  - destruct (Z.ltb_spec i d); [|lia].
    rewrite (wr_wr h i 0). cbv zeta.
    replace ((d - 1 - i) * 4) with (4 * Z.of_nat k) by lia.
    rewrite nibble_mask by lia.
    rewrite wrap_small by (pose proof (Z.mod_pos_bound (num / 2 ^ (4 * Z.of_nat k)) 16); simpl; lia).
    rewrite Z.pow_mul_r by lia. change (2 ^ 4) with 16.
    change (hexdigits (S k) num) with (hex_char ((num / 16 ^ Z.of_nat k) mod 16) :: hexdigits k num).
    cbn [wr_seq]. destruct (wr h i _); cbn [res_bind]; [|reflexivity..].
    apply IH; lia.
Qed.

End ParseLemmas.

Section FormatTheorems.

Lemma decimal_small nbr :
  0 <= nbr < 10 ^ 7 ->
  exists k, (k <= 6)%nat /\ decimal nbr = digits (S k) nbr /\ nbr < 10 ^ Z.of_nat (S k).
Proof.
  intros Hn. destruct (Z.eqb_spec nbr 0) as [->|Hz].
  - exists 0%nat. split; [lia|]. split; reflexivity.
  - destruct (num2str_skip_spec 6 7 nbr) as (e & He & Hr & _); [simpl; lia|lia|].
    exists e. split; [lia|]. split; [|lia]. unfold decimal. rewrite (ndigits_spec e); auto; lia.
Qed.

Lemma decimal_in_range nbr c : In c (decimal nbr) -> 0 < c.
Proof. unfold decimal. intros H. apply digits_are_digits in H. lia. Qed.

(** C15: [num2str] is correct below [10^7]: for every [nbr < 10^7] and
    every 8-byte buffer (the [uint8_t str[8]] of every caller), it
    returns normally, stays inside the buffer and leaves there the
    NUL-terminated decimal representation of [nbr]. *)
Theorem num2str_decimal nbr str :
  0 <= nbr < 10 ^ 7 -> length str = 8%nat ->
  exists s, num2str nbr str = Ok s /\ length s = 8%nat /\ cstr s = decimal nbr.
Proof.
  intros Hn Hl. rewrite num2str_small by assumption. eexists. split; [reflexivity|].
  destruct (decimal_small nbr Hn) as (k & Hk & Hd & _). split.
  - rewrite length_app. cbn [length].
    rewrite length_drop, length_app, repeat_length, length_drop, Hd, length_digits. lia.
  - apply cstr_digits, decimal_in_range.
Qed.

(** C16: [num2str] prints any [uint32_t] of eight or more digits wrong:
    its divisor starts at [10^6] and its quotient is a [uint8_t], so for
    [10^7 <= nbr < 2^32] it writes at most seven characters before the
    NUL at [str[7]], while [nbr] has at least eight digits.  It still
    stays inside the 8-byte buffer. *)
Theorem num2str_truncates nbr str :
  10 ^ 7 <= nbr < 2 ^ 32 -> length str = 8%nat ->
  exists s, num2str nbr str = Ok s /\ length s = 8%nat
         /\ (length (cstr s) <= 7)%nat /\ (8 <= length (decimal nbr))%nat.
Proof.
  intros Hn Hl. unfold num2str. rewrite num2str_reset_wr_seq, wr_seq_ok by (simpl; lia).
  rewrite res_bind_Ok.
  set (s0 := take (Z.to_nat 0) str ++ repeat 0 7 ++ drop (Z.to_nat 0 + length (repeat 0 7)) str).
  assert (Hs0 : length s0 = 8%nat)
    by (unfold s0; rewrite !length_app, length_drop, length_take; simpl; lia).
  destruct (Z.eqb_spec nbr 0); [lia|].
  cbn [num2str_skip]. simpl (1000000 =? 0).
  destruct (Z.eqb_spec (nbr / 1000000) 0) as [E|_].
  { rewrite Z.div_small_iff in E by lia. lia. }
  rewrite res_bind_Ok. change 1000000 with (10 ^ Z.of_nat 6).
  destruct (num2str_digits_inside 6 7 s0 0 nbr) as (s & nbr' & E & Hs); [lia|lia|lia|].
  rewrite E, res_bind_Ok. cbv beta iota.
  rewrite wr_ok, res_bind_Ok, wr_ok by (rewrite ?length_insert; lia).
  eexists. split; [reflexivity|]. rewrite !length_insert. split; [lia|]. split.
  - apply (cstr_nul _ 7); [rewrite !length_insert; lia|].
    simpl (0 + Z.of_nat 6 + 1). change (Z.to_nat 7) with 7%nat.
    apply nth_lookup_Some, list_lookup_insert_eq. rewrite length_insert. lia.
  - unfold decimal. rewrite length_digits. apply (ndigits_ge 7); [simpl; lia|lia].
Qed.

(** C34: [str2num] inverts [num2str]: for every [nbr < 10^7], the
    string [num2str] writes into an 8-byte buffer parses back to [nbr]
    with status [SET]. *)
Theorem str2num_num2str nbr str :
  0 <= nbr < 10 ^ 7 -> length str = 8%nat ->
  exists s, num2str nbr str = Ok s /\ str2num s = Ok (SET, nbr).
Proof.
  intros Hn Hl. rewrite num2str_small by assumption. eexists. split; [reflexivity|].
  destruct (decimal_small nbr Hn) as (k & Hk & Hd & Hlt). rewrite Hd.
  set (rest := drop _ _).
  assert (Hlen : length (digits (S k) nbr ++ 0 :: rest) = 8%nat).
  { unfold rest. rewrite length_app. cbn [length].
    rewrite length_drop, length_app, repeat_length, length_drop, length_digits. lia. }
  unfold str2num.
  rewrite (str2num_scan_digits (S k)); [|lia|lia|lia|lia| |].
  - rewrite res_bind_Ok, Z.add_0_l, str2num_acc_spec by lia.
    rewrite take_app_length' by (rewrite length_digits; reflexivity).
    rewrite dec_value_digits, (Z.mod_small nbr) by lia. rewrite wrap_small by lia.
    rewrite res_bind_Ok. do 2 f_equal. lia.
  - intros j Hj. unfold byte. rewrite app_nth1 by (rewrite length_digits; lia).
    unfold is_digit. apply andb_true_iff. rewrite !Z.leb_le.
    apply (digits_are_digits (S k) nbr), nth_In. rewrite length_digits. lia.
  - unfold byte. rewrite app_nth2 by (rewrite length_digits; lia).
    rewrite length_digits. replace (Z.to_nat (0 + Z.of_nat (S k)) - S k)%nat with 0%nat by lia.
    reflexivity.
Qed.

(** The accumulation loop entered with [digit = 0] first reads [str[255]]. *)
Lemma str2num_acc_wrap fuel str number tenpwr :
  (length str <= 255)%nat -> str2num_acc (S fuel) str 0 number tenpwr = Fault.
Proof.
  intros Hl. cbn [str2num_acc]. change (u8 (0 - 1)) with 255.
  rewrite rd_high by lia. reflexivity.
Qed.

(** C35: [str2num] on the empty string reads outside a short buffer:
    with no digit before the NUL, [--digit] wraps the [uint8_t] index to
    255, so on a buffer of at most 255 bytes the first read of the
    accumulation loop is out of bounds. *)
Theorem str2num_empty_fault str :
  (1 <= length str <= 255)%nat -> byte str 0 = 0 -> str2num str = Fault.
Proof.
  intros Hl H0. unfold str2num. cbn [str2num_scan]. rewrite rd_byte by lia.
  rewrite res_bind_Ok, H0. simpl (0 =? 0). cbv iota. rewrite res_bind_Ok.
  rewrite str2num_acc_wrap by lia. reflexivity.
Qed.

(** The buffer [num2hex] leaves: [HexDigits] digits, a NUL, and the
    rest of the static array as it was. *)
Lemma num2hex_buffer HexValue num f :
  0 <= num -> length HexValue = 9%nat ->
  num2hex HexValue num f
  = Ok (hexdigits (Z.to_nat (hex_digits f)) num ++ 0 :: drop (S (Z.to_nat (hex_digits f))) HexValue).
Proof.
  intros Hn Hl. assert (Hd : 1 <= hex_digits f <= 8) by (destruct f; simpl; lia).
  unfold num2hex. rewrite (num2hex_loop_spec (Z.to_nat (hex_digits f))) by lia.
  set (l := hexdigits _ num).
  assert (Hll : length l = Z.to_nat (hex_digits f)) by apply length_radix_digits.
  rewrite wr_seq_ok by lia. rewrite !res_bind_Ok. cbv beta iota.
  change (Z.to_nat 0) with 0%nat. rewrite take_0, app_nil_l, Nat.add_0_l.
  rewrite wr_ok by (rewrite length_app, length_drop; lia).
  rewrite insert_app_r_alt by lia. rewrite Hll, Nat.sub_diag.
  destruct (drop _ HexValue) as [|x t] eqn:Ed.
  { apply (f_equal length) in Ed. rewrite length_drop in Ed. simpl in Ed. lia. }
  assert (Et : drop (S (Z.to_nat (hex_digits f))) HexValue = t)
    by (rewrite <- Nat.add_1_r, <- drop_drop, Ed; reflexivity).
  rewrite Et. reflexivity.
Qed.

Lemma cstr_hexdigits k num t : cstr (hexdigits k num ++ 0 :: t) = hexdigits k num.
Proof. apply cstr_digits. intros c Hc. apply hexdigits_nonzero in Hc. lia. Qed.


End FormatTheorems.

(** ** Witnesses *)

(** [uint8_t str[8] = {0}] as the callers declare it. *)
Definition str8 : list Z := zeros 8.

Lemma num2str_decimal_witness :
  exists s, num2str 1234567 str8 = Ok s /\ length s = 8%nat /\ cstr s = decimal 1234567.
Proof. exact (num2str_decimal 1234567 str8 ltac:(simpl; lia) eq_refl). Defined.

(** A system tick of about 3.4 hours in milliseconds. *)
Lemma num2str_truncates_witness :
  exists s, num2str 12345678 str8 = Ok s /\ length s = 8%nat
         /\ (length (cstr s) <= 7)%nat /\ (8 <= length (decimal 12345678))%nat.
Proof. exact (num2str_truncates 12345678 str8 ltac:(simpl; lia) eq_refl). Defined.

Lemma str2num_num2str_witness :
  exists s, num2str 42 str8 = Ok s /\ str2num s = Ok (SET, 42).
Proof. exact (str2num_num2str 42 str8 ltac:(simpl; lia) eq_refl). Defined.

Lemma str2num_empty_fault_witness : str2num str8 = Fault.
Proof. exact (str2num_empty_fault str8 ltac:(simpl; lia) eq_refl). Defined.

