(* ===== verification/SerialDeviceWin.v ===== *)
(** * The serial device of the Windows host build

    The [#ifdef Q_OS_WIN] branches of [SerialDevice.c] (lines 35, 71-131,
    190-208, 228-246, 269-287, 310-321) drive a COM port through the
    Win32 API when the HCI code is built as a PC tool.  The driver keeps
    one static [HANDLE ComHandle], [INVALID_HANDLE_VALUE] when closed.

    The Win32 API is not in [src/]: the class [Win32_API] holds the
    constants the driver passes and the results of the calls it tests.
    The calls with an effect on the port are recorded in [win_calls], in
    the order the driver makes them.  [SerialDevice_Open] builds the
    device name in the local [char devName[80]] with [strcpy] and
    [strcat], as a checked store, so a port name that does not fit is a
    [Fault].  A [ReadFile] that fails makes [SerialDevice_ReadData] run
    off its end without a [return] (the [return -1] is commented out).
    That is undefined behaviour, modelled as [Fault]. *)

From Stdlib Require Import ZArith Lia List.
From stdpp Require Import base list decidable.
From S2P Require Import Prelude SerialFormat.
Import ListNotations.
Open Scope Z_scope.
Open Scope wimod_scope.

Module Win.

(** The fields of the [DCB] the driver writes; [dcb_other] are the
    fields it leaves as [GetCommState] returned them. *)
Record DCB := mkDCB {
  DCBlength : Z; BaudRate : Z; ByteSize : Z; Parity : Z; StopBits : Z;
  fOutxCtsFlow : Z; fOutxDsrFlow : Z; fDtrControl : Z; fDsrSensitivity : Z;
  fTXContinueOnXoff : Z; fOutX : Z; fInX : Z; fErrorChar : Z; fNull : Z;
  fRtsControl : Z; fAbortOnError : Z; dcb_other : list Z
}.

Record COMMTIMEOUTS := mkTimeouts {
  ReadIntervalTimeout : Z; ReadTotalTimeoutMultiplier : Z; ReadTotalTimeoutConstant : Z;
  WriteTotalTimeoutMultiplier : Z; WriteTotalTimeoutConstant : Z
}.

(** The calls with an effect on the port. *)
Inductive WinCall :=
| CallCreateFileA (name : list Z)
| CallSetCommState (h : Z) (dcb : DCB)
| CallSetCommTimeouts (h : Z) (t : COMMTIMEOUTS)
| CallCancelIo (h : Z)
| CallSleep (ms : Z)
| CallCloseHandle (h : Z)
| CallWriteFile (h : Z) (data : list Z)
| CallReadFile (h : Z) (n : Z).

Class Win32_API := {
  INVALID_HANDLE_VALUE : Z;
  ONESTOPBIT : Z; DTR_CONTROL_DISABLE : Z; RTS_CONTROL_DISABLE : Z;
  MAXDWORD : Z; sizeof_DCB : Z;
  CreateFileA : list Z -> Z;
  GetCommState : Z -> option DCB;
  SetCommState : Z -> DCB -> bool;
  WriteFile : Z -> list Z -> option Z;
  ReadFile : Z -> Z -> option (list Z);
  (** [ReadFile] returns at most the bytes it was asked for. *)
  ReadFile_length h n l : ReadFile h n = Some l -> Z.of_nat (length l) <= n
}.

Record WinSerialState := mkWinSerial {
  ComHandle : Z;
  win_calls : list WinCall
}.

Section WinDriver.
Context `{Win32_API}.

Definition win_call (c : WinCall) (st : WinSerialState) : WinSerialState :=
  mkWinSerial (ComHandle st) (win_calls st ++ [c]).

Definition set_ComHandle (h : Z) (st : WinSerialState) : WinSerialState :=
  mkWinSerial h (win_calls st).

Definition SerialDevice_Close (st : WinSerialState) : bool * WinSerialState :=
  if ComHandle st =? INVALID_HANDLE_VALUE then (false, st)
  else let h := ComHandle st in
       (true, set_ComHandle INVALID_HANDLE_VALUE
                (win_call (CallCloseHandle h) (win_call (CallSleep 100)
                   (win_call (CallCancelIo h) st)))).

(** The C string [comPort] up to its NUL; an array without one is read
    past its end. *)
Definition c_string (p : list Z) : res (list Z) :=
  if existsb (Z.eqb 0) p then Ok (cstr p) else Fault.

(** [strcpy(devName, "\\\\.\\"); strcat(devName, comPort);] into
    [char devName[80]], whose initial contents the name does not
    depend on. *)
Definition dev_name (comPort : list Z) : res (list Z) :=
  port <- c_string comPort ;;
  d <- wr_seq (zeros 80) 0 [92; 92; 46; 92; 0] ;;
  d <- wr_seq d 4 (port ++ [0]) ;;
  Ok (cstr d).

(** The [DCB] after the assignments of lines 97-112. *)
Definition open_dcb (dcb : DCB) (baudRate dataBits parity : Z) : DCB :=
  mkDCB sizeof_DCB baudRate dataBits parity ONESTOPBIT 0 0 DTR_CONTROL_DISABLE 0 0 0 0 0 0
    RTS_CONTROL_DISABLE 0 (dcb_other dcb).

Definition open_timeouts : COMMTIMEOUTS := mkTimeouts MAXDWORD 0 0 10 1.

Definition SerialDevice_Open (comPort : list Z) (baudRate dataBits parity : Z)
    (st : WinSerialState) : res (bool * WinSerialState) :=
  let st := if ComHandle st =? INVALID_HANDLE_VALUE then st else snd (SerialDevice_Close st) in
  name <- dev_name comPort ;;
  let h := CreateFileA name in
  let st := set_ComHandle h (win_call (CallCreateFileA name) st) in
  if h =? INVALID_HANDLE_VALUE then Ok (false, st)
  else
    match GetCommState h with
    | Some dcb =>
        let dcb := open_dcb dcb baudRate dataBits parity in
        let st := win_call (CallSetCommState h dcb) st in
        if SetCommState h dcb
        then Ok (true, win_call (CallSetCommTimeouts h open_timeouts) st)
        else Ok (false, snd (SerialDevice_Close st))
    | None => Ok (false, snd (SerialDevice_Close st))
    end.

(** [WriteFile(ComHandle, txBuffer, txLength, &numTxBytes, 0)] and the
    test [numTxBytes == (UINT32)txLength]. *)
Definition write_chunk (txBuffer : list Z) (txLength : Z) (st : WinSerialState)
    : res (Z * WinSerialState) :=
  if ComHandle st =? INVALID_HANDLE_VALUE then Ok (-1, st)
  else
    data <- rd_seq txBuffer 0 (Z.to_nat txLength) ;;
    let st' := win_call (CallWriteFile (ComHandle st) data) st in
    match WriteFile (ComHandle st) data with
    | None => Ok (-1, st')
    | Some n => if n =? u32 txLength then Ok (n, st') else Ok (-1, st')
    end.

Definition SerialDevice_SendData (txBuffer : list Z) (txLength : Z) (st : WinSerialState) :=
  write_chunk txBuffer txLength st.

Definition SerialDevice_SendByte (txByte : Z) (st : WinSerialState) :=
  write_chunk [txByte] 1 st.

Definition SerialDevice_ReadData (rxBuffer : list Z) (rxBufferSize : Z) (st : WinSerialState)
    : res (Z * list Z * WinSerialState) :=
  if ComHandle st =? INVALID_HANDLE_VALUE then Ok (-1, rxBuffer, st)
  else
    let st' := win_call (CallReadFile (ComHandle st) rxBufferSize) st in
    match ReadFile (ComHandle st) rxBufferSize with
    | Some bytes => buf <- wr_seq rxBuffer 0 bytes ;; Ok (Z.of_nat (length bytes), buf, st')
    | None => Fault
    end.

End WinDriver.

(** ** Lemmas *)

Section WinLemmas.
Context `{Win32_API}.

(** ["\\\\.\\"] followed by the port name, when it fits in 80 bytes with
    its NUL. *)
Lemma dev_name_spec comPort :
  existsb (Z.eqb 0) comPort = true ->
  dev_name comPort
  = if Z.of_nat (length (cstr comPort)) <=? 75 then Ok ([92; 92; 46; 92] ++ cstr comPort)
    else Fault.
Proof.
  intros Hn. unfold dev_name, c_string. rewrite Hn, res_bind_Ok.
  rewrite wr_seq_ok by (change (length (zeros 80)) with 80%nat; simpl; lia). rewrite res_bind_Ok.
  change (take (Z.to_nat 0) (zeros 80) ++ [92; 92; 46; 92; 0]
            ++ drop (Z.to_nat 0 + length [92; 92; 46; 92; 0]) (zeros 80))
    with ([92; 92; 46; 92; 0] ++ zeros 75).
  assert (Hd : length ([92; 92; 46; 92; 0] ++ zeros 75) = 80%nat) by reflexivity.
  destruct (Z.leb_spec (Z.of_nat (length (cstr comPort))) 75).
  - rewrite wr_seq_ok by (rewrite ?Hd, ?length_app; cbn [length]; lia). rewrite res_bind_Ok.
    f_equal. change (take (Z.to_nat 4) ([92; 92; 46; 92; 0] ++ zeros 75)) with [92; 92; 46; 92].
    cbn [cstr app Z.eqb]. rewrite <- app_assoc. simpl. rewrite cstr_app_nul, cstr_idem.
    reflexivity.
  - rewrite wr_seq_fault by (rewrite ?Hd, ?length_app; cbn [length]; lia). reflexivity.
Qed.

Lemma Close_handle st : ComHandle (snd (SerialDevice_Close st)) = INVALID_HANDLE_VALUE.
Proof. unfold SerialDevice_Close. destruct (Z.eqb_spec (ComHandle st) INVALID_HANDLE_VALUE); auto. Qed.

(** Closing only appends to the calls. *)
Lemma Close_calls st :
  exists l, win_calls (snd (SerialDevice_Close st)) = win_calls st ++ l.
Proof.
  unfold SerialDevice_Close. destruct (_ =? _); simpl; [exists []; symmetry; apply app_nil_r|].
  eexists. rewrite <- !app_assoc. reflexivity.
Qed.

(** The calls before [CreateFileA]: the old handle is closed first. *)
Lemma open_prefix_calls st :
  ComHandle st <> INVALID_HANDLE_VALUE ->
  win_calls (if ComHandle st =? INVALID_HANDLE_VALUE then st else snd (SerialDevice_Close st))
  = win_calls st ++ [CallCancelIo (ComHandle st); CallSleep 100; CallCloseHandle (ComHandle st)].
Proof.
  intros Hh. unfold SerialDevice_Close.
  destruct (Z.eqb_spec (ComHandle st) INVALID_HANDLE_VALUE); [contradiction|].
  simpl. rewrite <- !app_assoc. reflexivity.
Qed.

End WinLemmas.

Section WinTheorems.
Context `{Win32_API}.

(** [SerialDevice_Open] only appends to the calls made before
    [CreateFileA]. *)
Lemma Open_calls_extend comPort baudRate dataBits parity st ok st' :
  SerialDevice_Open comPort baudRate dataBits parity st = Ok (ok, st') ->
  exists l, win_calls st'
            = win_calls (if ComHandle st =? INVALID_HANDLE_VALUE then st
                         else snd (SerialDevice_Close st)) ++ l.
Proof.
  unfold SerialDevice_Open. cbv zeta. intros Hr. bind_inv Hr.
  destruct (_ =? INVALID_HANDLE_VALUE) in Hr; [injection Hr as _ <-; eexists; reflexivity|].
  destruct (GetCommState _); [destruct (SetCommState _ _)|]; injection Hr as _ <-;
    try (match goal with |- context [SerialDevice_Close ?s] =>
           destruct (Close_calls s) as [l ->] end);
    simpl; rewrite <- ?app_assoc; eexists; reflexivity.
Qed.

(** C22: the device name fits [char devName[80]] only up to 75
    characters.  A NUL-terminated port name of at most 75 characters
    is opened as [\\.\] followed by the name, and [SerialDevice_Open]
    returns.  A longer name makes [strcat] write past [devName]: nothing
    checks its length. *)
Theorem Open_devName_bound comPort baudRate dataBits parity st :
  existsb (Z.eqb 0) comPort = true ->
  (Z.of_nat (length (cstr comPort)) <= 75 ->
   exists ok st', SerialDevice_Open comPort baudRate dataBits parity st = Ok (ok, st')
     /\ In (CallCreateFileA ([92; 92; 46; 92] ++ cstr comPort)) (win_calls st'))
  /\ (75 < Z.of_nat (length (cstr comPort)) ->
      SerialDevice_Open comPort baudRate dataBits parity st = Fault).
Proof.
  intros Hn. split; intros Hl; unfold SerialDevice_Open; rewrite (dev_name_spec comPort Hn).
  - rewrite (proj2 (Z.leb_le _ _) Hl), res_bind_Ok. cbv zeta.
    destruct (_ =? INVALID_HANDLE_VALUE);
      [|destruct (GetCommState _); [destruct (SetCommState _ _)|]];
      eexists _, _; (split; [reflexivity|]);
      try (match goal with |- context [SerialDevice_Close ?s] =>
             destruct (Close_calls s) as [l ->] end);
      simpl; rewrite ?in_app_iff; simpl; tauto.
  - rewrite (proj2 (Z.leb_gt _ _) Hl). reflexivity.
Qed.

(** C21: [SerialDevice_Open] leaves no handle behind.  It returns true
    exactly when the new handle is valid and both [GetCommState] and
    [SetCommState] (with the 8N1, no-flow-control [DCB]) succeeded; the
    handle is then [ComHandle].  On every failure [ComHandle] is
    [INVALID_HANDLE_VALUE], the handle just created being closed.  A
    port that was open is closed first (cancel, wait, close). *)
Theorem Open_handle_discipline comPort baudRate dataBits parity st ok st' :
  SerialDevice_Open comPort baudRate dataBits parity st = Ok (ok, st') ->
  exists name, dev_name comPort = Ok name
  /\ (ok = true -> ComHandle st' = CreateFileA name /\ CreateFileA name <> INVALID_HANDLE_VALUE
        /\ exists dcb, GetCommState (CreateFileA name) = Some dcb
              /\ SetCommState (CreateFileA name) (open_dcb dcb baudRate dataBits parity) = true)
  /\ (ok = false -> ComHandle st' = INVALID_HANDLE_VALUE)
  /\ (ComHandle st <> INVALID_HANDLE_VALUE ->
      exists l, win_calls st' = win_calls st ++ [CallCancelIo (ComHandle st); CallSleep 100;
                                                 CallCloseHandle (ComHandle st)] ++ l).
Proof.
  intros Hr. destruct (Open_calls_extend _ _ _ _ _ _ _ Hr) as [l Hl].
  unfold SerialDevice_Open in Hr. cbv zeta in Hr. bind_inv Hr. exists a. split; [exact Ha|].
  split; [|split].
  - destruct (Z.eqb_spec (CreateFileA a) INVALID_HANDLE_VALUE);
      [inversion Hr; subst; intros E; discriminate|].
    destruct (GetCommState _) as [dcb|] eqn:Eg; [destruct (SetCommState _ _) eqn:Es|];
      inversion Hr; subst; intros E; try discriminate.
    repeat split; eauto.
  - intros ->. destruct (Z.eqb_spec (CreateFileA a) INVALID_HANDLE_VALUE);
      [inversion Hr; subst; assumption|].
    destruct (GetCommState _); [destruct (SetCommState _ _)|]; inversion Hr; subst;
      apply Close_handle.
  - intros Hh. rewrite Hl, open_prefix_calls by exact Hh. eexists. rewrite <- app_assoc. reflexivity.
Qed.

(** C23: [SerialDevice_ReadData] has no [return] after a failed
    [ReadFile]: the [return -1] is commented out, so the function runs
    off its end, which is undefined behaviour.  A successful [ReadFile]
    stores the bytes read at the front of [rxBuffer] and returns their
    number. *)
Theorem ReadData_missing_return rxBuffer n st :
  ComHandle st <> INVALID_HANDLE_VALUE ->
  (ReadFile (ComHandle st) n = None -> SerialDevice_ReadData rxBuffer n st = Fault)
  /\ (forall bytes, ReadFile (ComHandle st) n = Some bytes -> n <= Z.of_nat (length rxBuffer) ->
      SerialDevice_ReadData rxBuffer n st
      = Ok (Z.of_nat (length bytes), bytes ++ drop (length bytes) rxBuffer,
            win_call (CallReadFile (ComHandle st) n) st)).
Proof.
  intros Hh. unfold SerialDevice_ReadData. rewrite (proj2 (Z.eqb_neq _ _) Hh).
  split; [intros ->; reflexivity|]. intros bytes Hb Hn. rewrite Hb.
  pose proof (ReadFile_length _ _ _ Hb).
  rewrite wr_seq_ok by lia. reflexivity.
Qed.

(** C24: a partial write is an error on this branch.  With an open port,
    [SerialDevice_SendData] hands the [txLength] first bytes to
    [WriteFile] and returns [txLength] only when [WriteFile] reports all
    of them written; a partial write is [-1] although bytes went out. *)
Theorem SendData_partial_write txBuffer txLength st n :
  ComHandle st <> INVALID_HANDLE_VALUE ->
  0 <= txLength <= Z.of_nat (length txBuffer) -> txLength < 2 ^ 32 ->
  WriteFile (ComHandle st) (slice txBuffer 0 (Z.to_nat txLength)) = Some n ->
  SerialDevice_SendData txBuffer txLength st
  = Ok (if n =? txLength then txLength else -1,
        win_call (CallWriteFile (ComHandle st) (slice txBuffer 0 (Z.to_nat txLength))) st).
Proof.
  intros Hh Hl Hw Hn. unfold SerialDevice_SendData, write_chunk.
  rewrite (proj2 (Z.eqb_neq _ _) Hh), rd_seq_ok by lia. rewrite res_bind_Ok, Hn.
  rewrite wrap_small by lia. destruct (Z.eqb_spec n txLength) as [->|]; reflexivity.
Qed.

End WinTheorems.

(** ** Witnesses: a Windows host with a [COM3] port *)

(** [\\.\COM3], and a port that writes all but the last byte of a
    chunk and never completes a read. *)
Definition com3 : list Z := [92; 92; 46; 92; 67; 79; 77; 51].

Definition dcb0 : DCB := mkDCB 28 9600 8 0 0 1 1 1 1 1 1 1 1 1 1 1 [].

#[local] Instance win_host : Win32_API := {|
  INVALID_HANDLE_VALUE := -1; ONESTOPBIT := 0; DTR_CONTROL_DISABLE := 0;
  RTS_CONTROL_DISABLE := 0; MAXDWORD := 4294967295; sizeof_DCB := 28;
  CreateFileA := fun name => if bool_decide (name = com3) then 100 else -1;
  GetCommState := fun _ => Some dcb0;
  SetCommState := fun _ _ => true;
  WriteFile := fun _ d => Some (Z.of_nat (length d) - 1);
  ReadFile := fun _ _ => None;
  ReadFile_length := ltac:(intros h n l E; discriminate E)
|}.

Definition st_closed : WinSerialState := mkWinSerial (-1) [].

Definition st_com3 : WinSerialState := mkWinSerial 100 [CallCreateFileA com3].

Lemma Open_devName_bound_witness :
  (exists ok st', SerialDevice_Open [67; 79; 77; 51; 0] 115200 8 0 st_closed = Ok (ok, st')
     /\ In (CallCreateFileA ([92; 92; 46; 92] ++ cstr [67; 79; 77; 51; 0])) (win_calls st'))
  /\ SerialDevice_Open (repeat 65 76 ++ [0]) 115200 8 0 st_closed = Fault.
Proof.
  split.
  - apply (Open_devName_bound [67; 79; 77; 51; 0] 115200 8 0 st_closed); vm_compute;
      first [reflexivity | discriminate].
  - apply (Open_devName_bound (repeat 65 76 ++ [0]) 115200 8 0 st_closed); vm_compute;
      first [reflexivity | discriminate].
Defined.

Definition after_open (r : res (bool * WinSerialState)) : WinSerialState :=
  match r with Ok (_, s) => s | _ => st_closed end.

Definition st_reopen : WinSerialState :=
  after_open (SerialDevice_Open [67; 79; 77; 51; 0] 115200 8 0 st_com3).

(** Reopening [COM3] closes the open handle first. *)
Lemma Open_handle_discipline_witness :
  exists name, dev_name [67; 79; 77; 51; 0] = Ok name
  /\ (true = true -> ComHandle st_reopen = CreateFileA name /\ CreateFileA name <> INVALID_HANDLE_VALUE
        /\ exists dcb, GetCommState (CreateFileA name) = Some dcb
              /\ SetCommState (CreateFileA name) (open_dcb dcb 115200 8 0) = true)
  /\ (true = false -> ComHandle st_reopen = INVALID_HANDLE_VALUE)
  /\ (ComHandle st_com3 <> INVALID_HANDLE_VALUE ->
      exists l, win_calls st_reopen
                = win_calls st_com3 ++ [CallCancelIo (ComHandle st_com3); CallSleep 100;
                                        CallCloseHandle (ComHandle st_com3)] ++ l).
Proof.
  exact (Open_handle_discipline [67; 79; 77; 51; 0] 115200 8 0 st_com3 true st_reopen eq_refl).
Defined.

Lemma ReadData_missing_return_witness :
  SerialDevice_ReadData [0; 0; 0; 0] 4 st_com3 = Fault.
Proof.
  refine (proj1 (ReadData_missing_return [0; 0; 0; 0] 4 st_com3 _) _); vm_compute;
    first [reflexivity | discriminate].
Defined.

(** Three bytes handed over, two written: [-1]. *)
Lemma SendData_partial_write_witness :
  SerialDevice_SendData [1; 2; 3] 3 st_com3
  = Ok (-1, win_call (CallWriteFile 100 [1; 2; 3]) st_com3).
Proof.
  refine (eq_trans (SendData_partial_write [1; 2; 3] 3 st_com3 2 _ _ _ _) _); vm_compute;
    first [reflexivity | discriminate | split; discriminate].
Defined.

End Win.
