(* ===== verification/HciDefs.v ===== *)
(** * The HCI message and the identifiers shared by both endpoints

    The HCI layer ([WiMOD_HCI_Layer.h]) and the API header
    ([WiMOD_LoRaWAN_API.h]) are not part of [src/]: they give the message
    structure [TWiMOD_HCI_Message], the payload capacity
    [WIMOD_HCI_MSG_PAYLOAD_SIZE] and the numeric values of the endpoint
    (SAP), message and status identifiers.  The identifiers used in
    [WiMOD_LoRaWAN_API.c] are enumerations here, with the names of the C
    macros; their numeric values are an interface, the class
    [WiMOD_HCI_Codes], whose laws say what the C [switch] statements need:
    the codes are bytes, the codes of one endpoint are pairwise distinct.
    Every theorem of the development is proved against the class; the
    instance [WiMOD_API_h] fixes the WiMOD values for the witnesses. *)

From Stdlib Require Import ZArith Lia List.
From stdpp Require Import base list strings decidable.
From S2P Require Import Prelude.
Import ListNotations.
Open Scope Z_scope.
Open Scope wimod_scope.

Inductive DevMgmtMsgId :=
| DEVMGMT_MSG_PING_REQ | DEVMGMT_MSG_PING_RSP
| DEVMGMT_MSG_GET_DEVICE_INFO_REQ | DEVMGMT_MSG_GET_DEVICE_INFO_RSP
| DEVMGMT_MSG_GET_FW_VERSION_REQ | DEVMGMT_MSG_GET_FW_VERSION_RSP
| DEVMGMT_MSG_RESET_REQ | DEVMGMT_MSG_RESET_RSP
| DEVMGMT_MSG_SET_OPMODE_REQ | DEVMGMT_MSG_GET_OPMODE_REQ | DEVMGMT_MSG_GET_OPMODE_RSP
| DEVMGMT_MSG_SET_RTC_REQ | DEVMGMT_MSG_SET_RTC_RSP
| DEVMGMT_MSG_GET_RTC_REQ | DEVMGMT_MSG_GET_RTC_RSP
| DEVMGMT_MSG_GET_DEVICE_STATUS_REQ | DEVMGMT_MSG_GET_DEVICE_STATUS_RSP
| DEVMGMT_MSG_SET_RTC_ALARM_REQ | DEVMGMT_MSG_SET_RTC_ALARM_RSP
| DEVMGMT_MSG_CLEAR_RTC_ALARM_REQ | DEVMGMT_MSG_CLEAR_RTC_ALARM_RSP
| DEVMGMT_MSG_GET_RTC_ALARM_REQ | DEVMGMT_MSG_GET_RTC_ALARM_RSP.

Inductive LoRaWANMsgId :=
| LORAWAN_MSG_ACTIVATE_DEVICE_REQ | LORAWAN_MSG_ACTIVATE_DEVICE_RSP
| LORAWAN_MSG_SET_JOIN_PARAM_REQ
| LORAWAN_MSG_JOIN_NETWORK_REQ | LORAWAN_MSG_JOIN_NETWORK_RSP
| LORAWAN_MSG_JOIN_TRANSMIT_IND | LORAWAN_MSG_JOIN_NETWORK_IND
| LORAWAN_MSG_SEND_UDATA_REQ | LORAWAN_MSG_SEND_UDATA_RSP
| LORAWAN_MSG_SEND_UDATA_IND | LORAWAN_MSG_RECV_UDATA_IND
| LORAWAN_MSG_SEND_CDATA_REQ | LORAWAN_MSG_SEND_CDATA_RSP | LORAWAN_MSG_SEND_CDATA_IND
| LORAWAN_MSG_RECV_CDATA_IND | LORAWAN_MSG_RECV_NODATA_IND
| LORAWAN_MSG_SET_RSTACK_CONFIG_REQ | LORAWAN_MSG_SET_RSTACK_CONFIG_RSP
| LORAWAN_MSG_GET_RSTACK_CONFIG_REQ | LORAWAN_MSG_GET_RSTACK_CONFIG_RSP
| LORAWAN_MSG_REACTIVATE_DEVICE_REQ | LORAWAN_MSG_REACTIVATE_DEVICE_RSP
| LORAWAN_MSG_DEACTIVATE_DEVICE_REQ | LORAWAN_MSG_DEACTIVATE_DEVICE_RSP
| LORAWAN_MSG_FACTORY_RESET_REQ | LORAWAN_MSG_FACTORY_RESET_RSP
| LORAWAN_MSG_SET_DEVICE_EUI_REQ
| LORAWAN_MSG_GET_DEVICE_EUI_REQ | LORAWAN_MSG_GET_DEVICE_EUI_RSP
| LORAWAN_MSG_GET_NWK_STATUS_REQ | LORAWAN_MSG_GET_NWK_STATUS_RSP
| LORAWAN_MSG_SEND_MAC_CMD_REQ | LORAWAN_MSG_SEND_MAC_CMD_RSP
| LORAWAN_MSG_RECV_MAC_CMD_IND
| LORAWAN_MSG_SET_CUSTOM_CFG_REQ | LORAWAN_MSG_SET_CUSTOM_CFG_RSP
| LORAWAN_MSG_GET_CUSTOM_CFG_REQ | LORAWAN_MSG_GET_CUSTOM_CFG_RSP
| LORAWAN_MSG_GET_SUPPORTED_BANDS_REQ | LORAWAN_MSG_GET_SUPPORTED_BANDS_RSP
| LORAWAN_MSG_SET_LINKADRREQ_CONFIG_REQ | LORAWAN_MSG_SET_LINKADRREQ_CONFIG_RSP
| LORAWAN_MSG_GET_LINKADRREQ_CONFIG_REQ | LORAWAN_MSG_GET_LINKADRREQ_CONFIG_RSP
| LORAWAN_MSG_SET_BATTERY_LEVEL_REQ.

Inductive DevMgmtStatus :=
| DEVMGMT_STATUS_OK | DEVMGMT_STATUS_ERROR | DEVMGMT_STATUS_CMD_NOT_SUPPORTED
| DEVMGMT_STATUS_WRONG_PARAMETER | DEVMGMT_STATUS_WRONG_DEVICE_MODE.

Inductive LoRaWANStatus :=
| LORAWAN_STATUS_OK | LORAWAN_STATUS_ERROR | LORAWAN_STATUS_CMD_NOT_SUPPORTED
| LORAWAN_STATUS_WRONG_PARAMETER | LORAWAN_STATUS_WRONG_DEVICE_MODE
| LORAWAN_STATUS_DEVICE_NOT_ACTIVATED | LORAWAN_STATUS_DEVICE_BUSY
| LORAWAN_STATUS_QUEUE_FULL | LORAWAN_STATUS_LENGTH_ERROR
| LORAWAN_STATUS_NO_FACTORY_SETTINGS | LORAWAN_STATUS_CHANNEL_BLOCKED_BY_DC
| LORAWAN_STATUS_CHANNEL_NOT_AVAILABLE.

#[export] Instance DevMgmtMsgId_eq_dec : EqDecision DevMgmtMsgId.
Proof. solve_decision. Defined.
#[export] Instance LoRaWANMsgId_eq_dec : EqDecision LoRaWANMsgId.
Proof. solve_decision. Defined.
#[export] Instance DevMgmtStatus_eq_dec : EqDecision DevMgmtStatus.
Proof. solve_decision. Defined.
#[export] Instance LoRaWANStatus_eq_dec : EqDecision LoRaWANStatus.
Proof. solve_decision. Defined.

Definition all_DevMgmtMsgId : list DevMgmtMsgId :=
  [DEVMGMT_MSG_PING_REQ; DEVMGMT_MSG_PING_RSP; DEVMGMT_MSG_GET_DEVICE_INFO_REQ;
   DEVMGMT_MSG_GET_DEVICE_INFO_RSP; DEVMGMT_MSG_GET_FW_VERSION_REQ;
   DEVMGMT_MSG_GET_FW_VERSION_RSP; DEVMGMT_MSG_RESET_REQ; DEVMGMT_MSG_RESET_RSP;
   DEVMGMT_MSG_SET_OPMODE_REQ; DEVMGMT_MSG_GET_OPMODE_REQ; DEVMGMT_MSG_GET_OPMODE_RSP;
   DEVMGMT_MSG_SET_RTC_REQ;
   DEVMGMT_MSG_SET_RTC_RSP; DEVMGMT_MSG_GET_RTC_REQ; DEVMGMT_MSG_GET_RTC_RSP;
   DEVMGMT_MSG_GET_DEVICE_STATUS_REQ; DEVMGMT_MSG_GET_DEVICE_STATUS_RSP;
   DEVMGMT_MSG_SET_RTC_ALARM_REQ; DEVMGMT_MSG_SET_RTC_ALARM_RSP;
   DEVMGMT_MSG_CLEAR_RTC_ALARM_REQ; DEVMGMT_MSG_CLEAR_RTC_ALARM_RSP;
   DEVMGMT_MSG_GET_RTC_ALARM_REQ; DEVMGMT_MSG_GET_RTC_ALARM_RSP].

Definition all_LoRaWANMsgId : list LoRaWANMsgId :=
  [LORAWAN_MSG_ACTIVATE_DEVICE_REQ; LORAWAN_MSG_ACTIVATE_DEVICE_RSP;
   LORAWAN_MSG_SET_JOIN_PARAM_REQ;
   LORAWAN_MSG_JOIN_NETWORK_REQ; LORAWAN_MSG_JOIN_NETWORK_RSP;
   LORAWAN_MSG_JOIN_TRANSMIT_IND; LORAWAN_MSG_JOIN_NETWORK_IND;
   LORAWAN_MSG_SEND_UDATA_REQ; LORAWAN_MSG_SEND_UDATA_RSP;
   LORAWAN_MSG_SEND_UDATA_IND; LORAWAN_MSG_RECV_UDATA_IND;
   LORAWAN_MSG_SEND_CDATA_REQ; LORAWAN_MSG_SEND_CDATA_RSP; LORAWAN_MSG_SEND_CDATA_IND;
   LORAWAN_MSG_RECV_CDATA_IND; LORAWAN_MSG_RECV_NODATA_IND;
   LORAWAN_MSG_SET_RSTACK_CONFIG_REQ; LORAWAN_MSG_SET_RSTACK_CONFIG_RSP;
   LORAWAN_MSG_GET_RSTACK_CONFIG_REQ; LORAWAN_MSG_GET_RSTACK_CONFIG_RSP;
   LORAWAN_MSG_REACTIVATE_DEVICE_REQ; LORAWAN_MSG_REACTIVATE_DEVICE_RSP;
   LORAWAN_MSG_DEACTIVATE_DEVICE_REQ; LORAWAN_MSG_DEACTIVATE_DEVICE_RSP;
   LORAWAN_MSG_FACTORY_RESET_REQ; LORAWAN_MSG_FACTORY_RESET_RSP;
   LORAWAN_MSG_SET_DEVICE_EUI_REQ; LORAWAN_MSG_GET_DEVICE_EUI_REQ;
   LORAWAN_MSG_GET_DEVICE_EUI_RSP; LORAWAN_MSG_GET_NWK_STATUS_REQ;
   LORAWAN_MSG_GET_NWK_STATUS_RSP; LORAWAN_MSG_SEND_MAC_CMD_REQ;
   LORAWAN_MSG_SEND_MAC_CMD_RSP; LORAWAN_MSG_RECV_MAC_CMD_IND;
   LORAWAN_MSG_SET_CUSTOM_CFG_REQ; LORAWAN_MSG_SET_CUSTOM_CFG_RSP;
   LORAWAN_MSG_GET_CUSTOM_CFG_REQ; LORAWAN_MSG_GET_CUSTOM_CFG_RSP;
   LORAWAN_MSG_GET_SUPPORTED_BANDS_REQ; LORAWAN_MSG_GET_SUPPORTED_BANDS_RSP;
   LORAWAN_MSG_SET_LINKADRREQ_CONFIG_REQ; LORAWAN_MSG_SET_LINKADRREQ_CONFIG_RSP;
   LORAWAN_MSG_GET_LINKADRREQ_CONFIG_REQ; LORAWAN_MSG_GET_LINKADRREQ_CONFIG_RSP;
   LORAWAN_MSG_SET_BATTERY_LEVEL_REQ].

Lemma all_DevMgmtMsgId_complete k : In k all_DevMgmtMsgId.
Proof. destruct k; simpl; tauto. Qed.

Lemma all_LoRaWANMsgId_complete k : In k all_LoRaWANMsgId.
Proof. destruct k; simpl; tauto. Qed.

Definition all_DevMgmtStatus : list DevMgmtStatus :=
  [DEVMGMT_STATUS_OK; DEVMGMT_STATUS_ERROR; DEVMGMT_STATUS_CMD_NOT_SUPPORTED;
   DEVMGMT_STATUS_WRONG_PARAMETER; DEVMGMT_STATUS_WRONG_DEVICE_MODE].

Definition all_LoRaWANStatus : list LoRaWANStatus :=
  [LORAWAN_STATUS_OK; LORAWAN_STATUS_ERROR; LORAWAN_STATUS_CMD_NOT_SUPPORTED;
   LORAWAN_STATUS_WRONG_PARAMETER; LORAWAN_STATUS_WRONG_DEVICE_MODE;
   LORAWAN_STATUS_DEVICE_NOT_ACTIVATED; LORAWAN_STATUS_DEVICE_BUSY;
   LORAWAN_STATUS_QUEUE_FULL; LORAWAN_STATUS_LENGTH_ERROR;
   LORAWAN_STATUS_NO_FACTORY_SETTINGS; LORAWAN_STATUS_CHANNEL_BLOCKED_BY_DC;
   LORAWAN_STATUS_CHANNEL_NOT_AVAILABLE].

Lemma all_DevMgmtStatus_complete s : In s all_DevMgmtStatus.
Proof. destruct s; simpl; tauto. Qed.

Lemma all_LoRaWANStatus_complete s : In s all_LoRaWANStatus.
Proof. destruct s; simpl; tauto. Qed.

(** ** The header constants, as an interface *)

Class WiMOD_HCI_Codes := {
  WIMOD_HCI_MSG_PAYLOAD_SIZE : Z;
  DEVMGMT_SAP_ID : Z;
  LORAWAN_SAP_ID : Z;
  devmgmt_msg_code : DevMgmtMsgId -> Z;
  lorawan_msg_code : LoRaWANMsgId -> Z;
  devmgmt_status_code : DevMgmtStatus -> Z;
  lorawan_status_code : LoRaWANStatus -> Z;
  (** the payload array holds the largest fixed-layout message, and its
      length fits the [UINT16 Length] field *)
  payload_size_range : 64 <= WIMOD_HCI_MSG_PAYLOAD_SIZE <= 65535;
  sap_ids_distinct : DEVMGMT_SAP_ID <> LORAWAN_SAP_ID;
  devmgmt_msg_code_inj : NoDup (map devmgmt_msg_code all_DevMgmtMsgId);
  lorawan_msg_code_inj : NoDup (map lorawan_msg_code all_LoRaWANMsgId);
  devmgmt_status_code_inj : NoDup (map devmgmt_status_code all_DevMgmtStatus);
  lorawan_status_code_inj : NoDup (map lorawan_status_code all_LoRaWANStatus);
  codes_are_bytes :
    bytes_ok ([DEVMGMT_SAP_ID; LORAWAN_SAP_ID]
              ++ map devmgmt_msg_code all_DevMgmtMsgId
              ++ map lorawan_msg_code all_LoRaWANMsgId
              ++ map devmgmt_status_code all_DevMgmtStatus
              ++ map lorawan_status_code all_LoRaWANStatus) = true
}.

(** ** Decoding a code: what a C [switch] on the identifier selects *)

Definition of_code {A} (all : list A) (code : A -> Z) (c : Z) : option A :=
  find (fun k => code k =? c) all.

Lemma of_code_Some {A} (all : list A) code c k :
  of_code all code c = Some k -> code k = c.
Proof. unfold of_code. intros H. apply find_some in H as [_ H]. lia. Qed.

Lemma of_code_None {A} (all : list A) code c :
  of_code all code c = None -> forall k, In k all -> code k <> c.
Proof.
  unfold of_code. intros H k Hk Hc. eapply find_none in H; [|exact Hk].
  rewrite Hc, Z.eqb_refl in H. discriminate.
Qed.

Lemma of_code_code {A} (all : list A) code k :
  NoDup (map code all) -> In k all -> of_code all code (code k) = Some k.
Proof.
  unfold of_code. induction all as [|a all IH]; simpl; [tauto|].
  intros Hnd Hin. inversion Hnd as [|? ? Hn Hnd']; subst.
  destruct (Z.eqb_spec (code a) (code k)) as [E|E].
  - destruct Hin as [->|Hin]; [reflexivity|].
    exfalso. apply Hn. rewrite E. apply list_elem_of_In, in_map, Hin.
  - destruct Hin as [->|Hin]; [congruence|]. auto.
Qed.

Section Codes.
Context `{WiMOD_HCI_Codes}.

Definition devmgmt_msg_of_code : Z -> option DevMgmtMsgId :=
  of_code all_DevMgmtMsgId devmgmt_msg_code.
Definition lorawan_msg_of_code : Z -> option LoRaWANMsgId :=
  of_code all_LoRaWANMsgId lorawan_msg_code.

Lemma devmgmt_msg_of_code_code k : devmgmt_msg_of_code (devmgmt_msg_code k) = Some k.
Proof. apply of_code_code; [apply devmgmt_msg_code_inj | apply all_DevMgmtMsgId_complete]. Qed.

Lemma lorawan_msg_of_code_code k : lorawan_msg_of_code (lorawan_msg_code k) = Some k.
Proof. apply of_code_code; [apply lorawan_msg_code_inj | apply all_LoRaWANMsgId_complete]. Qed.

End Codes.

(** ** The HCI message [TWiMOD_HCI_Message]

    [Payload] is the whole array of [WIMOD_HCI_MSG_PAYLOAD_SIZE] bytes;
    [Length] counts the bytes of it that the message uses. *)

Record TWiMOD_HCI_Message := mkMsg {
  Length : Z;
  SapID : Z;
  MsgID : Z;
  Payload : list Z
}.

Section Message.
Context `{WiMOD_HCI_Codes}.

Definition msg_wf (m : TWiMOD_HCI_Message) : bool :=
  (Z.of_nat (length (Payload m)) =? WIMOD_HCI_MSG_PAYLOAD_SIZE)
  && bytes_ok (Payload m) && (0 <=? Length m)
  && (Length m <=? WIMOD_HCI_MSG_PAYLOAD_SIZE)
  && is_byte (SapID m) && is_byte (MsgID m).

Lemma msg_wf_spec m :
  msg_wf m = true <->
  Z.of_nat (length (Payload m)) = WIMOD_HCI_MSG_PAYLOAD_SIZE
  /\ bytes_ok (Payload m) = true /\ 0 <= Length m <= WIMOD_HCI_MSG_PAYLOAD_SIZE
  /\ 0 <= SapID m < 256 /\ 0 <= MsgID m < 256.
Proof.
  unfold msg_wf. rewrite !andb_true_iff, Z.eqb_eq, !Z.leb_le, !is_byte_spec.
  tauto.
Qed.

(** A read of [Payload[i]] for [0 <= i < WIMOD_HCI_MSG_PAYLOAD_SIZE]. *)
Lemma rd_payload m i :
  msg_wf m = true -> 0 <= i < WIMOD_HCI_MSG_PAYLOAD_SIZE ->
  rd (Payload m) i = Ok (nth (Z.to_nat i) (Payload m) 0).
Proof. intros Hwf Hi. apply msg_wf_spec in Hwf. apply rd_ok. lia. Qed.

Lemma payload_byte m i :
  msg_wf m = true -> 0 <= nth i (Payload m) 0 < 256.
Proof.
  intros Hwf. apply msg_wf_spec in Hwf as (Hl & Hb & _).
  destruct (Nat.lt_ge_cases i (length (Payload m))).
  - eapply bytes_ok_In; [exact Hb|]. apply nth_In. lia.
  - rewrite nth_overflow by lia. lia.
Qed.

End Message.

(** ** The values of [WiMOD_LoRaWAN_API.h] *)

Definition WiMOD_devmgmt_msg (k : DevMgmtMsgId) : Z :=
  match k with
  | DEVMGMT_MSG_PING_REQ => 1 | DEVMGMT_MSG_PING_RSP => 2
  | DEVMGMT_MSG_GET_DEVICE_INFO_REQ => 3 | DEVMGMT_MSG_GET_DEVICE_INFO_RSP => 4
  | DEVMGMT_MSG_GET_FW_VERSION_REQ => 5 | DEVMGMT_MSG_GET_FW_VERSION_RSP => 6
  | DEVMGMT_MSG_RESET_REQ => 7 | DEVMGMT_MSG_RESET_RSP => 8
  | DEVMGMT_MSG_SET_OPMODE_REQ => 9 | DEVMGMT_MSG_GET_OPMODE_REQ => 11
  | DEVMGMT_MSG_GET_OPMODE_RSP => 12
  | DEVMGMT_MSG_SET_RTC_REQ => 13 | DEVMGMT_MSG_SET_RTC_RSP => 14
  | DEVMGMT_MSG_GET_RTC_REQ => 15 | DEVMGMT_MSG_GET_RTC_RSP => 16
  | DEVMGMT_MSG_GET_DEVICE_STATUS_REQ => 23 | DEVMGMT_MSG_GET_DEVICE_STATUS_RSP => 24
  | DEVMGMT_MSG_SET_RTC_ALARM_REQ => 49 | DEVMGMT_MSG_SET_RTC_ALARM_RSP => 50
  | DEVMGMT_MSG_CLEAR_RTC_ALARM_REQ => 51 | DEVMGMT_MSG_CLEAR_RTC_ALARM_RSP => 52
  | DEVMGMT_MSG_GET_RTC_ALARM_REQ => 53 | DEVMGMT_MSG_GET_RTC_ALARM_RSP => 54
  end.

Definition WiMOD_lorawan_msg (k : LoRaWANMsgId) : Z :=
  match k with
  | LORAWAN_MSG_ACTIVATE_DEVICE_REQ => 1 | LORAWAN_MSG_ACTIVATE_DEVICE_RSP => 2
  | LORAWAN_MSG_SET_JOIN_PARAM_REQ => 5
  | LORAWAN_MSG_JOIN_NETWORK_REQ => 9 | LORAWAN_MSG_JOIN_NETWORK_RSP => 10
  | LORAWAN_MSG_JOIN_TRANSMIT_IND => 11 | LORAWAN_MSG_JOIN_NETWORK_IND => 12
  | LORAWAN_MSG_SEND_UDATA_REQ => 13 | LORAWAN_MSG_SEND_UDATA_RSP => 14
  | LORAWAN_MSG_SEND_UDATA_IND => 15 | LORAWAN_MSG_RECV_UDATA_IND => 16
  | LORAWAN_MSG_SEND_CDATA_REQ => 17 | LORAWAN_MSG_SEND_CDATA_RSP => 18
  | LORAWAN_MSG_SEND_CDATA_IND => 19
  | LORAWAN_MSG_RECV_CDATA_IND => 20 | LORAWAN_MSG_RECV_NODATA_IND => 22
  | LORAWAN_MSG_SET_RSTACK_CONFIG_REQ => 25 | LORAWAN_MSG_SET_RSTACK_CONFIG_RSP => 26
  | LORAWAN_MSG_GET_RSTACK_CONFIG_REQ => 27 | LORAWAN_MSG_GET_RSTACK_CONFIG_RSP => 28
  | LORAWAN_MSG_REACTIVATE_DEVICE_REQ => 29 | LORAWAN_MSG_REACTIVATE_DEVICE_RSP => 30
  | LORAWAN_MSG_DEACTIVATE_DEVICE_REQ => 33 | LORAWAN_MSG_DEACTIVATE_DEVICE_RSP => 34
  | LORAWAN_MSG_FACTORY_RESET_REQ => 35 | LORAWAN_MSG_FACTORY_RESET_RSP => 36
  | LORAWAN_MSG_SET_DEVICE_EUI_REQ => 37
  | LORAWAN_MSG_GET_DEVICE_EUI_REQ => 39 | LORAWAN_MSG_GET_DEVICE_EUI_RSP => 40
  | LORAWAN_MSG_GET_NWK_STATUS_REQ => 41 | LORAWAN_MSG_GET_NWK_STATUS_RSP => 42
  | LORAWAN_MSG_SEND_MAC_CMD_REQ => 43 | LORAWAN_MSG_SEND_MAC_CMD_RSP => 44
  | LORAWAN_MSG_RECV_MAC_CMD_IND => 45
  | LORAWAN_MSG_SET_CUSTOM_CFG_REQ => 49 | LORAWAN_MSG_SET_CUSTOM_CFG_RSP => 50
  | LORAWAN_MSG_GET_CUSTOM_CFG_REQ => 51 | LORAWAN_MSG_GET_CUSTOM_CFG_RSP => 52
  | LORAWAN_MSG_GET_SUPPORTED_BANDS_REQ => 53
  | LORAWAN_MSG_GET_SUPPORTED_BANDS_RSP => 54
  | LORAWAN_MSG_SET_LINKADRREQ_CONFIG_REQ => 59
  | LORAWAN_MSG_SET_LINKADRREQ_CONFIG_RSP => 60
  | LORAWAN_MSG_GET_LINKADRREQ_CONFIG_REQ => 61
  | LORAWAN_MSG_GET_LINKADRREQ_CONFIG_RSP => 62
  | LORAWAN_MSG_SET_BATTERY_LEVEL_REQ => 63
  end.

Definition WiMOD_devmgmt_status (s : DevMgmtStatus) : Z :=
  match s with
  | DEVMGMT_STATUS_OK => 0 | DEVMGMT_STATUS_ERROR => 1
  | DEVMGMT_STATUS_CMD_NOT_SUPPORTED => 2 | DEVMGMT_STATUS_WRONG_PARAMETER => 3
  | DEVMGMT_STATUS_WRONG_DEVICE_MODE => 4
  end.

Definition WiMOD_lorawan_status (s : LoRaWANStatus) : Z :=
  match s with
  | LORAWAN_STATUS_OK => 0 | LORAWAN_STATUS_ERROR => 1
  | LORAWAN_STATUS_CMD_NOT_SUPPORTED => 2 | LORAWAN_STATUS_WRONG_PARAMETER => 3
  | LORAWAN_STATUS_WRONG_DEVICE_MODE => 4 | LORAWAN_STATUS_DEVICE_NOT_ACTIVATED => 5
  | LORAWAN_STATUS_DEVICE_BUSY => 6 | LORAWAN_STATUS_QUEUE_FULL => 7
  | LORAWAN_STATUS_LENGTH_ERROR => 8 | LORAWAN_STATUS_NO_FACTORY_SETTINGS => 9
  | LORAWAN_STATUS_CHANNEL_BLOCKED_BY_DC => 10
  | LORAWAN_STATUS_CHANNEL_NOT_AVAILABLE => 11
  end.

(** A plain definition, not a global instance: the theorems stay generic
    and only the witnesses, after [#[local] Existing Instance WiMOD_API_h],
    use these values. *)
Program Definition WiMOD_API_h : WiMOD_HCI_Codes := {|
  WIMOD_HCI_MSG_PAYLOAD_SIZE := 300;
  DEVMGMT_SAP_ID := 1;
  LORAWAN_SAP_ID := 16;
  devmgmt_msg_code := WiMOD_devmgmt_msg;
  lorawan_msg_code := WiMOD_lorawan_msg;
  devmgmt_status_code := WiMOD_devmgmt_status;
  lorawan_status_code := WiMOD_lorawan_status
|}.
Next Obligation. lia. Qed.
Next Obligation. lia. Qed.
Next Obligation. apply (bool_decide_unpack _). vm_compute. reflexivity. Qed.
Next Obligation. apply (bool_decide_unpack _). vm_compute. reflexivity. Qed.
Next Obligation. apply (bool_decide_unpack _). vm_compute. reflexivity. Qed.
Next Obligation. apply (bool_decide_unpack _). vm_compute. reflexivity. Qed.
Next Obligation. vm_compute. reflexivity. Qed.

(** ** The transport contract

    [WiMOD_HCI_SendMessage] belongs to the HCI layer (not in [src/]): it
    frames and sends the message and returns an [int].  The encoder sees
    it only through this class: the message it was handed is recorded as
    sent, and the returned value is the transport's. *)
Class WiMOD_HCI_Transport := {
  WiMOD_HCI_SendMessage_result : TWiMOD_HCI_Message -> Z
}.

Section CodeBytes.
Context `{WiMOD_HCI_Codes}.

Lemma sap_ids_bytes : is_byte DEVMGMT_SAP_ID = true /\ is_byte LORAWAN_SAP_ID = true.
Proof.
  pose proof codes_are_bytes as Hb. simpl in Hb.
  apply andb_true_iff in Hb as [H1 Hb]. apply andb_true_iff in Hb as [H2 _]. auto.
Qed.

Lemma msg_codes_bytes :
  (forall k, is_byte (devmgmt_msg_code k) = true)
  /\ (forall k, is_byte (lorawan_msg_code k) = true).
Proof.
  pose proof codes_are_bytes as Hb. unfold bytes_ok in Hb. rewrite forallb_forall in Hb.
  split; intros k; apply Hb; rewrite !in_app_iff; right.
  - left. apply in_map, all_DevMgmtMsgId_complete.
  - right; left. apply in_map, all_LoRaWANMsgId_complete.
Qed.

(** A code passed as a [uint8_t] argument keeps its value. *)
Lemma u8_devmgmt_code k : u8 (devmgmt_msg_code k) = devmgmt_msg_code k.
Proof. apply wrap_small. apply is_byte_spec, (proj1 msg_codes_bytes). Qed.

Lemma u8_lorawan_code k : u8 (lorawan_msg_code k) = lorawan_msg_code k.
Proof. apply wrap_small. apply is_byte_spec, (proj2 msg_codes_bytes). Qed.

End CodeBytes.
