(* ===== verification/StatusTables.v ===== *)
(** * Status and module-type tables and their lookup

    [WiMOD_LoRaWAN_API.c] keeps three [static const TIDString] arrays
    (lines 136-180): the Device-Management status strings, the LoRaWAN
    status strings and the module types.  Each ends with the sentinel
    [{ 0, 0 }], whose [String] is the NULL pointer.
    [WiMOD_LoRaWAN_ShowResponse] (lines 1720-1737) scans a table until the
    sentinel and prints the label of the first entry whose [ID] matches.

    A [TIDString] is a record whose [String] is [None] for the NULL
    pointer.  The scan runs over the array; walking past its last element
    is a [Fault], so that the lemmas show the sentinel is always reached
    first. *)

From Stdlib Require Import ZArith Lia List.
From stdpp Require Import base list strings decidable gmap.
From S2P Require Import Prelude HciDefs.
Import ListNotations.
Open Scope Z_scope.
Open Scope wimod_scope.

Record TIDString := mkTID { ID : Z; String : option string }.

Definition tid (i : Z) (s : string) : TIDString := mkTID i (Some s).
Definition tid_end : TIDString := mkTID 0 None.

(** What [ShowResponse] prints: the caller's title, the status byte and
    the label found in the table. *)
Record StatusLine := mkStatusLine {
  sl_title : string;
  sl_status : Z;
  sl_label : string
}.

Section Tables.
Context `{WiMOD_HCI_Codes}.

Definition WiMOD_DeviceMgmt_StatusStrings : list TIDString :=
  [tid (devmgmt_status_code DEVMGMT_STATUS_OK) "ok";
   tid (devmgmt_status_code DEVMGMT_STATUS_ERROR) "error";
   tid (devmgmt_status_code DEVMGMT_STATUS_CMD_NOT_SUPPORTED) "command not supported";
   tid (devmgmt_status_code DEVMGMT_STATUS_WRONG_PARAMETER) "wrong parameter";
   tid (devmgmt_status_code DEVMGMT_STATUS_WRONG_DEVICE_MODE) "wrong device mode";
   tid_end].

Definition WiMOD_LoRaWAN_StatusStrings : list TIDString :=
  [tid (lorawan_status_code LORAWAN_STATUS_OK) "ok";
   tid (lorawan_status_code LORAWAN_STATUS_ERROR) "error";
   tid (lorawan_status_code LORAWAN_STATUS_CMD_NOT_SUPPORTED) "command not supported";
   tid (lorawan_status_code LORAWAN_STATUS_WRONG_PARAMETER) "wrong parameter";
   tid (lorawan_status_code LORAWAN_STATUS_WRONG_DEVICE_MODE) "wrong device mode";
   tid (lorawan_status_code LORAWAN_STATUS_DEVICE_NOT_ACTIVATED) "device not activated";
   tid (lorawan_status_code LORAWAN_STATUS_DEVICE_BUSY) "device busy - command rejected";
   tid (lorawan_status_code LORAWAN_STATUS_QUEUE_FULL) "message queue full - command rejected";
   tid (lorawan_status_code LORAWAN_STATUS_LENGTH_ERROR) "HCI message length error";
   tid (lorawan_status_code LORAWAN_STATUS_NO_FACTORY_SETTINGS) "no factory settings available";
   tid (lorawan_status_code LORAWAN_STATUS_CHANNEL_BLOCKED_BY_DC)
       "error: channel blocked due to duty cycle, please try later again";
   tid (lorawan_status_code LORAWAN_STATUS_CHANNEL_NOT_AVAILABLE) "error: channel not available";
   tid_end].

End Tables.

Definition WiMOD_DeviceMgmt_ModuleTypes : list TIDString :=
  [tid 144 "iM880A (obsolete)";
   tid 146 "iM880A-L (128k)";
   tid 147 "iU880A (128k)";
   tid 152 "iM880B-L";
   tid 153 "iU880B";
   tid 154 "iM980A (iMAS923TH for Thailand)";
   tid 160 "iM881A";
   tid_end].

(** [while (statusTable->String) { if (statusTable->ID == statusID) ...;
    statusTable++; }] *)
Fixpoint TIDString_scan (tbl : list TIDString) (statusID : Z) : res (option string) :=
  match tbl with
  | [] => Fault
  | e :: rest =>
      match String e with
      | None => Ok None
      | Some s => if ID e =? statusID then Ok (Some s) else TIDString_scan rest statusID
      end
  end.

Definition WiMOD_LoRaWAN_ShowResponse (title : string) (statusTable : list TIDString)
    (statusID : Z) : res (option StatusLine) :=
  label <- TIDString_scan statusTable statusID ;;
  Ok (match label with
      | Some l => Some (mkStatusLine title statusID l)
      | None => None
      end).

(** ** Lookup lemmas *)

(** The [(ID, String)] pairs of a table, up to its sentinel. *)
Fixpoint table_entries (tbl : list TIDString) : list (Z * string) :=
  match tbl with
  | [] => []
  | e :: rest =>
      match String e with
      | None => []
      | Some s => (ID e, s) :: table_entries rest
      end
  end.

(** A table is terminated when a NULL-string entry occurs in it. *)
Definition table_terminated (tbl : list TIDString) : bool :=
  existsb (fun e => match String e with None => true | Some _ => false end) tbl.

Fixpoint assoc_label (es : list (Z * string)) (i : Z) : option string :=
  match es with
  | [] => None
  | (j, s) :: rest => if j =? i then Some s else assoc_label rest i
  end.

(** The reference: the table as a finite map from code to label, the
    first entry of a code winning, as [list_to_map] builds it. *)
Definition status_map (tbl : list TIDString) : gmap Z string :=
  list_to_map (table_entries tbl).

Lemma TIDString_scan_entries tbl i :
  table_terminated tbl = true ->
  TIDString_scan tbl i = Ok (assoc_label (table_entries tbl) i).
Proof.
  induction tbl as [|[j [s|]] rest IH]; simpl; try discriminate; auto.
  destruct (j =? i); auto.
Qed.

Lemma assoc_label_hit es i s :
  NoDup (map fst es) -> In (i, s) es -> assoc_label es i = Some s.
Proof.
  induction es as [|[j t] es IH]; simpl; [tauto|].
  intros Hnd Hin. inversion Hnd as [|? ? Hn Hnd']; subst.
  destruct Hin as [E|Hin].
  - inversion E; subst. rewrite Z.eqb_refl. reflexivity.
  - destruct (Z.eqb_spec j i) as [->|]; auto.
    exfalso. apply Hn. apply list_elem_of_In, (in_map fst _ (i, s)), Hin.
Qed.

Lemma assoc_label_miss es i :
  (forall p, In p es -> fst p <> i) -> assoc_label es i = None.
Proof.
  induction es as [|[j t] es IH]; simpl; auto. intros Hn.
  destruct (Z.eqb_spec j i) as [E|_].
  - exfalso. exact (Hn (j, t) (or_introl eq_refl) E).
  - apply IH. intros p Hp. apply Hn. auto.
Qed.

Lemma assoc_label_map es i : assoc_label es i = (list_to_map es : gmap Z string) !! i.
Proof.
  induction es as [|[j s] es IH]; simpl; [by rewrite lookup_empty|].
  destruct (Z.eqb_spec j i) as [->|Hne].
  - by rewrite lookup_insert_eq.
  - by rewrite lookup_insert_ne.
Qed.

Section TableLemmas.
Context `{WiMOD_HCI_Codes}.

Lemma LoRaWAN_StatusStrings_ids :
  map fst (table_entries WiMOD_LoRaWAN_StatusStrings)
  = map lorawan_status_code all_LoRaWANStatus.
Proof. reflexivity. Qed.

Lemma DeviceMgmt_StatusStrings_ids :
  map fst (table_entries WiMOD_DeviceMgmt_StatusStrings)
  = map devmgmt_status_code all_DevMgmtStatus.
Proof. reflexivity. Qed.

(** A status code absent from a terminated table yields no status line. *)
Lemma ShowResponse_miss title tbl i :
  table_terminated tbl = true ->
  (forall p, In p (table_entries tbl) -> fst p <> i) ->
  WiMOD_LoRaWAN_ShowResponse title tbl i = Ok None.
Proof.
  intros Ht Hn. unfold WiMOD_LoRaWAN_ShowResponse.
  rewrite TIDString_scan_entries, assoc_label_miss by assumption. reflexivity.
Qed.

Lemma ShowResponse_hit title tbl i l :
  table_terminated tbl = true -> NoDup (map fst (table_entries tbl)) ->
  In (i, l) (table_entries tbl) ->
  WiMOD_LoRaWAN_ShowResponse title tbl i = Ok (Some (mkStatusLine title i l)).
Proof.
  intros Ht Hnd Hin. unfold WiMOD_LoRaWAN_ShowResponse.
  rewrite TIDString_scan_entries, (assoc_label_hit _ i l) by assumption.
  reflexivity.
Qed.

Lemma ShowResponse_cases title tbl i :
  table_terminated tbl = true -> NoDup (map fst (table_entries tbl)) ->
  (~ In i (map fst (table_entries tbl))
   /\ WiMOD_LoRaWAN_ShowResponse title tbl i = Ok None)
  \/ (exists l, In (i, l) (table_entries tbl)
      /\ WiMOD_LoRaWAN_ShowResponse title tbl i = Ok (Some (mkStatusLine title i l))).
Proof.
  intros Ht Hnd.
  destruct (in_dec Z.eq_dec i (map fst (table_entries tbl))) as [Hin|Hout].
  - right. apply in_map_iff in Hin as [[j l] [Hj Hin]]. simpl in Hj; subst j.
    exists l. split; [exact Hin|]. apply ShowResponse_hit; assumption.
  - left. split; [exact Hout|]. apply ShowResponse_miss; [exact Ht|].
    intros p Hp E. apply Hout. rewrite <- E. apply in_map, Hp.
Qed.

(** [WiMOD_LoRaWAN_ShowResponse] over the LoRaWAN status table never
    runs past the table: a status byte that is the code of a LoRaWAN
    status yields exactly one status line, with the label the table pairs
    with that code; any other byte yields no line and no error. *)
Theorem LoRaWAN_ShowResponse_spec title i :
  ((forall s, lorawan_status_code s <> i)
   /\ WiMOD_LoRaWAN_ShowResponse title WiMOD_LoRaWAN_StatusStrings i = Ok None)
  \/ (exists s l, lorawan_status_code s = i
      /\ In (i, l) (table_entries WiMOD_LoRaWAN_StatusStrings)
      /\ WiMOD_LoRaWAN_ShowResponse title WiMOD_LoRaWAN_StatusStrings i
         = Ok (Some (mkStatusLine title i l))).
Proof.
  destruct (ShowResponse_cases title WiMOD_LoRaWAN_StatusStrings i)
    as [[Hout Hr]|(l & Hin & Hr)];
    [reflexivity | rewrite LoRaWAN_StatusStrings_ids; apply lorawan_status_code_inj | |].
  - left. split; [|exact Hr]. intros s E. apply Hout.
    rewrite LoRaWAN_StatusStrings_ids, <- E. apply in_map, all_LoRaWANStatus_complete.
  - right.
    assert (Hi : In i (map fst (table_entries WiMOD_LoRaWAN_StatusStrings)))
      by exact (in_map fst _ (i, l) Hin).
    rewrite LoRaWAN_StatusStrings_ids in Hi.
    apply in_map_iff in Hi as [s [Hs _]]. exists s, l. auto.
Qed.

(** C37: the linear scan of [WiMOD_LoRaWAN_ShowResponse] is a finite-map
    lookup.  Over any table that ends with its sentinel entry, the
    routine returns the status line of the label the map of the table's
    entries gives the code (the first entry of the code), and no line
    when the map has none: the [while (statusTable->String)] loop never
    faults and never reads past the sentinel. *)
Theorem ShowResponse_map_equiv title tbl i :
  table_terminated tbl = true ->
  WiMOD_LoRaWAN_ShowResponse title tbl i = Ok (mkStatusLine title i <$> status_map tbl !! i).
Proof.
  intros Ht. unfold WiMOD_LoRaWAN_ShowResponse, status_map.
  rewrite TIDString_scan_entries, assoc_label_map by exact Ht.
  by destruct (_ !! i).
Qed.

End TableLemmas.

#[local] Existing Instance WiMOD_API_h.

(** The LoRaWAN table and the status [LORAWAN_STATUS_ERROR] (1). *)
Lemma ShowResponse_map_equiv_witness :
  table_terminated WiMOD_LoRaWAN_StatusStrings = true
  /\ WiMOD_LoRaWAN_ShowResponse "join" WiMOD_LoRaWAN_StatusStrings 1
     = Ok (mkStatusLine "join" 1 <$> status_map WiMOD_LoRaWAN_StatusStrings !! 1).
Proof. split; [reflexivity | apply ShowResponse_map_equiv; reflexivity]. Defined.
