(* ===== verification/RtcCodec.v ===== *)
(** * The RTC time word

    The module's real-time clock is a 32-bit word with the layout of the
    HCI specification (spec 4.2), most significant field first:
    year - 2000 in bits 31-26, day in 25-21, hour in 20-16, month in
    15-12, minute in 11-6, second in 5-0.  [rtc_unpack] is the decoding
    of [WiMOD_LoRaWAN_DevMgmt_Get_RTC_Rsp] (lines 822-839) and of the
    target time of [WiMOD_LoRaWAN_DevMgmt_DeviceStatus_Rsp] (lines
    876-897): a mask and a shift per field.  The module's own encoder
    is not in [src/]: [rtc_pack] models it from the specification, and
    the round trip of the two is proved.

    [SetRTC] (lines 1995-2018) builds the word by hand with a sequence
    of [|=] and [<<=] on a [uint32_t]; [SetRTC_time] is that sequence
    with the literals of the source as parameters.  Each shift there uses
    the width of the field just written instead of the width of the next
    one, so day, hour and month land one, one and two bits too low: the
    theorem [SetRTC_time_decodes_wrong] computes what the module reads. *)

From Stdlib Require Import ZArith Lia List.
From stdpp Require Import base list decidable.
From S2P Require Import Prelude.
Open Scope Z_scope.
Open Scope wimod_scope.

Record RtcTime := mkRtcTime {
  year : Z; month : Z; day : Z; hour : Z; minute : Z; second : Z
}.

#[export] Instance RtcTime_eq_dec : EqDecision RtcTime.
Proof. solve_decision. Defined.

Definition rtc_valid (t : RtcTime) : bool :=
  (2000 <=? year t) && (year t <=? 2063) && (1 <=? month t) && (month t <=? 12)
  && (1 <=? day t) && (day t <=? 31) && (0 <=? hour t) && (hour t <=? 23)
  && (0 <=? minute t) && (minute t <=? 59) && (0 <=? second t) && (second t <=? 59).

Definition rtc_pack (t : RtcTime) : Z :=
  Z.lor (Z.shiftl (year t - 2000) 26)
   (Z.lor (Z.shiftl (day t) 21)
    (Z.lor (Z.shiftl (hour t) 16)
     (Z.lor (Z.shiftl (month t) 12)
      (Z.lor (Z.shiftl (minute t) 6) (second t))))).

(** [((help & 0xfc000000) >> 26) + 2000], [(help & 0xf000) >> 12],
    [(help & 0x3e00000) >> 21], [(help & 0x1f0000) >> 16],
    [(help & 0xfc0) >> 6], [help & 0x3f] *)
Definition rtc_unpack (help : Z) : RtcTime :=
  {| year := Z.shiftr (Z.land help 0xfc000000) 26 + 2000;
     month := Z.shiftr (Z.land help 0xf000) 12;
     day := Z.shiftr (Z.land help 0x3e00000) 21;
     hour := Z.shiftr (Z.land help 0x1f0000) 16;
     minute := Z.shiftr (Z.land help 0xfc0) 6;
     second := Z.land help 0x3f |}.

(** [time |= 18; time <<= 6; time |= 20; time <<= 5; time |= 12;
    time <<= 5; time |= 5; time <<= 4; time |= 30; time <<= 6; time |= 30;] *)
Definition SetRTC_time (yy dd hh mo mi ss : Z) : Z :=
  let time := 0 in
  let time := Z.lor time yy in
  let time := u32 (Z.shiftl time 6) in
  let time := Z.lor time dd in
  let time := u32 (Z.shiftl time 5) in
  let time := Z.lor time hh in
  let time := u32 (Z.shiftl time 5) in
  let time := Z.lor time mo in
  let time := u32 (Z.shiftl time 4) in
  let time := Z.lor time mi in
  let time := u32 (Z.shiftl time 6) in
  Z.lor time ss.

(** ** Arithmetic form of the packing *)

(** Each mask of the decoder selects one field of the layout. *)
Lemma rtc_unpack_fields w :
  rtc_unpack w = {| year := 2000 + bit_field w 26 6; month := bit_field w 12 4;
                    day := bit_field w 21 5; hour := bit_field w 16 5;
                    minute := bit_field w 6 6; second := bit_field w 0 6 |}.
Proof.
  unfold rtc_unpack.
  rewrite <- (mask_field w 26 6), <- (mask_field w 12 4), <- (mask_field w 21 5),
    <- (mask_field w 16 5), <- (mask_field w 6 6), <- (mask_field w 0 6) by lia.
  rewrite Z.add_comm, Z.shiftr_0_r. reflexivity.
Qed.

Lemma lor_shiftl_mul a b k :
  0 <= k -> 0 <= b < 2 ^ k -> Z.lor (Z.shiftl a k) b = a * 2 ^ k + b.
Proof. intros. rewrite lor_shiftl_add, Z.shiftl_mul_pow2 by lia. reflexivity. Qed.

Lemma rtc_valid_spec t :
  rtc_valid t = true <->
  2000 <= year t <= 2063 /\ 1 <= month t <= 12 /\ 1 <= day t <= 31
  /\ 0 <= hour t <= 23 /\ 0 <= minute t <= 59 /\ 0 <= second t <= 59.
Proof. unfold rtc_valid. rewrite !andb_true_iff, !Z.leb_le. tauto. Qed.

Lemma rtc_pack_arith t :
  rtc_valid t = true ->
  rtc_pack t = (year t - 2000) * 2 ^ 26 + day t * 2 ^ 21 + hour t * 2 ^ 16
               + month t * 2 ^ 12 + minute t * 2 ^ 6 + second t.
Proof.
  intros Hv. apply rtc_valid_spec in Hv. unfold rtc_pack.
  rewrite (lor_shiftl_mul (minute t)) by (simpl; lia).
  rewrite (lor_shiftl_mul (month t)) by (simpl; lia).
  rewrite (lor_shiftl_mul (hour t)) by (simpl; lia).
  rewrite (lor_shiftl_mul (day t)) by (simpl; lia).
  rewrite (lor_shiftl_mul (year t - 2000)) by (simpl; lia).
  lia.
Qed.

Lemma lor_div_pow2 a b k :
  0 <= k -> 0 <= b < 2 ^ k -> Z.lor a b / 2 ^ k = a / 2 ^ k.
Proof.
  intros. rewrite <- !Z.shiftr_div_pow2 by lia. rewrite Z.shiftr_lor.
  rewrite (Z.shiftr_div_pow2 b), Z.div_small by lia. apply Z.lor_0_r.
Qed.

Lemma lor_nonneg a b : 0 <= a -> 0 <= b -> 0 <= Z.lor a b.
Proof. intros. apply Z.lor_nonneg. auto. Qed.

(** One [time <<= k; time |= x;] step that neither wraps nor overlaps. *)
Lemma shift_or_add t k x :
  0 <= t -> 0 <= k -> 0 <= x < 2 ^ k -> t * 2 ^ k + x < 2 ^ 32 ->
  Z.lor (u32 (Z.shiftl t k)) x = t * 2 ^ k + x.
Proof.
  intros. rewrite wrap_small; rewrite Z.shiftl_mul_pow2 by lia.
  - rewrite <- Z.shiftl_mul_pow2, lor_shiftl_add, Z.shiftl_mul_pow2 by lia. lia.
  - nia.
Qed.

(** The packing of [SetRTC], stage by stage: the first four [|=] add a
    field below the bits shifted in, the fifth ors a 6-bit minute into a
    4-bit gap. *)
Lemma SetRTC_time_arith yy dd hh mo mi ss :
  0 <= yy < 64 -> 0 <= dd < 32 -> 0 <= hh < 32 -> 0 <= mo < 16 ->
  0 <= mi < 64 -> 0 <= ss < 64 ->
  SetRTC_time yy dd hh mo mi ss
  = Z.lor ((((yy * 64 + dd) * 32 + hh) * 32 + mo) * 16) mi * 64 + ss.
Proof.
  intros. unfold SetRTC_time. rewrite Z.lor_0_l.
  rewrite (shift_or_add yy 6 dd) by (simpl; lia).
  rewrite (shift_or_add (yy * 2 ^ 6 + dd) 5 hh) by (simpl; lia).
  rewrite (shift_or_add ((yy * 2 ^ 6 + dd) * 2 ^ 5 + hh) 5 mo) by (simpl; lia).
  set (t4 := ((yy * 2 ^ 6 + dd) * 2 ^ 5 + hh) * 2 ^ 5 + mo).
  rewrite (wrap_small 32 (Z.shiftl t4 4))
    by (rewrite Z.shiftl_mul_pow2 by lia; unfold t4; simpl; lia).
  rewrite (Z.shiftl_mul_pow2 t4 4) by lia.
  assert (Hlo : 0 <= Z.lor (t4 * 2 ^ 4) mi) by (apply lor_nonneg; unfold t4; simpl; lia).
  assert (Hhi : Z.lor (t4 * 2 ^ 4) mi / 2 ^ 6 = t4 * 2 ^ 4 / 2 ^ 6)
    by (apply lor_div_pow2; simpl; lia).
  rewrite shift_or_add by (unfold t4 in *; simpl in *; Z.div_mod_to_equations; lia).
  unfold t4. simpl. reflexivity.
Qed.

(** ** Theorems *)

(** The decoder inverts the packing on valid fields. *)
Lemma rtc_unpack_pack_valid t : rtc_valid t = true -> rtc_unpack (rtc_pack t) = t.
Proof.
  intros Hv. rewrite rtc_pack_arith by exact Hv. apply rtc_valid_spec in Hv.
  destruct t as [y mo d h mi s]; simpl in *. rewrite rtc_unpack_fields.
  rewrite !bit_field_div by lia. simpl.
  f_equal; Z.div_mod_to_equations; lia.
Qed.

Lemma rtc_pack_bound t : rtc_valid t = true -> 0 <= rtc_pack t < 2 ^ 32.
Proof.
  intros Hv. rewrite rtc_pack_arith by exact Hv. apply rtc_valid_spec in Hv.
  simpl. lia.
Qed.

(** C10: the decoder of [Get_RTC_Rsp] inverts the documented RTC layout:
    for every valid date and time (year 2000-2063, month 1-12, day 1-31,
    hour 0-23, minute and second 0-59), the packed word fits the
    [uint32_t] the module sends, and the masks and shifts applied to it
    give back the same six fields. *)
Theorem rtc_unpack_pack t :
  rtc_valid t = true -> 0 <= rtc_pack t < 2 ^ 32 /\ rtc_unpack (rtc_pack t) = t.
Proof. intros Hv. split; [apply rtc_pack_bound | apply rtc_unpack_pack_valid]; exact Hv. Qed.

(** C9: [SetRTC] packs the clock with shifts of the wrong widths.  For
    every valid date and time, the word it builds, read with the
    documented layout, has the right year and second, but day [dd / 2],
    hour [hh / 2 + 16 * (dd mod 2)] and month [mo / 4 + 8 * (hh mod 2)]:
    the day the module reads is never the day written. *)
Theorem SetRTC_time_decodes_wrong yy dd hh mo mi ss :
  0 <= yy < 64 -> 1 <= dd <= 31 -> 0 <= hh <= 23 -> 1 <= mo <= 12 ->
  0 <= mi <= 59 -> 0 <= ss <= 59 ->
  let t := rtc_unpack (SetRTC_time yy dd hh mo mi ss) in
  year t = 2000 + yy /\ day t = dd / 2 /\ hour t = hh / 2 + 16 * (dd mod 2)
  /\ month t = mo / 4 + 8 * (hh mod 2) /\ second t = ss /\ day t <> dd.
Proof.
  intros H1 H2 H3 H4 H5 H6. cbv zeta. rewrite SetRTC_time_arith by lia.
  set (t4 := ((yy * 64 + dd) * 32 + hh) * 32 + mo).
  assert (Hlo : 0 <= Z.lor (t4 * 16) mi) by (apply lor_nonneg; unfold t4; lia).
  assert (Hhi : Z.lor (t4 * 16) mi / 2 ^ 6 = t4 * 2 ^ 4 / 2 ^ 6)
    by (apply (lor_div_pow2 (t4 * 2 ^ 4)); simpl; lia).
  simpl in Hhi. set (L := Z.lor (t4 * 16) mi) in *. unfold t4 in *.
  rewrite rtc_unpack_fields; simpl. rewrite !bit_field_div by lia. simpl.
  repeat split; Z.div_mod_to_equations; lia.
Qed.

(** ** Witnesses *)

Lemma rtc_unpack_pack_witness :
  rtc_valid (mkRtcTime 2018 5 20 12 30 30) = true
  /\ rtc_unpack (rtc_pack (mkRtcTime 2018 5 20 12 30 30)) = mkRtcTime 2018 5 20 12 30 30.
Proof. split; [reflexivity | apply rtc_unpack_pack; reflexivity]. Defined.

Lemma SetRTC_time_decodes_wrong_witness :
  day (rtc_unpack (SetRTC_time 18 20 12 5 30 30)) = 10
  /\ month (rtc_unpack (SetRTC_time 18 20 12 5 30 30)) = 1.
Proof.
  destruct (SetRTC_time_decodes_wrong 18 20 12 5 30 30) as (_ & Hd & _ & Hm & _);
    try lia.
  rewrite Hd, Hm. split; reflexivity.
Defined.
