(* ===== verification/Encoder.v ===== *)
(** * The outbound encoders: [WiMOD_DevMgmt_Msg_Req], [WiMOD_LoRaWAN_Msg_Req]

    Both requests (lines 212-246 and 248-298) fill the one static
    [TxMessage] of the file: they set the SAP and message identifiers,
    clear the whole payload with [memset], choose [Length] in a [switch]
    on the identifier (returning [DEVMGMT_STATUS_CMD_NOT_SUPPORTED] for an
    identifier the switch does not list), copy [Length] bytes from the
    caller's buffer [val] with [memcpy] and hand [TxMessage] to
    [WiMOD_HCI_SendMessage].

    The state is the [TxMessage] global and the list of messages handed
    to the transport; every operation is a function of that state into
    [res (Z * TxState)].  The caller's buffer [val] is a list whose length
    is the extent of the C object; [memcpy] reading past it, or writing
    past [TxMessage.Payload], is a [Fault]. *)

From Stdlib Require Import ZArith Lia List.
From stdpp Require Import base list strings decidable.
From S2P Require Import Prelude HciDefs RtcCodec.
Import ListNotations.
Open Scope Z_scope.
Open Scope wimod_scope.

Record TxState := mkTx {
  TxMessage : TWiMOD_HCI_Message;
  tx_sent : list TWiMOD_HCI_Message
}.

Section Encoder.
Context `{WiMOD_HCI_Codes} `{WiMOD_HCI_Transport}.

Definition WiMOD_HCI_SendMessage (st : TxState) : res (Z * TxState) :=
  Ok (WiMOD_HCI_SendMessage_result (TxMessage st),
      mkTx (TxMessage st) (tx_sent st ++ [TxMessage st])).

(** The [TxMessage] after [SapID], [MsgID] and the [memset]. *)
Definition tx_header (sap msg_id : Z) (st : TxState) : TWiMOD_HCI_Message :=
  mkMsg (Length (TxMessage st)) sap msg_id (zeros WIMOD_HCI_MSG_PAYLOAD_SIZE).

(** [TxMessage.Length = L; if (L > 0) memcpy(TxMessage.Payload, val, L);
    return WiMOD_HCI_SendMessage(&TxMessage);] *)
Definition tx_fill_and_send (m : TWiMOD_HCI_Message) (L : Z) (val : list Z)
    (st : TxState) : res (Z * TxState) :=
  p <- (if L >? 0 then memcpy (Payload m) 0 val L else Ok (Payload m)) ;;
  WiMOD_HCI_SendMessage (mkTx (mkMsg L (SapID m) (MsgID m) p) (tx_sent st)).

(** The [switch (msg_id)] of [WiMOD_DevMgmt_Msg_Req]. *)
Definition devmgmt_req_length (msg_id : Z) : option Z :=
  match devmgmt_msg_of_code msg_id with
  | Some (DEVMGMT_MSG_PING_REQ | DEVMGMT_MSG_GET_DEVICE_INFO_REQ
         | DEVMGMT_MSG_RESET_REQ | DEVMGMT_MSG_GET_FW_VERSION_REQ
         | DEVMGMT_MSG_GET_DEVICE_STATUS_REQ | DEVMGMT_MSG_GET_RTC_REQ
         | DEVMGMT_MSG_GET_RTC_ALARM_REQ | DEVMGMT_MSG_CLEAR_RTC_ALARM_REQ
         | DEVMGMT_MSG_GET_OPMODE_REQ) => Some 0
  | Some (DEVMGMT_MSG_SET_RTC_REQ | DEVMGMT_MSG_SET_RTC_ALARM_REQ) => Some 4
  | Some DEVMGMT_MSG_SET_OPMODE_REQ => Some 1
  | _ => None
  end.

(** The argument is converted to the [uint8_t msg_id] parameter; [len]
    is not used. *)
Definition WiMOD_DevMgmt_Msg_Req (msg_id : Z) (val : list Z) (len : Z)
    (st : TxState) : res (Z * TxState) :=
  let msg_id := u8 msg_id in
  let m := tx_header DEVMGMT_SAP_ID msg_id st in
  match devmgmt_req_length msg_id with
  | None => Ok (devmgmt_status_code DEVMGMT_STATUS_CMD_NOT_SUPPORTED,
                mkTx m (tx_sent st))
  | Some L => tx_fill_and_send m L val st
  end.

(** The [switch (msg_id)] of [WiMOD_LoRaWAN_Msg_Req]; the three data
    requests take the caller's [uint16_t len]. *)
Definition lorawan_req_length (msg_id : Z) (len : Z) : option Z :=
  match lorawan_msg_of_code msg_id with
  | Some LORAWAN_MSG_ACTIVATE_DEVICE_REQ => Some 36
  | Some (LORAWAN_MSG_REACTIVATE_DEVICE_REQ | LORAWAN_MSG_JOIN_NETWORK_REQ
         | LORAWAN_MSG_GET_RSTACK_CONFIG_REQ | LORAWAN_MSG_GET_SUPPORTED_BANDS_REQ
         | LORAWAN_MSG_GET_DEVICE_EUI_REQ | LORAWAN_MSG_GET_CUSTOM_CFG_REQ
         | LORAWAN_MSG_GET_LINKADRREQ_CONFIG_REQ | LORAWAN_MSG_FACTORY_RESET_REQ
         | LORAWAN_MSG_DEACTIVATE_DEVICE_REQ | LORAWAN_MSG_GET_NWK_STATUS_REQ) => Some 0
  | Some (LORAWAN_MSG_SET_CUSTOM_CFG_REQ | LORAWAN_MSG_SET_LINKADRREQ_CONFIG_REQ
         | LORAWAN_MSG_SET_BATTERY_LEVEL_REQ) => Some 1
  | Some LORAWAN_MSG_SET_JOIN_PARAM_REQ => Some 24
  | Some (LORAWAN_MSG_SEND_UDATA_REQ | LORAWAN_MSG_SEND_CDATA_REQ
         | LORAWAN_MSG_SEND_MAC_CMD_REQ) => Some len
  | Some LORAWAN_MSG_SET_RSTACK_CONFIG_REQ => Some 7
  | Some LORAWAN_MSG_SET_DEVICE_EUI_REQ => Some 8
  | _ => None
  end.

(** The arguments are converted to the [uint8_t msg_id] and [uint16_t
    len] parameters. *)
Definition WiMOD_LoRaWAN_Msg_Req (msg_id : Z) (val : list Z) (len : Z)
    (st : TxState) : res (Z * TxState) :=
  let msg_id := u8 msg_id in
  let len := u16 len in
  let m := tx_header LORAWAN_SAP_ID msg_id st in
  match lorawan_req_length msg_id len with
  | None => Ok (devmgmt_status_code DEVMGMT_STATUS_CMD_NOT_SUPPORTED,
                mkTx m (tx_sent st))
  | Some L => tx_fill_and_send m L val st
  end.

(** ** The API requests (lines 307-585) *)

Definition WiMOD_LoRaWAN_GetCustomConfig :=
  WiMOD_LoRaWAN_Msg_Req (lorawan_msg_code LORAWAN_MSG_GET_CUSTOM_CFG_REQ) [] 0.

(** [(uint8_t* ) &val] of an [int8_t]: the two's-complement byte. *)
Definition WiMOD_LoRaWAN_SetCustomConfig (val : Z) :=
  WiMOD_LoRaWAN_Msg_Req (lorawan_msg_code LORAWAN_MSG_SET_CUSTOM_CFG_REQ) [u8 val] 1.

Definition WiMOD_LoRaWAN_SetRadioStackConfig (st : TxState) : res (Z * TxState) :=
  Ok (1, st).

(** [uint8_t val]: the argument is converted to a byte. *)
Definition WiMOD_LoRaWAN_SetOPMODE (val : Z) (st : TxState) : res (Z * TxState) :=
  let val := u8 val in
  if val >? 1 then Ok (-1, st)
  else WiMOD_DevMgmt_Msg_Req (devmgmt_msg_code DEVMGMT_MSG_SET_OPMODE_REQ) [val] 1 st.

Definition WiMOD_LoRaWAN_GetOPMODE :=
  WiMOD_DevMgmt_Msg_Req (devmgmt_msg_code DEVMGMT_MSG_GET_OPMODE_REQ) [] 0.

Definition WiMOD_LoRaWAN_ClearRTCAlarm :=
  WiMOD_DevMgmt_Msg_Req (devmgmt_msg_code DEVMGMT_MSG_CLEAR_RTC_ALARM_REQ) [] 0.

Definition WiMOD_LoRaWAN_GetRTCAlarm :=
  WiMOD_DevMgmt_Msg_Req (devmgmt_msg_code DEVMGMT_MSG_GET_RTC_ALARM_REQ) [] 0.

Definition WiMOD_LoRaWAN_SetRTCAlarm (alarm : list Z) :=
  WiMOD_DevMgmt_Msg_Req (devmgmt_msg_code DEVMGMT_MSG_SET_RTC_ALARM_REQ) alarm 4.

Definition WiMOD_LoRaWAN_GetRTC :=
  WiMOD_DevMgmt_Msg_Req (devmgmt_msg_code DEVMGMT_MSG_GET_RTC_REQ) [] 0.

(** [(uint8_t * ) time] of a [uint32_t*]: its four bytes, least
    significant first on the little-endian target. *)
Definition WiMOD_LoRaWAN_SetRTC (time : Z) :=
  WiMOD_DevMgmt_Msg_Req (devmgmt_msg_code DEVMGMT_MSG_SET_RTC_REQ) (le_bytes 4 time) 4.

Definition WiMOD_LoRaWAN_SendPing :=
  WiMOD_DevMgmt_Msg_Req (devmgmt_msg_code DEVMGMT_MSG_PING_REQ) [] 0.

Definition WiMOD_LoRaWAN_GetDeviceInfo :=
  WiMOD_DevMgmt_Msg_Req (devmgmt_msg_code DEVMGMT_MSG_GET_DEVICE_INFO_REQ) [] 0.

Definition WiMOD_LoRaWAN_GetFirmwareVersion :=
  WiMOD_DevMgmt_Msg_Req (devmgmt_msg_code DEVMGMT_MSG_GET_FW_VERSION_REQ) [] 0.

Definition WiMOD_LoRaWAN_GetNkwStatus :=
  WiMOD_LoRaWAN_Msg_Req (lorawan_msg_code LORAWAN_MSG_GET_NWK_STATUS_REQ) [] 0.

Definition WiMOD_LoRaWAN_FactoryReset :=
  WiMOD_LoRaWAN_Msg_Req (lorawan_msg_code LORAWAN_MSG_FACTORY_RESET_REQ) [] 0.

Definition WiMOD_LoRaWAN_Reset :=
  WiMOD_DevMgmt_Msg_Req (devmgmt_msg_code DEVMGMT_MSG_RESET_REQ) [] 0.

Definition WiMOD_LoRaWAN_GetDeviceStatus :=
  WiMOD_DevMgmt_Msg_Req (devmgmt_msg_code DEVMGMT_MSG_GET_DEVICE_STATUS_REQ) [] 0.

Definition WiMOD_LoRaWAN_JoinNetworkRequest :=
  WiMOD_LoRaWAN_Msg_Req (lorawan_msg_code LORAWAN_MSG_JOIN_NETWORK_REQ) [] 0.

Definition WiMOD_LoRaWAN_GetLinkADR :=
  WiMOD_LoRaWAN_Msg_Req (lorawan_msg_code LORAWAN_MSG_GET_LINKADRREQ_CONFIG_REQ) [] 0.

Definition WiMOD_LoRaWAN_SetLinkADR (payload : list Z) :=
  WiMOD_LoRaWAN_Msg_Req (lorawan_msg_code LORAWAN_MSG_SET_LINKADRREQ_CONFIG_REQ) payload 1.

(** Sixteen bytes of [payload] as a MAC command. *)
Definition WiMOD_LoRaWAN_SetMAC_CMD (payload : list Z) :=
  WiMOD_LoRaWAN_Msg_Req (lorawan_msg_code LORAWAN_MSG_SEND_MAC_CMD_REQ) payload 16.

(** The 37-byte ABP activation buffer of [WiMOD_LoRaWAN_ActivateRequest]:
    device address 0x00004704, network key, application key, a final 0. *)
Definition ActivateRequest_payload : list Z :=
  [4; 71; 0; 0;
   0; 17; 34; 51; 68; 85; 102; 119; 136; 153; 170; 187; 204; 221; 238; 255;
   255; 238; 221; 204; 187; 170; 153; 136; 119; 102; 85; 68; 51; 34; 17; 0;
   0].

Definition WiMOD_LoRaWAN_ActivateRequest :=
  WiMOD_LoRaWAN_Msg_Req (lorawan_msg_code LORAWAN_MSG_ACTIVATE_DEVICE_REQ)
    ActivateRequest_payload 37.

(** The radio-data requests: the port byte goes in [payload[0]] of a
    local buffer of [WIMOD_HCI_MSG_PAYLOAD_SIZE] zero bytes, the
    application data after it, and [len] is [1 + srcLength].  [SendURadioData] and [SendCRadioData]
    differ only in the message identifier. *)
Definition radio_data_req (kind : LoRaWANMsgId) (port : Z) (srcData : list Z) (srcLength : Z)
    (st : TxState) : res (Z * TxState) :=
  if srcLength >? WIMOD_HCI_MSG_PAYLOAD_SIZE - 1 then Ok (-1, st)
  else
    payload <- memcpy (u8 port :: zeros (WIMOD_HCI_MSG_PAYLOAD_SIZE - 1)) 1
                      srcData srcLength ;;
    WiMOD_LoRaWAN_Msg_Req (lorawan_msg_code kind) payload (1 + srcLength) st.

Definition WiMOD_LoRaWAN_SendURadioData := radio_data_req LORAWAN_MSG_SEND_UDATA_REQ.

Definition WiMOD_LoRaWAN_SendCRadioData := radio_data_req LORAWAN_MSG_SEND_CDATA_REQ.

End Encoder.

(** ** Lemmas on the shared fill-and-send step *)

Section EncoderLemmas.
Context `{WiMOD_HCI_Codes} `{WiMOD_HCI_Transport}.

Lemma zeros_split n L :
  0 <= L <= n -> zeros n = zeros L ++ zeros (n - L).
Proof.
  intros. unfold zeros. rewrite <- repeat_app. f_equal. lia.
Qed.

Lemma take_drop_zeros (val : list Z) L n :
  0 <= L <= n -> Z.of_nat (length val) >= L ->
  take (Z.to_nat L) val ++ drop (Z.to_nat L) (zeros n)
  = take (Z.to_nat L) val ++ zeros (n - L).
Proof.
  intros. f_equal. rewrite (zeros_split n L) by lia.
  rewrite drop_app_length'; [reflexivity|]. rewrite length_zeros; lia.
Qed.

(** The message [tx_fill_and_send] hands to the transport. *)
Definition filled (sap msg_id L : Z) (val : list Z) : TWiMOD_HCI_Message :=
  mkMsg L sap msg_id (take (Z.to_nat L) val ++ zeros (WIMOD_HCI_MSG_PAYLOAD_SIZE - L)).

Lemma tx_fill_and_send_ok sap msg_id L val st :
  0 <= L <= WIMOD_HCI_MSG_PAYLOAD_SIZE -> L <= Z.of_nat (length val) ->
  tx_fill_and_send (tx_header sap msg_id st) L val st
  = Ok (WiMOD_HCI_SendMessage_result (filled sap msg_id L val),
        mkTx (filled sap msg_id L val) (tx_sent st ++ [filled sap msg_id L val])).
Proof.
  intros HL Hv. pose proof payload_size_range.
  unfold tx_fill_and_send, tx_header, filled; simpl.
  destruct (Z.gtb_spec L 0).
  - rewrite memcpy_ok by (rewrite ?length_zeros; lia). simpl.
    rewrite take_drop_zeros by lia. rewrite Z.add_0_l. reflexivity.
  - assert (L = 0) as -> by lia. simpl. rewrite Z.sub_0_r. reflexivity.
Qed.

Lemma tx_fill_and_send_fault sap msg_id L val st :
  0 < L -> (WIMOD_HCI_MSG_PAYLOAD_SIZE < L \/ Z.of_nat (length val) < L) ->
  tx_fill_and_send (tx_header sap msg_id st) L val st = Fault.
Proof.
  intros HL Hf. pose proof payload_size_range.
  unfold tx_fill_and_send, tx_header; simpl.
  destruct (Z.gtb_spec L 0); [|lia].
  rewrite memcpy_fault by (rewrite ?length_zeros; lia). reflexivity.
Qed.

Lemma filled_wf sap msg_id L val :
  0 <= L <= WIMOD_HCI_MSG_PAYLOAD_SIZE -> L <= Z.of_nat (length val) ->
  bytes_ok val = true -> is_byte sap = true -> is_byte msg_id = true ->
  msg_wf (filled sap msg_id L val) = true.
Proof.
  intros HL Hv Hb Hs Hm. pose proof payload_size_range.
  apply msg_wf_spec. unfold filled; simpl.
  rewrite length_app, length_take, length_zeros by lia.
  rewrite bytes_ok_app, bytes_ok_zeros, andb_true_r.
  rewrite bytes_ok_take by exact Hb.
  apply is_byte_spec in Hs, Hm. repeat split; lia.
Qed.

End EncoderLemmas.

(** ** The encoder contract of the specification (spec 4.1-4.3)

    [encode(endpoint, kind, args) -> Envelope | Error]: a kind outside
    the endpoint's table is [UnsupportedKind]; a kind with a fixed length
    takes exactly that many argument bytes; a data request takes any
    number of bytes up to the payload capacity. *)

Inductive EncodeError := UnsupportedKind | InvalidArgument | Overflow | LengthMismatch.

Record Envelope := mkEnv { env_endpoint : Z; env_kind : Z; env_payload : list Z }.

Inductive LengthRule := FixedLen (n : nat) | VariableLen.

Definition devmgmt_length_rule (k : DevMgmtMsgId) : option LengthRule :=
  match k with
  | DEVMGMT_MSG_PING_REQ | DEVMGMT_MSG_GET_DEVICE_INFO_REQ | DEVMGMT_MSG_RESET_REQ
  | DEVMGMT_MSG_GET_FW_VERSION_REQ | DEVMGMT_MSG_GET_DEVICE_STATUS_REQ
  | DEVMGMT_MSG_GET_RTC_REQ | DEVMGMT_MSG_GET_RTC_ALARM_REQ
  | DEVMGMT_MSG_CLEAR_RTC_ALARM_REQ | DEVMGMT_MSG_GET_OPMODE_REQ => Some (FixedLen 0)
  | DEVMGMT_MSG_SET_RTC_REQ | DEVMGMT_MSG_SET_RTC_ALARM_REQ => Some (FixedLen 4)
  | DEVMGMT_MSG_SET_OPMODE_REQ => Some (FixedLen 1)
  | _ => None
  end.

Definition lorawan_length_rule (k : LoRaWANMsgId) : option LengthRule :=
  match k with
  | LORAWAN_MSG_REACTIVATE_DEVICE_REQ | LORAWAN_MSG_JOIN_NETWORK_REQ
  | LORAWAN_MSG_GET_RSTACK_CONFIG_REQ | LORAWAN_MSG_GET_SUPPORTED_BANDS_REQ
  | LORAWAN_MSG_GET_DEVICE_EUI_REQ | LORAWAN_MSG_GET_CUSTOM_CFG_REQ
  | LORAWAN_MSG_GET_LINKADRREQ_CONFIG_REQ | LORAWAN_MSG_FACTORY_RESET_REQ
  | LORAWAN_MSG_DEACTIVATE_DEVICE_REQ | LORAWAN_MSG_GET_NWK_STATUS_REQ => Some (FixedLen 0)
  | LORAWAN_MSG_SET_CUSTOM_CFG_REQ | LORAWAN_MSG_SET_LINKADRREQ_CONFIG_REQ
  | LORAWAN_MSG_SET_BATTERY_LEVEL_REQ => Some (FixedLen 1)
  | LORAWAN_MSG_ACTIVATE_DEVICE_REQ => Some (FixedLen 36)
  | LORAWAN_MSG_SET_JOIN_PARAM_REQ => Some (FixedLen 24)
  | LORAWAN_MSG_SET_RSTACK_CONFIG_REQ => Some (FixedLen 7)
  | LORAWAN_MSG_SET_DEVICE_EUI_REQ => Some (FixedLen 8)
  | LORAWAN_MSG_SEND_UDATA_REQ | LORAWAN_MSG_SEND_CDATA_REQ
  | LORAWAN_MSG_SEND_MAC_CMD_REQ => Some VariableLen
  | _ => None
  end.

Section EncodeSpec.
Context `{WiMOD_HCI_Codes}.

Definition encode_spec (sap kind : Z) (rule : option LengthRule) (args : list Z)
    : EncodeError + Envelope :=
  match rule with
  | None => inl UnsupportedKind
  | Some (FixedLen n) =>
      if Nat.eqb (length args) n then inr (mkEnv sap kind args) else inl LengthMismatch
  | Some VariableLen =>
      if WIMOD_HCI_MSG_PAYLOAD_SIZE <? Z.of_nat (length args) then inl Overflow
      else inr (mkEnv sap kind args)
  end.

(** What the module receives of a message: its identifiers and the
    first [Length] bytes of its payload. *)
Definition envelope_of (m : TWiMOD_HCI_Message) : Envelope :=
  mkEnv (SapID m) (MsgID m) (take (Z.to_nat (Length m)) (Payload m)).

End EncodeSpec.

Section Refinement.
Context `{WiMOD_HCI_Codes} `{WiMOD_HCI_Transport}.

Definition rule_length (r : option LengthRule) (len : Z) : option Z :=
  match r with
  | Some (FixedLen n) => Some (Z.of_nat n)
  | Some VariableLen => Some len
  | None => None
  end.

(** The two [switch] statements of the code list the kinds and lengths
    of the specification's tables. *)
Lemma devmgmt_req_length_code k :
  devmgmt_req_length (devmgmt_msg_code k) = rule_length (devmgmt_length_rule k) 0.
Proof. unfold devmgmt_req_length. rewrite devmgmt_msg_of_code_code. destruct k; reflexivity. Qed.

Lemma lorawan_req_length_code k len :
  lorawan_req_length (lorawan_msg_code k) len = rule_length (lorawan_length_rule k) len.
Proof. unfold lorawan_req_length. rewrite lorawan_msg_of_code_code. destruct k; reflexivity. Qed.

Lemma devmgmt_rule_fixed k r : devmgmt_length_rule k = Some r -> exists n, r = FixedLen n /\ (n <= 4)%nat.
Proof. destruct k; simpl; intros E; inversion E; eexists; split; eauto; lia. Qed.

Lemma lorawan_rule_fixed_small k n : lorawan_length_rule k = Some (FixedLen n) -> (n <= 36)%nat.
Proof. destruct k; simpl; intros E; inversion E; lia. Qed.

Lemma envelope_of_filled sap msg_id val :
  Z.of_nat (length val) <= WIMOD_HCI_MSG_PAYLOAD_SIZE ->
  envelope_of (filled sap msg_id (Z.of_nat (length val)) val) = mkEnv sap msg_id val.
Proof.
  intros. unfold envelope_of, filled; simpl. f_equal.
  rewrite Nat2Z.id, firstn_all, take_app_length'; reflexivity.
Qed.

(** Sending [args] whole: the transport gets the message whose envelope
    is [args] under the given identifiers. *)
Lemma fill_and_send_envelope sap msg_id args st :
  Z.of_nat (length args) <= WIMOD_HCI_MSG_PAYLOAD_SIZE ->
  exists m, tx_fill_and_send (tx_header sap msg_id st) (Z.of_nat (length args)) args st
            = Ok (WiMOD_HCI_SendMessage_result m, mkTx m (tx_sent st ++ [m]))
         /\ envelope_of m = mkEnv sap msg_id args.
Proof.
  intros. exists (filled sap msg_id (Z.of_nat (length args)) args). split.
  - apply tx_fill_and_send_ok; lia.
  - apply envelope_of_filled; lia.
Qed.

(** A Device-Management request whose table length is the length of
    its arguments sends them whole. *)
Lemma devmgmt_fixed_req_sends k args len st :
  devmgmt_length_rule k = Some (FixedLen (length args)) ->
  exists m, WiMOD_DevMgmt_Msg_Req (devmgmt_msg_code k) args len st
            = Ok (WiMOD_HCI_SendMessage_result m, mkTx m (tx_sent st ++ [m]))
         /\ envelope_of m = mkEnv DEVMGMT_SAP_ID (devmgmt_msg_code k) args.
Proof.
  intros Er. pose proof payload_size_range.
  destruct (devmgmt_rule_fixed k _ Er) as (n & [= <-] & Hn).
  unfold WiMOD_DevMgmt_Msg_Req. cbv zeta. rewrite u8_devmgmt_code, devmgmt_req_length_code, Er.
  apply fill_and_send_envelope. lia.
Qed.

(** C5: refinement of the encoder contract by [WiMOD_DevMgmt_Msg_Req]:
    whenever the specification encodes a Device-Management request into
    an envelope, the code hands the transport exactly one new message,
    and that message carries the envelope's endpoint, kind and payload
    bytes. *)
Theorem DevMgmt_Msg_Req_refines k args len st env :
  encode_spec DEVMGMT_SAP_ID (devmgmt_msg_code k) (devmgmt_length_rule k) args = inr env ->
  exists m, WiMOD_DevMgmt_Msg_Req (devmgmt_msg_code k) args len st
            = Ok (WiMOD_HCI_SendMessage_result m, mkTx m (tx_sent st ++ [m]))
         /\ envelope_of m = env.
Proof.
  unfold encode_spec.
  destruct (devmgmt_length_rule k) as [r|] eqn:Er; [|discriminate].
  destruct (devmgmt_rule_fixed k r Er) as (n & -> & Hn). simpl.
  destruct (Nat.eqb_spec (length args) n) as [<-|]; [|discriminate].
  intros E. inversion E; subst. apply devmgmt_fixed_req_sends. exact Er.
Qed.

(** C4: refinement of the encoder contract by [WiMOD_LoRaWAN_Msg_Req]
    (with [len] the length of the argument buffer): every LoRaWAN-Control
    request the specification encodes, fixed-length or data request
    within the payload capacity, is handed to the transport as one
    message carrying the envelope. *)
Theorem LoRaWAN_Msg_Req_refines k args st env :
  encode_spec LORAWAN_SAP_ID (lorawan_msg_code k) (lorawan_length_rule k) args = inr env ->
  exists m, WiMOD_LoRaWAN_Msg_Req (lorawan_msg_code k) args (Z.of_nat (length args)) st
            = Ok (WiMOD_HCI_SendMessage_result m, mkTx m (tx_sent st ++ [m]))
         /\ envelope_of m = env.
Proof.
  pose proof payload_size_range as Hcap. unfold encode_spec, WiMOD_LoRaWAN_Msg_Req. cbv zeta.
  rewrite u8_lorawan_code, lorawan_req_length_code.
  destruct (lorawan_length_rule k) as [[n|]|] eqn:Er; cbn [rule_length]; [| |discriminate].
  - destruct (Nat.eqb_spec (length args) n) as [<-|]; [|discriminate].
    pose proof (lorawan_rule_fixed_small k _ Er).
    intros E. inversion E; subst. apply fill_and_send_envelope. lia.
  - destruct (Z.ltb_spec WIMOD_HCI_MSG_PAYLOAD_SIZE (Z.of_nat (length args)));
      [discriminate|].
    rewrite wrap_small by (simpl; lia).
    intros E. inversion E; subst. apply fill_and_send_envelope. lia.
Qed.

End Refinement.

Section ErrorPaths.
Context `{WiMOD_HCI_Codes} `{WiMOD_HCI_Transport}.

Lemma devmgmt_req_length_None msg_id :
  (forall k, devmgmt_msg_code k = msg_id -> devmgmt_length_rule k = None) ->
  devmgmt_req_length msg_id = None.
Proof.
  intros Hk. destruct (devmgmt_msg_of_code msg_id) as [k|] eqn:E.
  - apply of_code_Some in E as <-. rewrite devmgmt_req_length_code, Hk; reflexivity.
  - unfold devmgmt_req_length. rewrite E. reflexivity.
Qed.

Lemma lorawan_req_length_None msg_id len :
  (forall k, lorawan_msg_code k = msg_id -> lorawan_length_rule k = None) ->
  lorawan_req_length msg_id len = None.
Proof.
  intros Hk. destruct (lorawan_msg_of_code msg_id) as [k|] eqn:E.
  - apply of_code_Some in E as <-. rewrite lorawan_req_length_code, Hk; reflexivity.
  - unfold lorawan_req_length. rewrite E. reflexivity.
Qed.

(** An identifier that is not one of the endpoint's requests (a
    response or indication code, or a byte that is no code at all) makes
    both requests return [DEVMGMT_STATUS_CMD_NOT_SUPPORTED] without
    handing anything to the transport; [TxMessage] is left with the new
    identifiers and a cleared payload.  The identifier is the byte the
    [uint8_t] parameter receives. *)
Theorem Msg_Req_unsupported msg_id val len st :
  ((forall k, devmgmt_msg_code k = u8 msg_id -> devmgmt_length_rule k = None) ->
   WiMOD_DevMgmt_Msg_Req msg_id val len st
   = Ok (devmgmt_status_code DEVMGMT_STATUS_CMD_NOT_SUPPORTED,
         mkTx (tx_header DEVMGMT_SAP_ID (u8 msg_id) st) (tx_sent st)))
  /\ ((forall k, lorawan_msg_code k = u8 msg_id -> lorawan_length_rule k = None) ->
   WiMOD_LoRaWAN_Msg_Req msg_id val len st
   = Ok (devmgmt_status_code DEVMGMT_STATUS_CMD_NOT_SUPPORTED,
         mkTx (tx_header LORAWAN_SAP_ID (u8 msg_id) st) (tx_sent st))).
Proof.
  split; intros Hk.
  - unfold WiMOD_DevMgmt_Msg_Req. rewrite devmgmt_req_length_None by exact Hk. reflexivity.
  - unfold WiMOD_LoRaWAN_Msg_Req. rewrite lorawan_req_length_None by exact Hk. reflexivity.
Qed.

(** C33: [WiMOD_LoRaWAN_Msg_Req] has no capacity check for the three data
    requests: where the specification's encoder fails with [Overflow]
    (more argument bytes than the payload holds, a length the [uint16_t
    len] parameter carries), the code's [memcpy] writes past
    [TxMessage.Payload]. *)
Theorem LoRaWAN_Msg_Req_data_overflow k args st :
  lorawan_length_rule k = Some VariableLen ->
  WIMOD_HCI_MSG_PAYLOAD_SIZE < Z.of_nat (length args) < 2 ^ 16 ->
  encode_spec LORAWAN_SAP_ID (lorawan_msg_code k) (lorawan_length_rule k) args = inl Overflow
  /\ WiMOD_LoRaWAN_Msg_Req (lorawan_msg_code k) args (Z.of_nat (length args)) st = Fault.
Proof.
  intros Er Hlen. pose proof payload_size_range. split.
  - unfold encode_spec. rewrite Er. destruct (Z.ltb_spec WIMOD_HCI_MSG_PAYLOAD_SIZE
      (Z.of_nat (length args))); [reflexivity | lia].
  - unfold WiMOD_LoRaWAN_Msg_Req. cbv zeta.
    rewrite u8_lorawan_code, lorawan_req_length_code, Er, wrap_small by lia. cbn [rule_length].
    apply tx_fill_and_send_fault; lia.
Qed.

Lemma memcpy_Ok_bounds dst off src n dst' :
  memcpy dst off src n = Ok dst' ->
  0 <= off /\ 0 <= n /\ off + n <= Z.of_nat (length dst) /\ n <= Z.of_nat (length src).
Proof.
  unfold memcpy.
  repeat match goal with |- context [?a <=? ?b] => destruct (Z.leb_spec a b) end;
  simpl; intros E; try discriminate; lia.
Qed.

Lemma tx_header_wf sap msg_id st :
  msg_wf (TxMessage st) = true -> is_byte sap = true -> is_byte msg_id = true ->
  msg_wf (tx_header sap msg_id st) = true.
Proof.
  intros Hwf Hs Hm. pose proof payload_size_range.
  apply msg_wf_spec in Hwf as (_ & _ & HL & _). apply msg_wf_spec.
  unfold tx_header; simpl. rewrite length_zeros, bytes_ok_zeros by lia.
  apply is_byte_spec in Hs, Hm. repeat split; lia.
Qed.

Lemma tx_fill_and_send_wf sap msg_id L val st r st' :
  0 <= L -> bytes_ok val = true -> is_byte sap = true -> is_byte msg_id = true ->
  tx_fill_and_send (tx_header sap msg_id st) L val st = Ok (r, st') ->
  msg_wf (TxMessage st') = true /\ tx_sent st' = tx_sent st ++ [TxMessage st'].
Proof.
  intros HL Hb Hs Hm E. pose proof payload_size_range.
  destruct (Z.eq_dec L 0) as [->|HL0].
  - rewrite tx_fill_and_send_ok in E by (simpl; lia). inversion E; subst. simpl.
    split; [apply filled_wf; simpl; auto; lia | reflexivity].
  - assert (Hc := E). unfold tx_fill_and_send, tx_header in Hc; simpl in Hc.
    destruct (Z.gtb_spec L 0); [|lia].
    destruct (memcpy _ _ _ _) eqn:Em; try discriminate.
    apply memcpy_Ok_bounds in Em. rewrite length_zeros in Em by lia.
    rewrite tx_fill_and_send_ok in E by lia. inversion E; subst. simpl.
    split; [apply filled_wf; auto; lia | reflexivity].
Qed.

End ErrorPaths.

Section Invariant.
Context `{WiMOD_HCI_Codes} `{WiMOD_HCI_Transport}.

Lemma rule_length_nonneg r len L : 0 <= len -> rule_length r len = Some L -> 0 <= L.
Proof. destruct r as [[n|]|]; simpl; intros ? E; inversion E; lia. Qed.

Lemma devmgmt_req_length_nonneg msg_id L : devmgmt_req_length msg_id = Some L -> 0 <= L.
Proof.
  destruct (devmgmt_msg_of_code msg_id) as [k|] eqn:E.
  - apply of_code_Some in E as <-. rewrite devmgmt_req_length_code.
    apply rule_length_nonneg; lia.
  - unfold devmgmt_req_length. rewrite E. discriminate.
Qed.

Lemma lorawan_req_length_nonneg msg_id len L :
  0 <= len -> lorawan_req_length msg_id len = Some L -> 0 <= L.
Proof.
  intros Hl. destruct (lorawan_msg_of_code msg_id) as [k|] eqn:E.
  - apply of_code_Some in E as <-. rewrite lorawan_req_length_code.
    apply rule_length_nonneg; lia.
  - unfold lorawan_req_length. rewrite E. discriminate.
Qed.

(** Invariant of the shared transmit buffer.  If [TxMessage] is a
    well-formed message (full-size payload of bytes, [Length] within the
    capacity, byte identifiers), every request that completes leaves it
    well-formed, and either sends nothing or sends exactly [TxMessage]. *)
Theorem Msg_Req_preserves_wf msg_id val len st r st' :
  msg_wf (TxMessage st) = true -> bytes_ok val = true ->
  (WiMOD_DevMgmt_Msg_Req msg_id val len st = Ok (r, st')
   \/ WiMOD_LoRaWAN_Msg_Req msg_id val len st = Ok (r, st')) ->
  msg_wf (TxMessage st') = true
  /\ (tx_sent st' = tx_sent st \/ tx_sent st' = tx_sent st ++ [TxMessage st']).
Proof.
  intros Hwf Hb Hreq. destruct sap_ids_bytes as [Hd Hl].
  pose proof (u8_is_byte msg_id) as Hm. destruct (wrap_range 16 len) as [Hlen _]; [lia|].
  destruct Hreq as [E|E];
    [unfold WiMOD_DevMgmt_Msg_Req in E; cbv zeta in E;
     destruct (devmgmt_req_length (u8 msg_id)) eqn:EL
    |unfold WiMOD_LoRaWAN_Msg_Req in E; cbv zeta in E;
     destruct (lorawan_req_length (u8 msg_id) (u16 len)) eqn:EL].
  1,3: eapply tx_fill_and_send_wf in E as [? ?];
         eauto using devmgmt_req_length_nonneg, lorawan_req_length_nonneg.
  all: inversion E; subst; simpl; split; auto using tx_header_wf.
Qed.

End Invariant.

(** ** The console menu actions (lines 1746-2231)

    Each [void] action prints a line (not modelled) and calls one API
    request; its effect is the new state. *)

Section Menu.
Context `{WiMOD_HCI_Codes} `{WiMOD_HCI_Transport}.

Definition GetNwkStatus (st : TxState) := res_map snd (WiMOD_LoRaWAN_GetNkwStatus st).
Definition SetCustomCFG (st : TxState) := res_map snd (WiMOD_LoRaWAN_SetCustomConfig 0 st).
Definition GetCustomCFG (st : TxState) := res_map snd (WiMOD_LoRaWAN_GetCustomConfig st).

Definition ActivateABP_payload : list Z :=
  [104; 104; 0; 0;
   0; 17; 34; 51; 68; 85; 102; 119; 136; 153; 170; 187; 204; 221; 238; 255;
   255; 238; 221; 204; 187; 170; 153; 136; 119; 102; 85; 68; 51; 34; 17; 0;
   0].

Definition ActivateABP (st : TxState) :=
  res_map snd (WiMOD_LoRaWAN_Msg_Req (lorawan_msg_code LORAWAN_MSG_ACTIVATE_DEVICE_REQ)
                 ActivateABP_payload 37 st).

Definition Reactivate (st : TxState) :=
  res_map snd (WiMOD_LoRaWAN_Msg_Req (lorawan_msg_code LORAWAN_MSG_REACTIVATE_DEVICE_REQ) [] 0 st).
Definition Deactivate (st : TxState) :=
  res_map snd (WiMOD_LoRaWAN_Msg_Req (lorawan_msg_code LORAWAN_MSG_DEACTIVATE_DEVICE_REQ) [] 0 st).
Definition GetSupportBand (st : TxState) :=
  res_map snd (WiMOD_LoRaWAN_Msg_Req (lorawan_msg_code LORAWAN_MSG_GET_SUPPORTED_BANDS_REQ) [] 0 st).
Definition GetRadioStack (st : TxState) :=
  res_map snd (WiMOD_LoRaWAN_Msg_Req (lorawan_msg_code LORAWAN_MSG_GET_RSTACK_CONFIG_REQ) [] 0 st).

(** [data[0..6]]: data rate 5, TX power 0x10, options 0b11000110, power
    saving 1, retransmissions 7, band index 0x12, MAC command capacity 0xf. *)
Definition SetRadioStack_data : list Z := [5; 16; 198; 1; 7; 18; 15].

Definition SetRadioStack (st : TxState) :=
  res_map snd (WiMOD_LoRaWAN_Msg_Req (lorawan_msg_code LORAWAN_MSG_SET_RSTACK_CONFIG_REQ)
                 SetRadioStack_data 7 st).

Definition GetDevEUI (st : TxState) :=
  res_map snd (WiMOD_LoRaWAN_Msg_Req (lorawan_msg_code LORAWAN_MSG_GET_DEVICE_EUI_REQ) [] 0 st).
Definition SetOPMODE (st : TxState) := res_map snd (WiMOD_LoRaWAN_SetOPMODE 3 st).
Definition ClearOPMODE (st : TxState) := res_map snd (WiMOD_LoRaWAN_SetOPMODE 0 st).
Definition GetOPMODE (st : TxState) := res_map snd (WiMOD_LoRaWAN_GetOPMODE st).
Definition ClearRTCAlarm (st : TxState) := res_map snd (WiMOD_LoRaWAN_ClearRTCAlarm st).
Definition GetRTC (st : TxState) := res_map snd (WiMOD_LoRaWAN_GetRTC st).
Definition SetRTC (st : TxState) :=
  res_map snd (WiMOD_LoRaWAN_SetRTC (SetRTC_time 18 20 12 5 30 30) st).
Definition GetAlarm (st : TxState) := res_map snd (WiMOD_LoRaWAN_GetRTCAlarm st).
Definition SetAlarm (st : TxState) := res_map snd (WiMOD_LoRaWAN_SetRTCAlarm [1; 12; 30; 30] st).
Definition Ping (st : TxState) := res_map snd (WiMOD_LoRaWAN_SendPing st).
Definition GetFirmwareVersion (st : TxState) := res_map snd (WiMOD_LoRaWAN_GetFirmwareVersion st).
Definition GetDeviceInfo (st : TxState) := res_map snd (WiMOD_LoRaWAN_GetDeviceInfo st).
Definition GetDeviceStatus (st : TxState) := res_map snd (WiMOD_LoRaWAN_GetDeviceStatus st).
Definition Join (st : TxState) := res_map snd (WiMOD_LoRaWAN_JoinNetworkRequest st).
Definition SendUData (port : Z) (srcData : list Z) (srcLength : Z) :=
  WiMOD_LoRaWAN_SendURadioData port srcData srcLength.
Definition SendCData (port : Z) (srcData : list Z) (srcLength : Z) :=
  WiMOD_LoRaWAN_SendCRadioData port srcData srcLength.
Definition SetBatLVL (batLvl : Z) :=
  WiMOD_LoRaWAN_Msg_Req (lorawan_msg_code LORAWAN_MSG_SET_BATTERY_LEVEL_REQ) [batLvl] 1.
Definition FactoryReset (st : TxState) := res_map snd (WiMOD_LoRaWAN_FactoryReset st).
Definition GetLinkADR (st : TxState) := res_map snd (WiMOD_LoRaWAN_GetLinkADR st).
Definition SetLinkADR (st : TxState) := res_map snd (WiMOD_LoRaWAN_SetLinkADR [0] st).

End Menu.

Section RequestTheorems.
Context `{WiMOD_HCI_Codes} `{WiMOD_HCI_Transport}.

Lemma envelope_of_filled_take sap msg_id L val :
  0 <= L -> L <= Z.of_nat (length val) ->
  envelope_of (filled sap msg_id L val) = mkEnv sap msg_id (take (Z.to_nat L) val).
Proof.
  intros. unfold envelope_of, filled; simpl. f_equal.
  rewrite take_app_length'; [reflexivity|]. rewrite length_take. lia.
Qed.

Lemma lorawan_data_req_ok k val len st :
  lorawan_length_rule k = Some VariableLen ->
  0 <= len <= WIMOD_HCI_MSG_PAYLOAD_SIZE -> len <= Z.of_nat (length val) ->
  WiMOD_LoRaWAN_Msg_Req (lorawan_msg_code k) val len st
  = Ok (WiMOD_HCI_SendMessage_result (filled LORAWAN_SAP_ID (lorawan_msg_code k) len val),
        mkTx (filled LORAWAN_SAP_ID (lorawan_msg_code k) len val)
             (tx_sent st ++ [filled LORAWAN_SAP_ID (lorawan_msg_code k) len val])).
Proof.
  intros Er ? ?. pose proof payload_size_range. unfold WiMOD_LoRaWAN_Msg_Req. cbv zeta.
  rewrite u8_lorawan_code, lorawan_req_length_code, Er, (wrap_small 16 len) by (simpl; lia).
  apply tx_fill_and_send_ok; lia.
Qed.

(** C6: capacity of an uplink.  With [srcLength] application bytes
    available, [WiMOD_LoRaWAN_SendURadioData] and
    [WiMOD_LoRaWAN_SendCRadioData] (any variable-length kind) send, for any
    [srcLength <= WIMOD_HCI_MSG_PAYLOAD_SIZE - 1], one message of length
    [1 + srcLength] whose payload is the port followed by the data (at
    the bound, a full payload); one byte more returns [-1] and leaves the
    state untouched. *)
Theorem radio_data_req_capacity kind port srcData srcLength st :
  lorawan_length_rule kind = Some VariableLen ->
  0 <= srcLength <= Z.of_nat (length srcData) ->
  (srcLength <= WIMOD_HCI_MSG_PAYLOAD_SIZE - 1 ->
   exists r m, radio_data_req kind port srcData srcLength st
               = Ok (r, mkTx m (tx_sent st ++ [m]))
            /\ Length m = 1 + srcLength
            /\ envelope_of m = mkEnv LORAWAN_SAP_ID
                 (lorawan_msg_code kind)
                 (u8 port :: take (Z.to_nat srcLength) srcData))
  /\ (WIMOD_HCI_MSG_PAYLOAD_SIZE - 1 < srcLength ->
      radio_data_req kind port srcData srcLength st = Ok (-1, st)).
Proof.
  intros Hk Hs. pose proof payload_size_range as Hcap.
  unfold radio_data_req.
  split; intros Hb; destruct (Z.gtb_spec srcLength (WIMOD_HCI_MSG_PAYLOAD_SIZE - 1));
    try lia; [|reflexivity].
  rewrite memcpy_ok by (simpl; rewrite ?length_zeros; lia).
  simpl.
  set (payload := u8 port :: take (Z.to_nat srcLength) srcData
                  ++ drop (Z.to_nat (1 + srcLength))
                       (u8 port :: zeros (WIMOD_HCI_MSG_PAYLOAD_SIZE - 1))).
  assert (Hlen : Z.of_nat (length payload) = WIMOD_HCI_MSG_PAYLOAD_SIZE).
  { unfold payload. simpl length.
    rewrite length_app, length_take, length_drop. simpl length.
    rewrite length_zeros; lia. }
  rewrite lorawan_data_req_ok by (exact Hk || lia).
  eexists _, _. split; [reflexivity|]. split; [reflexivity|].
  rewrite envelope_of_filled_take by lia. f_equal.
  replace (Z.to_nat (1 + srcLength)) with (S (Z.to_nat srcLength)) by lia.
  unfold payload. simpl. rewrite take_app_length'; [reflexivity|].
  rewrite length_take. lia.
Qed.

(** C39: [WiMOD_LoRaWAN_SetOPMODE] does not accept the operating modes
    its own console documents.  The comment above the console action
    [SetOPMODE] (lines 1919-1927) lists mode 0 (standard application
    mode), 1 and 2 (reserved) and 3 (customer mode), and the action
    calls [WiMOD_LoRaWAN_SetOPMODE(3)].  The guard [if (val > 1)] on the
    [uint8_t] argument sends only modes 0 and 1: every other byte,
    customer mode 3 included, returns [-1] and sends nothing, while the
    reserved mode 1 is sent as a one-byte [SET_OPMODE] request.  The
    console action therefore never sends a request. *)
Theorem SetOPMODE_rejects_customer_mode val st :
  (1 < u8 val -> WiMOD_LoRaWAN_SetOPMODE val st = Ok (-1, st))
  /\ (u8 val <= 1 ->
      exists m, WiMOD_LoRaWAN_SetOPMODE val st
                = Ok (WiMOD_HCI_SendMessage_result m, mkTx m (tx_sent st ++ [m]))
             /\ envelope_of m = mkEnv DEVMGMT_SAP_ID
                  (devmgmt_msg_code DEVMGMT_MSG_SET_OPMODE_REQ) [u8 val])
  /\ SetOPMODE st = Ok st.
Proof.
  unfold WiMOD_LoRaWAN_SetOPMODE. cbv zeta. split; [|split]; [intros Hv..|reflexivity];
    destruct (Z.gtb_spec (u8 val) 1); try lia.
  - reflexivity.
  - apply devmgmt_fixed_req_sends. reflexivity.
Qed.

(** C40: [ActivateABP] fills a 37-byte buffer (address, network key,
    application key and an end-of-payload byte) and passes [len = 37],
    but [WiMOD_LoRaWAN_Msg_Req] fixes the activation request at 36 bytes
    and ignores [len]: the message sent carries the buffer without its
    last byte. *)
Theorem ActivateABP_drops_last_byte st :
  exists m, ActivateABP st = Ok (mkTx m (tx_sent st ++ [m]))
         /\ envelope_of m = mkEnv LORAWAN_SAP_ID
              (lorawan_msg_code LORAWAN_MSG_ACTIVATE_DEVICE_REQ)
              (removelast ActivateABP_payload)
         /\ length ActivateABP_payload = 37%nat.
Proof.
  pose proof payload_size_range.
  unfold ActivateABP, WiMOD_LoRaWAN_Msg_Req. cbv zeta.
  rewrite u8_lorawan_code, lorawan_req_length_code. simpl.
  rewrite tx_fill_and_send_ok by (simpl; lia). simpl.
  eexists. split; [reflexivity|]. split; [|reflexivity].
  rewrite envelope_of_filled_take by (simpl; lia). reflexivity.
Qed.

(** The end-to-end RTC scenario of the specification fails: the
    console action [SetRTC], meant to set 2018-05-20 12:30:30, sends a
    4-byte payload that the documented layout decodes as 2018-01-10
    06:30:30. *)
Theorem SetRTC_end_to_end st :
  exists m, SetRTC st = Ok (mkTx m (tx_sent st ++ [m]))
         /\ env_kind (envelope_of m) = devmgmt_msg_code DEVMGMT_MSG_SET_RTC_REQ
         /\ rtc_unpack (le_read (env_payload (envelope_of m)))
            = mkRtcTime 2018 1 10 6 30 30.
Proof.
  destruct (devmgmt_fixed_req_sends DEVMGMT_MSG_SET_RTC_REQ
              (le_bytes 4 (SetRTC_time 18 20 12 5 30 30)) 4 st eq_refl) as (m & E & Em).
  unfold SetRTC, WiMOD_LoRaWAN_SetRTC. rewrite E. exists m.
  split; [reflexivity|]. rewrite Em. split; [reflexivity|]. vm_compute. reflexivity.
Qed.

End RequestTheorems.

(** ** Witnesses, with the values of [WiMOD_LoRaWAN_API.h] and a
    transport that returns the length of the message it sends *)

#[local] Existing Instance WiMOD_API_h.

Definition length_transport : WiMOD_HCI_Transport :=
  {| WiMOD_HCI_SendMessage_result := Length |}.
#[local] Existing Instance length_transport.

Definition tx_init : TxState := mkTx (mkMsg 0 0 0 (zeros 300)) [].

Lemma DevMgmt_Msg_Req_refines_witness :
  exists m, WiMOD_DevMgmt_Msg_Req 49 [1; 12; 30; 30] 4 tx_init = Ok (Length m, mkTx m [m])
         /\ envelope_of m = mkEnv 1 49 [1; 12; 30; 30].
Proof.
  exact (DevMgmt_Msg_Req_refines DEVMGMT_MSG_SET_RTC_ALARM_REQ [1; 12; 30; 30] 4
           tx_init (mkEnv 1 49 [1; 12; 30; 30]) eq_refl).
Defined.

Lemma LoRaWAN_Msg_Req_refines_witness :
  exists m, WiMOD_LoRaWAN_Msg_Req 13 [33; 1; 2; 3; 4] 5 tx_init = Ok (Length m, mkTx m [m])
         /\ envelope_of m = mkEnv 16 13 [33; 1; 2; 3; 4].
Proof.
  exact (LoRaWAN_Msg_Req_refines LORAWAN_MSG_SEND_UDATA_REQ [33; 1; 2; 3; 4]
           tx_init (mkEnv 16 13 [33; 1; 2; 3; 4]) eq_refl).
Defined.

Lemma Msg_Req_unsupported_witness :
  WiMOD_DevMgmt_Msg_Req 2 [] 0 tx_init = Ok (2, mkTx (tx_header 1 2 tx_init) [])
  /\ WiMOD_LoRaWAN_Msg_Req 2 [] 0 tx_init = Ok (2, mkTx (tx_header 16 2 tx_init) []).
Proof.
  split; [refine (proj1 (Msg_Req_unsupported 2 [] 0 tx_init) _)
         |refine (proj2 (Msg_Req_unsupported 2 [] 0 tx_init) _)];
    intros [] E; simpl in E; try discriminate; reflexivity.
Defined.

Lemma LoRaWAN_Msg_Req_data_overflow_witness :
  encode_spec 16 13 (Some VariableLen) (repeat 0 301) = inl Overflow
  /\ WiMOD_LoRaWAN_Msg_Req 13 (repeat 0 301) 301 tx_init = Fault.
Proof.
  refine (LoRaWAN_Msg_Req_data_overflow LORAWAN_MSG_SEND_UDATA_REQ (repeat 0 301) tx_init
            _ _); [reflexivity | vm_compute; split; reflexivity].
Defined.

Lemma Msg_Req_preserves_wf_witness :
  exists r st', WiMOD_DevMgmt_Msg_Req 13 [1; 2; 3; 4] 4 tx_init = Ok (r, st')
             /\ msg_wf (TxMessage st') = true
             /\ (tx_sent st' = tx_sent tx_init \/ tx_sent st' = tx_sent tx_init ++ [TxMessage st']).
Proof.
  eexists _, _. split; [reflexivity|].
  refine (Msg_Req_preserves_wf 13 [1; 2; 3; 4] 4 tx_init _ _ _ _ _);
    [vm_compute; reflexivity | reflexivity | left; reflexivity].
Defined.

Lemma radio_data_req_capacity_witness :
  (exists r m, WiMOD_LoRaWAN_SendCRadioData 33 (repeat 7 299) 299 tx_init
               = Ok (r, mkTx m [m])
            /\ Length m = 1 + 299
            /\ envelope_of m = mkEnv 16 17 (u8 33 :: take 299 (repeat 7 299)))
  /\ WiMOD_LoRaWAN_SendCRadioData 33 (repeat 7 300) 300 tx_init = Ok (-1, tx_init).
Proof.
  split.
  - refine (proj1 (radio_data_req_capacity LORAWAN_MSG_SEND_CDATA_REQ 33 (repeat 7 299) 299
                      tx_init eq_refl _) _);
      [vm_compute; split; discriminate | vm_compute; discriminate].
  - refine (proj2 (radio_data_req_capacity LORAWAN_MSG_SEND_CDATA_REQ 33 (repeat 7 300) 300
                      tx_init eq_refl _) _);
      [vm_compute; split; discriminate | vm_compute; reflexivity].
Defined.

(** Customer mode 3 is refused and reserved mode 1 is sent. *)
Lemma SetOPMODE_rejects_customer_mode_witness :
  WiMOD_LoRaWAN_SetOPMODE 3 tx_init = Ok (-1, tx_init)
  /\ exists m, WiMOD_LoRaWAN_SetOPMODE 1 tx_init = Ok (Length m, mkTx m [m])
            /\ envelope_of m = mkEnv 1 9 [1].
Proof.
  split; [refine (proj1 (SetOPMODE_rejects_customer_mode 3 tx_init) _)
         |refine (proj1 (proj2 (SetOPMODE_rejects_customer_mode 1 tx_init)) _)];
    vm_compute; first [reflexivity | discriminate].
Defined.
