(* ===== verification/LoRaWANRx.v ===== *)
(** * Receive-side decoders of the LoRaWAN endpoint

    The routines [WiMOD_LoRaWAN_Process_*] of [WiMOD_LoRaWAN_API.c]
    (lines 1173-1709) read the received message and print what they
    read.  Each is modelled as a function from the message to the values
    it prints (a record of the decoded fields) and to the actions it
    takes: [NVIC_SystemReset] and the [tcp_write] of a downlink to the
    TCP client, which are what makes this program a LoRaWAN-to-TCP
    bridge.  Every [rxMessage->Payload[i]] is a checked read [rd]: an
    index outside the payload array is a [Fault].

    The data indications share one computation, [rx_payload_size]:
    [Length - 1], minus 5 when bit 0 of the flag byte says that the
    5-byte channel information trails the message. *)

From Stdlib Require Import ZArith Lia List.
From stdpp Require Import base list strings decidable.
From S2P Require Import Prelude HciDefs StatusTables.
Import ListNotations.
Open Scope Z_scope.
Open Scope wimod_scope.

(** [ChnIdx], [DR], [RSSI], [SNR], [RxSlot] of a received radio frame. *)
Record RxChannelInfo := mkRxInfo {
  ChnIdx : Z; DR : Z; RSSI : Z; SNR : Z; RxSlot : Z
}.

(** What [WiMOD_LoRaWAN_Process_U_DataRxIndication] does with a frame:
    either the port-99 reset, or a report of the port and application
    bytes it printed, the bytes it wrote to the TCP client (port 100),
    the acknowledgement and frame-pending flags and the channel
    information. *)
Inductive URxOutcome :=
| URxSystemReset
| URxReport (app : option (Z * list Z)) (tcp : option (list Z))
            (ack pending : bool) (info : option RxChannelInfo).

Definition rx_payload_size (flags len : Z) : Z :=
  if flag flags 0 then len - 1 - 5 else len - 1.

Definition read_channel_info (p : list Z) (i : Z) : res RxChannelInfo :=
  a <- rd p i ;; b <- rd p (i + 1) ;; c <- rd p (i + 2) ;;
  d <- rd p (i + 3) ;; e <- rd p (i + 4) ;;
  Ok (mkRxInfo a b c d e).

(** [if (flags & 0x01) { UINT8* rxInfo = &Payload[1 + payloadSize]; ... }] *)
Definition rx_channel_info (p : list Z) (flags payloadSize : Z) : res (option RxChannelInfo) :=
  if flag flags 0 then
    i <- read_channel_info p (1 + payloadSize) ;; Ok (Some i)
  else Ok None.

Definition WiMOD_LoRaWAN_Process_U_DataRxIndication (m : TWiMOD_HCI_Message)
    : res URxOutcome :=
  let p := Payload m in
  flags <- rd p 0 ;;
  let payloadSize := rx_payload_size flags (Length m) in
  let report app tcp :=
    info <- rx_channel_info p flags payloadSize ;;
    Ok (URxReport app tcp (flag flags 1) (flag flags 2) info) in
  if payloadSize >=? 1 then
    port <- rd p 1 ;;
    app <- rd_seq p 2 (Z.to_nat (payloadSize - 1)) ;;
    if port =? 99 then Ok URxSystemReset
    else if port =? 100 then
      data <- rd_seq p 2 (Z.to_nat payloadSize) ;;
      report (Some (port, app)) (Some data)
    else report (Some (port, app)) None
  else report None None.

(** [for (int i = 1; i < payloadSize;) printf(... Payload[1+i] ...);]
    The loop of [WiMOD_LoRaWAN_Process_C_DataRxIndication] has no
    increment: each iteration prints [Payload[1+i]] with the same [i]. *)
Fixpoint C_Data_print_loop (fuel : nat) (p : list Z) (i payloadSize : Z) : res (list Z) :=
  match fuel with
  | O => NoFuel
  | S fuel' =>
      if i <? payloadSize then
        b <- rd p (1 + i) ;;
        rest <- C_Data_print_loop fuel' p i payloadSize ;;
        Ok (b :: rest)
      else Ok []
  end.

Record CRxReport := mkCRx {
  c_app : option (Z * list Z);
  c_ack : bool; c_pending : bool;
  c_info : option RxChannelInfo
}.

Definition WiMOD_LoRaWAN_Process_C_DataRxIndication (fuel : nat) (m : TWiMOD_HCI_Message)
    : res CRxReport :=
  let p := Payload m in
  flags <- rd p 0 ;;
  let payloadSize := rx_payload_size flags (Length m) in
  app <- (if payloadSize >=? 1 then
            port <- rd p 1 ;;
            bytes <- C_Data_print_loop fuel p 1 payloadSize ;;
            Ok (Some (port, bytes))
          else Ok None) ;;
  info <- rx_channel_info p flags payloadSize ;;
  Ok (mkCRx app (flag flags 1) (flag flags 2) info).

(** The MAC-command indication prints [Payload[1..payloadSize]]. *)
Definition WiMOD_LoRaWAN_Process_MAC_CMDRxIndication (m : TWiMOD_HCI_Message)
    : res (option (list Z) * option RxChannelInfo) :=
  let p := Payload m in
  flags <- rd p 0 ;;
  let payloadSize := rx_payload_size flags (Length m) in
  mac <- (if payloadSize >=? 1 then
            bytes <- rd_seq p 1 (Z.to_nat payloadSize) ;; Ok (Some bytes)
          else Ok None) ;;
  info <- rx_channel_info p flags payloadSize ;;
  Ok (mac, info).

(** ** Lemmas on the data indications *)

Section RxLemmas.
Context `{WiMOD_HCI_Codes}.

Definition channel_info_at (p : list Z) (i : Z) : RxChannelInfo :=
  mkRxInfo (byte p i) (byte p (i + 1)) (byte p (i + 2)) (byte p (i + 3)) (byte p (i + 4)).

Lemma read_channel_info_ok p i :
  0 <= i -> i + 5 <= Z.of_nat (length p) ->
  read_channel_info p i = Ok (channel_info_at p i).
Proof. intros. unfold read_channel_info. rewrite !rd_ok by lia. reflexivity. Qed.

(** The channel information, when bit 0 of the flags is set, is the
    last five bytes of the message. *)
Lemma rx_channel_info_ok m flags :
  msg_wf m = true -> (flag flags 0 = true -> 5 <= Length m) ->
  rx_channel_info (Payload m) flags (rx_payload_size flags (Length m))
  = Ok (if flag flags 0 then Some (channel_info_at (Payload m) (Length m - 5)) else None).
Proof.
  intros Hwf Hf. apply msg_wf_spec in Hwf as (Hl & _ & HL & _).
  unfold rx_channel_info, rx_payload_size.
  destruct (flag flags 0); [|reflexivity].
  rewrite read_channel_info_ok by (specialize (Hf eq_refl); lia).
  replace (1 + (Length m - 1 - 5)) with (Length m - 5) by lia. reflexivity.
Qed.

Lemma rx_channel_info_fault m flags :
  Length m < 5 -> flag flags 0 = true ->
  rx_channel_info (Payload m) flags (rx_payload_size flags (Length m)) = Fault.
Proof.
  intros HL Hf. unfold rx_channel_info, rx_payload_size, read_channel_info.
  rewrite Hf, rd_neg by lia. reflexivity.
Qed.

Lemma rx_payload_size_bound flags len : rx_payload_size flags len <= len - 1.
Proof. unfold rx_payload_size. destruct (flag flags 0); lia. Qed.

End RxLemmas.

Section UData.
Context `{WiMOD_HCI_Codes}.

(** The whole behaviour of the U-Data indication on a well-formed
    message whose reads stay inside the payload array. *)
Lemma U_Data_result m :
  msg_wf m = true ->
  let p := Payload m in
  let f := byte p 0 in
  let ps := rx_payload_size f (Length m) in
  (flag f 0 = true -> 5 <= Length m) ->
  (1 <= ps -> byte p 1 = 100 -> ps + 2 <= WIMOD_HCI_MSG_PAYLOAD_SIZE) ->
  WiMOD_LoRaWAN_Process_U_DataRxIndication m =
    let info := if flag f 0 then Some (channel_info_at p (Length m - 5)) else None in
    if ps >=? 1 then
      if byte p 1 =? 99 then Ok URxSystemReset
      else Ok (URxReport (Some (byte p 1, slice p 2 (Z.to_nat (ps - 1))))
                 (if byte p 1 =? 100 then Some (slice p 2 (Z.to_nat ps)) else None)
                 (flag f 1) (flag f 2) info)
    else Ok (URxReport None None (flag f 1) (flag f 2) info).
Proof.
  intros Hwf p f ps Hf H100. pose proof payload_size_range.
  assert (Hw := Hwf). apply msg_wf_spec in Hw as (Hl & _ & HL & _).
  pose proof (rx_payload_size_bound f (Length m)).
  pose proof (rx_channel_info_ok m f Hwf Hf) as Hci.
  unfold WiMOD_LoRaWAN_Process_U_DataRxIndication. subst p f ps.
  rewrite rd_ok by lia. rewrite res_bind_Ok. cbv zeta.
  change (nth (Z.to_nat 0) (Payload m) 0) with (byte (Payload m) 0). rewrite Hci.
  destruct (Z.geb_spec (rx_payload_size (byte (Payload m) 0) (Length m)) 1);
    [|reflexivity].
  rewrite (rd_ok _ 1), (rd_seq_ok _ 2) by lia. rewrite !res_bind_Ok.
  fold (byte (Payload m) 1).
  destruct (Z.eqb_spec (byte (Payload m) 1) 99); [reflexivity|].
  destruct (Z.eqb_spec (byte (Payload m) 1) 100) as [E|]; [|reflexivity].
  rewrite (rd_seq_ok _ 2) by (specialize (H100 ltac:(lia) E); lia). reflexivity.
Qed.

(** C1: the downlink-to-TCP forward writes one byte too many.  On a
    frame for port 100, [tcp_write(echoclient_pcb, Payload + 2,
    payloadSize, 1)] sends [payloadSize] bytes from [Payload[2]], but
    the application data there is only [payloadSize - 1] bytes long
    ([payloadSize] counts the port byte).  The TCP client receives the
    application payload followed by [Payload[1 + payloadSize]]: the
    channel index of the radio information when it is attached, and a
    byte past the end of the message otherwise. *)
Theorem U_Data_port100_forwards_extra_byte m :
  msg_wf m = true ->
  let p := Payload m in
  let f := byte p 0 in
  let ps := rx_payload_size f (Length m) in
  1 <= ps -> byte p 1 = 100 -> ps + 2 <= WIMOD_HCI_MSG_PAYLOAD_SIZE ->
  exists app info,
    WiMOD_LoRaWAN_Process_U_DataRxIndication m
    = Ok (URxReport (Some (100, app)) (Some (app ++ [byte p (1 + ps)]))
                    (flag f 1) (flag f 2) info)
    /\ length app = Z.to_nat (ps - 1)
    /\ (flag f 0 = true -> info = Some (channel_info_at p (1 + ps))
                           /\ ChnIdx (channel_info_at p (1 + ps)) = byte p (1 + ps))
    /\ (flag f 0 = false -> 1 + ps = Length m).
Proof.
  intros Hwf p f ps Hps H100 Hcap. pose proof payload_size_range.
  assert (Hw := Hwf). apply msg_wf_spec in Hw as (Hl & _ & HL & _).
  assert (Hf : flag f 0 = true -> 5 <= Length m)
    by (intros E; unfold ps, rx_payload_size in Hps; rewrite E in Hps; lia).
  pose proof (rx_payload_size_bound f (Length m)).
  assert (Hlp : Z.of_nat (length p) = WIMOD_HCI_MSG_PAYLOAD_SIZE) by exact Hl.
  rewrite (U_Data_result m Hwf Hf (fun _ _ => Hcap)). fold p f ps.
  destruct (Z.geb_spec ps 1); [|lia]. rewrite H100. cbn [Z.eqb Pos.eqb].
  replace (Z.to_nat ps) with (S (Z.to_nat (ps - 1))) by lia.
  rewrite slice_snoc by lia.
  replace (nth (Z.to_nat 2 + Z.to_nat (ps - 1)) p 0) with (byte p (1 + ps))
    by (unfold byte; f_equal; lia).
  eexists _, _. split; [reflexivity|].
  split; [apply length_slice; lia|].
  unfold ps, rx_payload_size. destruct (flag f 0); split; intros E; try discriminate.
  - split; [do 2 f_equal; lia | reflexivity].
  - lia.
Qed.

(** C25: the flag-gated trailer of an uplink-data indication (spec 8).
    For a frame on an ordinary port (neither 99 nor 100) the decoder
    reports the port, the application payload [Payload[2..]] of
    [Length - 2] bytes, or [Length - 7] when bit 0 of the flags is set,
    the acknowledgement and frame-pending bits 1 and 2, and the channel
    information read from the last five bytes of the message exactly
    when bit 0 is set. *)
Theorem U_Data_flag_gated m :
  msg_wf m = true ->
  let p := Payload m in
  let f := byte p 0 in
  (if flag f 0 then 7 <= Length m else 2 <= Length m) ->
  byte p 1 <> 99 -> byte p 1 <> 100 ->
  exists app,
    WiMOD_LoRaWAN_Process_U_DataRxIndication m
    = Ok (URxReport (Some (byte p 1, app)) None (flag f 1) (flag f 2)
            (if flag f 0 then Some (channel_info_at p (Length m - 5)) else None))
    /\ app = slice p 2 (Z.to_nat (Length m - (if flag f 0 then 7 else 2)))
    /\ Z.of_nat (length app) = Length m - (if flag f 0 then 7 else 2).
Proof.
  intros Hwf p f HL H99 H100. pose proof payload_size_range.
  assert (Hw := Hwf). apply msg_wf_spec in Hw as (Hl & _ & HL' & _).
  assert (Hlp : Z.of_nat (length p) = WIMOD_HCI_MSG_PAYLOAD_SIZE) by exact Hl.
  assert (Hf : flag f 0 = true -> 5 <= Length m)
    by (intros E; rewrite E in HL; lia).
  assert (Hps : 1 <= rx_payload_size f (Length m))
    by (unfold rx_payload_size; destruct (flag f 0); lia).
  rewrite (U_Data_result m Hwf Hf) by (intros _ E; contradiction). fold p f.
  destruct (Z.geb_spec (rx_payload_size f (Length m)) 1); [|lia].
  destruct (Z.eqb_spec (byte p 1) 99); [contradiction|].
  destruct (Z.eqb_spec (byte p 1) 100); [contradiction|].
  eexists. split; [reflexivity|].
  pose proof (rx_payload_size_bound f (Length m)).
  rewrite length_slice by lia. unfold rx_payload_size in *.
  destruct (flag f 0); split; try lia; do 2 f_equal; lia.
Qed.

(** C14: the data indications do not reject a frame too short for the
    channel information it announces.  With bit 0 of the flags set and
    [Length < 5], the computed [payloadSize] is negative and
    [rxInfo = &Payload[1 + payloadSize]] points before the payload array:
    the U-Data and MAC-command decoders read outside it. *)
Theorem data_indication_short_frame_fault m :
  msg_wf m = true -> flag (byte (Payload m) 0) 0 = true -> Length m < 5 ->
  WiMOD_LoRaWAN_Process_U_DataRxIndication m = Fault
  /\ WiMOD_LoRaWAN_Process_MAC_CMDRxIndication m = Fault.
Proof.
  intros Hwf Hf HL. pose proof payload_size_range.
  apply msg_wf_spec in Hwf as (Hl & _ & HL' & _).
  assert (Hps : rx_payload_size (byte (Payload m) 0) (Length m) < 1)
    by (unfold rx_payload_size; rewrite Hf; lia).
  unfold WiMOD_LoRaWAN_Process_U_DataRxIndication,
    WiMOD_LoRaWAN_Process_MAC_CMDRxIndication.
  rewrite rd_ok by lia. rewrite !res_bind_Ok. cbv zeta.
  change (nth (Z.to_nat 0) (Payload m) 0) with (byte (Payload m) 0).
  destruct (Z.geb_spec (rx_payload_size (byte (Payload m) 0) (Length m)) 1); [lia|].
  rewrite rx_channel_info_fault by assumption. split; reflexivity.
Qed.

End UData.

Section CData.
Context `{WiMOD_HCI_Codes}.

Lemma C_Data_print_loop_diverges fuel p ps :
  2 <= ps -> 2 < Z.of_nat (length p) -> C_Data_print_loop fuel p 1 ps = NoFuel.
Proof.
  intros Hps Hl. induction fuel as [|fuel IH]; [reflexivity|]. cbn [C_Data_print_loop].
  destruct (Z.ltb_spec 1 ps); [|lia].
  rewrite rd_ok by lia. rewrite res_bind_Ok, IH. reflexivity.
Qed.

Lemma C_Data_print_loop_exits fuel p ps :
  ps <= 1 -> C_Data_print_loop (S fuel) p 1 ps = Ok [].
Proof. intros. cbn [C_Data_print_loop]. destruct (Z.ltb_spec 1 ps); [lia|reflexivity]. Qed.

(** With more than one byte after the flags the indication runs out of
    every amount of fuel. *)
Lemma C_DataRxIndication_diverges m fuel :
  msg_wf m = true -> 2 <= rx_payload_size (byte (Payload m) 0) (Length m) ->
  WiMOD_LoRaWAN_Process_C_DataRxIndication fuel m = NoFuel.
Proof.
  intros Hwf Hps. pose proof payload_size_range.
  apply msg_wf_spec in Hwf as (Hl & _ & HL & _).
  unfold WiMOD_LoRaWAN_Process_C_DataRxIndication. cbv zeta.
  rewrite rd_ok by lia. cbn [res_bind].
  change (nth (Z.to_nat 0) (Payload m) 0) with (byte (Payload m) 0).
  replace (rx_payload_size (byte (Payload m) 0) (Length m) >=? 1) with true
    by (symmetry; apply Z.geb_le; lia).
  rewrite rd_ok by lia. cbn [res_bind]. rewrite C_Data_print_loop_diverges by lia.
  reflexivity.
Qed.

(** C11: [WiMOD_LoRaWAN_Process_C_DataRxIndication] does not terminate
    on a confirmed downlink with more than one byte after the flags: its
    print loop never increments [i], so for every amount of fuel the
    model runs out of it.  A frame of at most one such byte is decoded
    with one iteration's worth of fuel. *)
Theorem C_Data_never_returns m :
  msg_wf m = true ->
  let f := byte (Payload m) 0 in
  let ps := rx_payload_size f (Length m) in
  (2 <= ps -> forall fuel, WiMOD_LoRaWAN_Process_C_DataRxIndication fuel m = NoFuel)
  /\ (ps <= 1 -> (flag f 0 = true -> 5 <= Length m) ->
      exists r, WiMOD_LoRaWAN_Process_C_DataRxIndication 1 m = Ok r).
Proof.
  intros Hwf f ps. split; [intros; apply C_DataRxIndication_diverges; assumption|].
  intros Hps Hf. pose proof payload_size_range.
  assert (Hw := Hwf). apply msg_wf_spec in Hw as (Hl & _ & HL & _).
  unfold WiMOD_LoRaWAN_Process_C_DataRxIndication. cbv zeta.
  rewrite rd_ok by lia. cbn [res_bind].
  change (nth (Z.to_nat 0) (Payload m) 0) with f.
  rewrite (rx_channel_info_ok m f Hwf Hf).
  destruct (rx_payload_size f (Length m) >=? 1) eqn:E.
  - rewrite rd_ok by lia. cbn [res_bind]. rewrite C_Data_print_loop_exits by lia.
    eexists. reflexivity.
  - eexists. reflexivity.
Qed.

End CData.

(** ** Witnesses, with the values of [WiMOD_LoRaWAN_API.h] *)

#[local] Existing Instance WiMOD_API_h.

(** A received message of [Length] bytes whose payload array starts
    with [bytes] and is zero after them. *)
Definition rx_msg (msg_id : Z) (bytes : list Z) : TWiMOD_HCI_Message :=
  mkMsg (Z.of_nat (length bytes)) 16 msg_id (bytes ++ zeros (300 - Z.of_nat (length bytes))).

(** Port 100, three data bytes, channel info attached (flags = 1). *)
Definition rx_port100 : TWiMOD_HCI_Message :=
  rx_msg 16 [1; 100; 170; 187; 204; 7; 5; 200; 10; 1].

Lemma U_Data_port100_forwards_extra_byte_witness :
  exists app info,
    WiMOD_LoRaWAN_Process_U_DataRxIndication rx_port100
    = Ok (URxReport (Some (100, app)) (Some (app ++ [7])) false false info)
    /\ length app = 3%nat
    /\ (true = true -> info = Some (channel_info_at (Payload rx_port100) 5)
                       /\ ChnIdx (channel_info_at (Payload rx_port100) 5) = 7)
    /\ (true = false -> 5 = Length rx_port100).
Proof.
  exact (U_Data_port100_forwards_extra_byte rx_port100 eq_refl
           ltac:(vm_compute; discriminate) eq_refl ltac:(vm_compute; discriminate)).
Defined.

(** Port 5, two data bytes, no channel info, acknowledgement bit set. *)
Definition rx_port5 : TWiMOD_HCI_Message := rx_msg 16 [2; 5; 17; 34].

Lemma U_Data_flag_gated_witness :
  exists app,
    WiMOD_LoRaWAN_Process_U_DataRxIndication rx_port5
    = Ok (URxReport (Some (5, app)) None true false None)
    /\ app = slice (Payload rx_port5) 2 (Z.to_nat (4 - 2))
    /\ Z.of_nat (length app) = 4 - 2.
Proof.
  exact (U_Data_flag_gated rx_port5 eq_refl ltac:(vm_compute; discriminate)
           ltac:(vm_compute; discriminate) ltac:(vm_compute; discriminate)).
Defined.

(** Channel info announced in a 3-byte frame. *)
Definition rx_short : TWiMOD_HCI_Message := rx_msg 16 [1; 5; 17].

Lemma data_indication_short_frame_fault_witness :
  WiMOD_LoRaWAN_Process_U_DataRxIndication rx_short = Fault
  /\ WiMOD_LoRaWAN_Process_MAC_CMDRxIndication rx_short = Fault.
Proof.
  exact (data_indication_short_frame_fault rx_short eq_refl eq_refl
           ltac:(vm_compute; reflexivity)).
Defined.

(** Three bytes after the flags, given a thousand iterations' fuel. *)
Lemma C_Data_never_returns_witness :
  WiMOD_LoRaWAN_Process_C_DataRxIndication 1000 (rx_msg 20 [0; 5; 17; 34]) = NoFuel.
Proof.
  exact (proj1 (C_Data_never_returns (rx_msg 20 [0; 5; 17; 34]) eq_refl)
           ltac:(vm_compute; discriminate) 1000%nat).
Defined.
