(* ===== verification/LoRaWANRsp.v ===== *)
(** * LoRaWAN indications and responses other than received data

    The transmit and join indications (lines 1199-1313) and the
    responses to the configuration requests (lines 1173-1189 and
    1379-1622).  As in [LoRaWANRx], a routine is a function from the
    received message to the values it prints; a response routine first
    prints the status line of [WiMOD_LoRaWAN_ShowResponse] with the
    LoRaWAN status table, and most decode their fields only when the
    status byte is [LORAWAN_STATUS_OK]. *)

From Stdlib Require Import ZArith Lia List.
From stdpp Require Import base list strings decidable.
From S2P Require Import Prelude HciDefs StatusTables LoRaWANRx.
Import ListNotations.
Open Scope Z_scope.
Open Scope wimod_scope.

(** [#define MAKEWORD(lo,hi) ((lo)|((hi) << 8))],
    [#define MAKELONG(lo,hi) ((lo)|((hi) << 16))].  The operands are
    [int]s: for a byte [hi] the shift by 8 stays inside [int]; for a
    word [hi] of [0x8000] or more the shift by 16 passes [INT_MAX],
    undefined in C, and the target wraps it ([s32]). *)
Definition MAKEWORD (lo hi : Z) : Z := Z.lor lo (Z.shiftl hi 8).
Definition MAKELONG (lo hi : Z) : Z := Z.lor lo (s32 (Z.shiftl hi 16)).

(** ** Transmit indications *)

Inductive TxIndication :=
| TxSent
(** [ChIdx], [DR], [Num], [Power(dBm)]; the airtime is printed from the
    pointer [(uint32_t * ) &Payload[5]], not from the bytes it points to. *)
| TxSentWithInfo (ChIdx DR Num Power : Z)
| TxMaxRetransmissions
| TxMaxPayloadExceeded
| TxError.

Definition tx_info (p : list Z) : res TxIndication :=
  a <- rd p 1 ;; b <- rd p 2 ;; c <- rd p 3 ;; d <- rd p 4 ;;
  Ok (TxSentWithInfo a b c d).

Definition WiMOD_LoRaWAN_Process_U_DATA_TxIndication (m : TWiMOD_HCI_Message)
    : res TxIndication :=
  s <- rd (Payload m) 0 ;;
  if s =? 0 then Ok TxSent
  else if s =? 1 then tx_info (Payload m)
  else Ok TxError.

Definition WiMOD_LoRaWAN_Process_C_DATA_TxIndication (m : TWiMOD_HCI_Message)
    : res TxIndication :=
  s <- rd (Payload m) 0 ;;
  if s =? 0 then Ok TxSent
  else if s =? 1 then tx_info (Payload m)
  else if flag s 1 then Ok TxMaxRetransmissions
  else if flag s 2 then Ok TxMaxPayloadExceeded
  else Ok TxError.

(** ** Join indications *)

Inductive JoinTxEvent :=
| JoinTxOk
(** the event counter [Payload[3]], [ChnIdx] [Payload[1]], [DR] [Payload[2]] *)
| JoinTxOkWithInfo (event ChnIdx DR : Z)
| JoinTxError.

Definition WiMOD_LoRaWAN_Process_JoinTxIndication (m : TWiMOD_HCI_Message)
    : res JoinTxEvent :=
  let p := Payload m in
  s <- rd p 0 ;;
  if s =? 0 then Ok JoinTxOk
  else if s =? 1 then
    c <- rd p 3 ;; i <- rd p 1 ;; d <- rd p 2 ;; Ok (JoinTxOkWithInfo c i d)
  else Ok JoinTxError.

Inductive JoinEvent :=
| JoinAccepted (DeviceAddress : Z) (info : option RxChannelInfo)
| JoinTimeout.

Definition join_address (p : list Z) : res Z :=
  b1 <- rd p 1 ;; b2 <- rd p 2 ;; b3 <- rd p 3 ;; b4 <- rd p 4 ;;
  Ok (u32 (MAKELONG (MAKEWORD b1 b2) (MAKEWORD b3 b4))).

Definition WiMOD_LoRaWAN_Process_JoinNetworkIndication (m : TWiMOD_HCI_Message)
    : res JoinEvent :=
  let p := Payload m in
  s <- rd p 0 ;;
  if s =? 0 then
    a <- join_address p ;; Ok (JoinAccepted a None)
  else if s =? 1 then
    a <- join_address p ;; i <- read_channel_info p 5 ;; Ok (JoinAccepted a (Some i))
  else Ok JoinTimeout.

(** ** Responses *)

Section Responses.
Context `{WiMOD_HCI_Codes}.

Definition lorawan_ok (s : Z) : bool := s =? lorawan_status_code LORAWAN_STATUS_OK.

Definition show_lorawan (title : string) (s : Z) : res (option StatusLine) :=
  WiMOD_LoRaWAN_ShowResponse title WiMOD_LoRaWAN_StatusStrings s.

(** [memcpy((uint8_t* ) &help, &rxMessage->Payload[1], 4)]: the device
    address, little-endian. *)
Definition WiMOD_LoRaWAN_Process_Reactivate_Rsp (m : TWiMOD_HCI_Message)
    : res (option StatusLine * option Z) :=
  let p := Payload m in
  s <- rd p 0 ;;
  line <- show_lorawan "reactivate device response" s ;;
  if lorawan_ok s then
    b <- rd_seq p 1 4 ;; Ok (line, Some (le_read b))
  else Ok (line, None).

Inductive LinkADRReqOption :=
| LinkADR_LoRaWAN_v1_0_2 | LinkADR_Semtech_proposal
| LinkADR_KPN_Actility_proposal | LinkADR_Unknown_proposal.

Definition WiMOD_LoRaWAN_Process_Get_LINK_ADR_RSP (m : TWiMOD_HCI_Message)
    : res (option StatusLine * option LinkADRReqOption) :=
  let p := Payload m in
  s <- rd p 0 ;;
  line <- show_lorawan " Get Network Status ReSPonse" s ;;
  if lorawan_ok s then
    o <- rd p 1 ;;
    Ok (line, Some (if o =? 0 then LinkADR_LoRaWAN_v1_0_2
                    else if o =? 1 then LinkADR_Semtech_proposal
                    else if o =? 2 then LinkADR_KPN_Actility_proposal
                    else LinkADR_Unknown_proposal))
  else Ok (line, None).

Inductive NwkMode := ActiveABP | ActiveOTAA | JoiningOTAA.

Inductive NwkStatus :=
| NwkInactive (status : Z)
| NwkActive (status : Z) (mode : NwkMode) (DeviceAddress DR Power MaxPayload : Z).

Definition WiMOD_LoRaWAN_Process_Get_Network_Status_RSP (m : TWiMOD_HCI_Message)
    : res (option StatusLine * option NwkStatus) :=
  let p := Payload m in
  s <- rd p 0 ;;
  line <- show_lorawan " Get Network Status ReSPonse" s ;;
  if lorawan_ok s then
    st <- rd p 1 ;;
    let mode := if st =? 1 then Some ActiveABP
                else if st =? 2 then Some ActiveOTAA
                else if st =? 3 then Some JoiningOTAA else None in
    match mode with
    | None => Ok (line, Some (NwkInactive st))
    | Some md =>
        a <- rd_seq p 2 4 ;; dr <- rd p 6 ;; pw <- rd p 7 ;; mx <- rd p 8 ;;
        Ok (line, Some (NwkActive st md (le_read a) dr pw mx))
    end
  else Ok (line, None).

(** [printf("RF Gain: %d dBd", (int) rxMessage->Payload[1])] of a
    [UINT8] payload byte. *)
Definition WiMOD_LoRaWAN_Process_Get_Custom_CFG_RSP (m : TWiMOD_HCI_Message)
    : res (option StatusLine * option Z) :=
  let p := Payload m in
  s <- rd p 0 ;;
  line <- show_lorawan " Get custom cfg ReSPonse" s ;;
  if lorawan_ok s then g <- rd p 1 ;; Ok (line, Some g)
  else Ok (line, None).

(** [for (int var = 1; var < rxMessage->Length; ++var)] *)
Definition WiMOD_LoRaWAN_Process_Get_Device_EUI_RSP (m : TWiMOD_HCI_Message)
    : res (option StatusLine * option (list Z)) :=
  let p := Payload m in
  s <- rd p 0 ;;
  line <- show_lorawan " Get device eui ReSPonse" s ;;
  if lorawan_ok s then
    eui <- rd_seq p 1 (Z.to_nat (Length m - 1)) ;; Ok (line, Some eui)
  else Ok (line, None).

(** [for (int var = 1; var < rxMessage->Length; var += 2)] reading
    [Payload[var]] (band index) and [Payload[1+var]] (maximum EIRP). *)
Fixpoint band_loop (fuel : nat) (p : list Z) (var len : Z) : res (list (Z * Z)) :=
  match fuel with
  | O => NoFuel
  | S fuel' =>
      if var <? len then
        b <- rd p var ;; e <- rd p (1 + var) ;;
        rest <- band_loop fuel' p (var + 2) len ;;
        Ok ((b, e) :: rest)
      else Ok []
  end.

(** The loop runs [Length / 2] times; the fuel [Length + 1] is more. *)
Definition WiMOD_LoRaWAN_Process_Get_Support_Band_RSP (m : TWiMOD_HCI_Message)
    : res (option StatusLine * option (list (Z * Z))) :=
  let p := Payload m in
  s <- rd p 0 ;;
  line <- show_lorawan " Get support band ReSPonse" s ;;
  if lorawan_ok s then
    bands <- band_loop (Z.to_nat (Length m) + 1) p 1 (Length m) ;; Ok (line, Some bands)
  else Ok (line, None).

(** On [LORAWAN_STATUS_WRONG_PARAMETER], bits 0, 1 and 5 of [Payload[1]]
    name the rejected data rate, TX power level and band index. *)
Definition WiMOD_LoRaWAN_Process_Set_RSTACK_RSP (m : TWiMOD_HCI_Message)
    : res (option StatusLine * option (bool * bool * bool)) :=
  let p := Payload m in
  s <- rd p 0 ;;
  line <- show_lorawan "Set Radio STACK ReSPonse" s ;;
  if s =? lorawan_status_code LORAWAN_STATUS_WRONG_PARAMETER then
    f <- rd p 1 ;; Ok (line, Some (flag f 0, flag f 1, flag f 5))
  else Ok (line, None).

Record RadioStackConfig := mkRadioStack {
  rs_DataRate : Z; rs_TxPower : Z;
  rs_AdaptiveDR : bool; rs_DutyCycle : bool; rs_ClassC : bool;
  rs_ExtendedRF : bool; rs_MacForwarding : bool;
  rs_PowerSaving : bool;
  rs_Retransmissions : Z; rs_BandIdx : Z; rs_MacLength : Z
}.

(** The configuration is decoded whatever the status byte says. *)
Definition WiMOD_LoRaWAN_Process_Get_RSTACK_RSP (m : TWiMOD_HCI_Message)
    : res (option StatusLine * RadioStackConfig) :=
  let p := Payload m in
  s <- rd p 0 ;;
  line <- show_lorawan "Get Radio STACK ReSPonse" s ;;
  dr <- rd p 1 ;; pw <- rd p 2 ;; o <- rd p 3 ;; ps <- rd p 4 ;;
  rt <- rd p 5 ;; bi <- rd p 6 ;; ml <- rd p 7 ;;
  Ok (line, mkRadioStack dr pw (flag o 0) (flag o 1) (flag o 2) (flag o 6) (flag o 7)
                         (flag ps 0) rt bi ml).

End Responses.

(** ** Lemmas *)

Section RspLemmas.
Context `{WiMOD_HCI_Codes}.

Lemma MAKEWORD_add lo hi : 0 <= lo < 256 -> MAKEWORD lo hi = lo + hi * 256.
Proof.
  intros. unfold MAKEWORD. rewrite Z.lor_comm, lor_shiftl_add, Z.shiftl_mul_pow2 by lia.
  simpl. lia.
Qed.

(** Stored into a [UINT32], the wrapped [int] gives back the value of
    the two words. *)
Lemma MAKELONG_u32 lo hi :
  0 <= lo < 65536 -> 0 <= hi < 65536 -> u32 (MAKELONG lo hi) = lo + hi * 65536.
Proof.
  intros Hlo Hhi. unfold MAKELONG. rewrite Z.shiftl_mul_pow2 by lia. change (2 ^ 16) with 65536.
  destruct (Z.le_gt_cases (hi * 65536) INT_MAX) as [Hs|Hs]; unfold INT_MAX in *.
  - rewrite s32_small by (unfold INT_MAX; lia).
    replace (hi * 65536) with (Z.shiftl hi 16) by (rewrite Z.shiftl_mul_pow2; lia).
    rewrite Z.lor_comm, lor_shiftl_add, Z.shiftl_mul_pow2 by lia.
    rewrite wrap_small by (simpl; lia). simpl. lia.
  - rewrite s32_high by (unfold INT_MAX; lia).
    replace (hi * 65536 - 2 ^ 32) with (Z.shiftl (hi - 65536) 16)
      by (rewrite Z.shiftl_mul_pow2; simpl; lia).
    rewrite Z.lor_comm, lor_shiftl_add, Z.shiftl_mul_pow2 by lia.
    unfold wrap. replace ((hi - 65536) * 2 ^ 16 + lo) with (lo + hi * 65536 + -1 * 2 ^ 32)
      by (simpl; lia).
    rewrite Z_mod_plus_full. apply Z.mod_small. simpl. lia.
Qed.

Lemma bytes_ok_cons b t : bytes_ok (b :: t) = true <-> 0 <= b < 256 /\ bytes_ok t = true.
Proof. cbn [bytes_ok forallb]. rewrite andb_true_iff, is_byte_spec. reflexivity. Qed.

(** [MAKELONG(MAKEWORD(b1, b2), MAKEWORD(b3, b4))] is the little-endian
    reading of the four address bytes. *)
Lemma join_address_le p :
  bytes_ok p = true -> (5 <= length p)%nat ->
  join_address p = Ok (le_read (slice p 1 4)).
Proof.
  intros Hb Hl. destruct p as [|b0 [|b1 [|b2 [|b3 [|b4 t]]]]]; simpl in Hl; try lia.
  rewrite !bytes_ok_cons in Hb. destruct Hb as (_ & ? & ? & ? & ? & _).
  unfold join_address, slice. rewrite !rd_ok by (simpl; lia). rewrite !res_bind_Ok.
  replace (Z.to_nat 1) with 1%nat by reflexivity. simpl nth. simpl drop. simpl take.
  rewrite take_0, !le_read_cons by lia. cbn [le_read].
  rewrite (MAKEWORD_add b1), (MAKEWORD_add b3), MAKELONG_u32 by lia.
  f_equal. lia.
Qed.

(** The status line a LoRaWAN response prints: the status table is
    terminated, so the scan always ends. *)
Definition lorawan_line (title : string) (s : Z) : option StatusLine :=
  match assoc_label (table_entries WiMOD_LoRaWAN_StatusStrings) s with
  | Some l => Some (mkStatusLine title s l)
  | None => None
  end.

Lemma show_lorawan_ok title s : show_lorawan title s = Ok (lorawan_line title s).
Proof.
  unfold show_lorawan, WiMOD_LoRaWAN_ShowResponse.
  rewrite TIDString_scan_entries by reflexivity. rewrite res_bind_Ok. reflexivity.
Qed.

(** The (band index, EIRP) pairs read from [Payload[var]] on. *)
Fixpoint band_pairs (p : list Z) (var : Z) (n : nat) : list (Z * Z) :=
  match n with
  | O => []
  | S n' => (byte p var, byte p (1 + var)) :: band_pairs p (var + 2) n'
  end.

Lemma length_band_pairs p var n : length (band_pairs p var n) = n.
Proof. revert var; induction n; simpl; auto. Qed.

Lemma band_iterations_step var len :
  var < len -> Z.to_nat ((len - var + 1) / 2) = S (Z.to_nat ((len - (var + 2) + 1) / 2)).
Proof. intros. Z.div_mod_to_equations. lia. Qed.

Lemma band_iterations_done var len : len <= var -> Z.to_nat ((len - var + 1) / 2) = 0%nat.
Proof. intros. Z.div_mod_to_equations. lia. Qed.

(** With fuel above the number of iterations and every read inside the
    array, the loop returns one pair per iteration. *)
Lemma band_loop_ok fuel p var len :
  0 <= var -> len < Z.of_nat (length p) -> (Z.to_nat ((len - var + 1) / 2) < fuel)%nat ->
  band_loop fuel p var len = Ok (band_pairs p var (Z.to_nat ((len - var + 1) / 2))).
Proof.
  revert var; induction fuel as [|fuel IH]; intros var Hv Hl Hf; [lia|]. cbn [band_loop].
  destruct (Z.ltb_spec var len) as [Hlt|Hge].
  - rewrite (band_iterations_step var len Hlt) in *.
    rewrite !rd_ok by lia. rewrite !res_bind_Ok, IH by lia. reflexivity.
  - rewrite band_iterations_done by lia. reflexivity.
Qed.

(** When the message fills the array and [Length - var] is odd, the last
    iteration reads [Payload[Length]], one past the array. *)
Lemma band_loop_fault k fuel p var :
  (k < fuel)%nat -> 0 <= var -> var + 1 + 2 * Z.of_nat k = Z.of_nat (length p) ->
  band_loop fuel p var (Z.of_nat (length p)) = Fault.
Proof.
  revert fuel var; induction k as [|k IH]; intros fuel var Hk Hv Hl;
    (destruct fuel as [|fuel]; [lia|]); cbn [band_loop];
    (destruct (Z.ltb_spec var (Z.of_nat (length p))); [|lia]);
    rewrite (rd_ok p var), res_bind_Ok by lia.
  - rewrite rd_high by lia. reflexivity.
  - rewrite rd_ok, res_bind_Ok, (IH fuel) by lia. reflexivity.
Qed.

Lemma wrap8_neg g : -128 <= g < 0 -> u8 g = g + 256.
Proof. intros. unfold wrap. Z.div_mod_to_equations. simpl in *. lia. Qed.

(** The fields [WiMOD_LoRaWAN_Process_Get_RSTACK_RSP] prints. *)
Definition radio_stack_at (p : list Z) : RadioStackConfig :=
  mkRadioStack (byte p 1) (byte p 2)
    (flag (byte p 3) 0) (flag (byte p 3) 1) (flag (byte p 3) 2) (flag (byte p 3) 6)
    (flag (byte p 3) 7) (flag (byte p 4) 0) (byte p 5) (byte p 6) (byte p 7).

End RspLemmas.

#[local] Hint Rewrite @show_lorawan_ok : wimod_reads.

(** ** Theorems *)

Section RspTheorems.
Context `{WiMOD_HCI_Codes}.

(** The join indication decodes the device address the module
    sends.  For a well-formed message whose bytes 1-4 are the
    little-endian encoding of a 32-bit address [a], the routine reports
    [a], with the channel information of bytes 5-9 when the status byte
    is 1, without it when it is 0, and a join timeout for any other
    status. *)
Theorem JoinNetworkIndication_address m a :
  msg_wf m = true -> 0 <= a < 2 ^ 32 -> slice (Payload m) 1 4 = le_bytes 4 a ->
  WiMOD_LoRaWAN_Process_JoinNetworkIndication m =
  Ok (if byte (Payload m) 0 =? 0 then JoinAccepted a None
      else if byte (Payload m) 0 =? 1 then JoinAccepted a (Some (channel_info_at (Payload m) 5))
      else JoinTimeout).
Proof.
  intros Hwf Ha Hs. pose proof payload_size_range.
  apply msg_wf_spec in Hwf as (Hl & Hb & _).
  assert (Hj : join_address (Payload m) = Ok a).
  { rewrite join_address_le, Hs, le_read_le_bytes by (assumption || lia).
    f_equal. apply Z.mod_small. exact Ha. }
  unfold WiMOD_LoRaWAN_Process_JoinNetworkIndication. cbv zeta.
  rewrite rd_byte, res_bind_Ok by lia.
  destruct (byte (Payload m) 0 =? 0); [rewrite Hj; reflexivity|].
  destruct (byte (Payload m) 0 =? 1); [|reflexivity].
  rewrite Hj, res_bind_Ok, read_channel_info_ok by lia. reflexivity.
Qed.

(** C7: the join address is the [UINT32] the module sends, and its
    computation leaves [int] for half of the addresses.  For every
    payload of bytes, [MAKELONG(MAKEWORD(Payload[1], Payload[2]),
    MAKEWORD(Payload[3], Payload[4]))] stored into [UINT32 address] is
    the little-endian value of bytes 1-4 (the target wraps the [int]
    shift), and the shift [hi << 16] of [MAKELONG] exceeds [INT_MAX],
    undefined behaviour in C, exactly when [Payload[4]] is [0x80] or
    more. *)
Theorem join_address_int_overflow p :
  bytes_ok p = true -> (5 <= length p)%nat ->
  join_address p = Ok (le_read (slice p 1 4))
  /\ (INT_MAX < Z.shiftl (MAKEWORD (byte p 3) (byte p 4)) 16 <-> 128 <= byte p 4).
Proof.
  intros Hb Hl. split; [apply join_address_le; assumption|].
  pose proof (bytes_ok_byte p 3 Hb). pose proof (bytes_ok_byte p 4 Hb).
  rewrite MAKEWORD_add, Z.shiftl_mul_pow2 by lia. unfold INT_MAX. simpl. lia.
Qed.

(** The supported-band response terminates and reads one (band
    index, EIRP) pair per two payload bytes.  For a well-formed message
    shorter than the payload array with status [LORAWAN_STATUS_OK], the
    loop [for (var = 1; var < Length; var += 2)] ends and returns the
    [Length / 2] pairs [(Payload[var], Payload[var + 1])]. *)
Theorem Get_Support_Band_RSP_bands m :
  msg_wf m = true -> Length m < WIMOD_HCI_MSG_PAYLOAD_SIZE ->
  lorawan_ok (byte (Payload m) 0) = true ->
  WiMOD_LoRaWAN_Process_Get_Support_Band_RSP m =
  Ok (lorawan_line " Get support band ReSPonse" (byte (Payload m) 0),
      Some (band_pairs (Payload m) 1 (Z.to_nat (Length m / 2)))).
Proof.
  intros Hwf Hlt Hok. pose proof payload_size_range.
  apply msg_wf_spec in Hwf as (Hl & Hb & HL & _).
  unfold WiMOD_LoRaWAN_Process_Get_Support_Band_RSP. cbv zeta.
  reads. rewrite Hok, band_loop_ok by (try Z.div_mod_to_equations; lia).
  replace (Length m - 1 + 1) with (Length m) by lia. reflexivity.
Qed.

(** C38: a supported-band response of even [Length] that fills the
    payload array makes the last iteration read [Payload[Length]], past
    the end of the array. *)
Theorem Get_Support_Band_RSP_full_frame m :
  msg_wf m = true -> Length m = WIMOD_HCI_MSG_PAYLOAD_SIZE -> Z.even (Length m) = true ->
  lorawan_ok (byte (Payload m) 0) = true ->
  WiMOD_LoRaWAN_Process_Get_Support_Band_RSP m = Fault.
Proof.
  intros Hwf HL He Hok. pose proof payload_size_range.
  apply msg_wf_spec in Hwf as (Hl & _).
  apply Z.even_spec in He as [h Hh].
  unfold WiMOD_LoRaWAN_Process_Get_Support_Band_RSP. cbv zeta.
  reads. rewrite Hok, HL, <- Hl, (band_loop_fault (Z.to_nat (h - 1))) by lia. reflexivity.
Qed.

(** The RF gain is printed as an unsigned byte.  [SetCustomConfig]
    sends the [int8_t] gain as its two's-complement byte; when the
    response carries that byte for a negative gain [g], the response
    routine reports [g + 256]. *)
Theorem Get_Custom_CFG_RSP_unsigned_gain m g :
  msg_wf m = true -> lorawan_ok (byte (Payload m) 0) = true ->
  byte (Payload m) 1 = u8 g -> -128 <= g < 0 ->
  WiMOD_LoRaWAN_Process_Get_Custom_CFG_RSP m =
  Ok (lorawan_line " Get custom cfg ReSPonse" (byte (Payload m) 0), Some (g + 256)).
Proof.
  intros Hwf Hok Hg Hr. pose proof payload_size_range.
  apply msg_wf_spec in Hwf as (Hl & _).
  unfold WiMOD_LoRaWAN_Process_Get_Custom_CFG_RSP. cbv zeta.
  reads. rewrite Hok. reads. rewrite Hg, wrap8_neg by lia. reflexivity.
Qed.

(** The radio-stack response decodes the configuration whatever
    its status byte says: on every well-formed message it prints the
    status line and the data rate, power, option bits, retransmissions,
    band index and MAC length of bytes 1-7, also after an error status. *)
Theorem Get_RSTACK_RSP_ignores_status m :
  msg_wf m = true ->
  WiMOD_LoRaWAN_Process_Get_RSTACK_RSP m =
  Ok (lorawan_line "Get Radio STACK ReSPonse" (byte (Payload m) 0), radio_stack_at (Payload m)).
Proof.
  intros Hwf. pose proof payload_size_range.
  apply msg_wf_spec in Hwf as (Hl & _).
  unfold WiMOD_LoRaWAN_Process_Get_RSTACK_RSP. cbv zeta.
  reads. reflexivity.
Qed.

End RspTheorems.

(** ** Witnesses, with the values of [WiMOD_LoRaWAN_API.h] *)

#[local] Existing Instance WiMOD_API_h.

(** Join accepted with channel information, device address 0x12345678. *)
Definition rx_join : TWiMOD_HCI_Message :=
  rx_msg (lorawan_msg_code LORAWAN_MSG_JOIN_NETWORK_IND) [1; 120; 86; 52; 18; 3; 5; 200; 10; 1].

Lemma JoinNetworkIndication_address_witness :
  WiMOD_LoRaWAN_Process_JoinNetworkIndication rx_join
  = Ok (JoinAccepted 305419896 (Some (channel_info_at (Payload rx_join) 5))).
Proof.
  exact (JoinNetworkIndication_address rx_join 305419896 eq_refl ltac:(lia)
           ltac:(vm_compute; reflexivity)).
Defined.

(** Two bands: index 1 at 14 dBm, index 3 at 16 dBm. *)
Definition rx_bands : TWiMOD_HCI_Message :=
  rx_msg (lorawan_msg_code LORAWAN_MSG_GET_SUPPORTED_BANDS_RSP) [0; 1; 14; 3; 16].

Lemma Get_Support_Band_RSP_bands_witness :
  WiMOD_LoRaWAN_Process_Get_Support_Band_RSP rx_bands
  = Ok (lorawan_line " Get support band ReSPonse" 0, Some [(1, 14); (3, 16)]).
Proof.
  refine (eq_trans (Get_Support_Band_RSP_bands rx_bands _ _ _) _);
    vm_compute; reflexivity.
Defined.

(** A 300-byte response, status OK. *)
Definition rx_bands_full : TWiMOD_HCI_Message :=
  mkMsg 300 16 (lorawan_msg_code LORAWAN_MSG_GET_SUPPORTED_BANDS_RSP) (zeros 300).

Lemma Get_Support_Band_RSP_full_frame_witness :
  WiMOD_LoRaWAN_Process_Get_Support_Band_RSP rx_bands_full = Fault.
Proof. exact (Get_Support_Band_RSP_full_frame rx_bands_full eq_refl eq_refl eq_refl eq_refl). Defined.

(** A gain of -3 dBd, sent as the byte 253. *)
Definition rx_gain : TWiMOD_HCI_Message :=
  rx_msg (lorawan_msg_code LORAWAN_MSG_GET_CUSTOM_CFG_RSP) [0; 253].

Lemma Get_Custom_CFG_RSP_unsigned_gain_witness :
  WiMOD_LoRaWAN_Process_Get_Custom_CFG_RSP rx_gain
  = Ok (lorawan_line " Get custom cfg ReSPonse" 0, Some 253).
Proof. exact (Get_Custom_CFG_RSP_unsigned_gain rx_gain (-3) eq_refl eq_refl eq_refl ltac:(lia)). Defined.

(** Status [LORAWAN_STATUS_ERROR], followed by a configuration. *)
Definition rx_rstack_error : TWiMOD_HCI_Message :=
  rx_msg (lorawan_msg_code LORAWAN_MSG_GET_RSTACK_CONFIG_RSP) [1; 5; 16; 3; 1; 7; 2; 52].

Lemma Get_RSTACK_RSP_ignores_status_witness :
  WiMOD_LoRaWAN_Process_Get_RSTACK_RSP rx_rstack_error
  = Ok (lorawan_line "Get Radio STACK ReSPonse" 1,
        mkRadioStack 5 16 true true false false false true 7 2 52).
Proof. exact (Get_RSTACK_RSP_ignores_status rx_rstack_error eq_refl). Defined.

(** A join accept for device address [0x80020304]: its high byte makes
    the [int] shift overflow. *)
Lemma join_address_int_overflow_witness :
  join_address [0; 4; 3; 2; 128] = Ok 2147615492
  /\ (INT_MAX < Z.shiftl (MAKEWORD 2 128) 16 <-> 128 <= 128).
Proof.
  exact (join_address_int_overflow [0; 4; 3; 2; 128] eq_refl ltac:(simpl; lia)).
Defined.
