(* ===== verification/DevMgmtRsp.v ===== *)
(** * Device-Management responses

    The routines [WiMOD_LoRaWAN_DevMgmt_*_Rsp] of [WiMOD_LoRaWAN_API.c]
    (lines 753-1041).  Each prints the status line of
    [WiMOD_LoRaWAN_ShowResponse] with the Device-Management status table
    and, on [DEVMGMT_STATUS_OK], the fields of the response; a routine
    is a function from the message to the status line and the fields.

    Several routines copy 1 to 4 payload bytes into a local
    [uint32_t help] that is never initialised and print it through a
    mask: [memcpy_help] replaces the low bytes of [help] and keeps the
    others, and the routines take the indeterminate initial value as a
    parameter [help0], so that the theorems hold for every value it can
    have.  [WiMOD_LoRaWAN_DevMgmt_FirmwareVersion_Rsp] stores a NUL at
    [Payload[Length]] of the received message: it returns the message
    it leaves behind. *)

From Stdlib Require Import ZArith Lia List.
From stdpp Require Import base list strings decidable.
From S2P Require Import Prelude SerialFormat HciDefs StatusTables RtcCodec LoRaWANRx LoRaWANRsp.
Import ListNotations.
Open Scope Z_scope.
Open Scope wimod_scope.

(** [memcpy((uint8_t* ) &help, &Payload[off], n)] on the little-endian
    target: the [n] low bytes of [help] become the payload bytes. *)
Definition memcpy_help (help : Z) (p : list Z) (off : Z) (n : nat) : res Z :=
  b <- rd_seq p off n ;;
  Ok (Z.lor (Z.land help (Z.shiftl (Z.ones (32 - 8 * Z.of_nat n)) (8 * Z.of_nat n))) (le_read b)).

Record RtcAlarm := mkAlarm {
  alarm_set : Z; alarm_daily : Z; alarm_hour : Z; alarm_minute : Z; alarm_second : Z
}.

Record DeviceStatus := mkDevStatus {
  TickResolution : Z; SystemTick : Z; TargetTime : RtcTime;
  NvmStatus : Z; BatteryLevel : Z;
  TxUData : Z; TxCData : Z; TxError : Z;
  Rx1UData : Z; Rx1CData : Z; Rx1MicError : Z;
  Rx2UData : Z; Rx2CData : Z; Rx2MicError : Z;
  TxJoin : Z; RxAccept : Z
}.

(** The device information: module-type line, device address, device
    identifier. *)
Record DeviceInfo := mkDevInfo {
  ModuleType : option StatusLine; DeviceAddress : Z; DeviceID : Z
}.

Record FwVersion := mkFw {
  fw_major : Z; fw_minor : Z; fw_build : Z;
  fw_date : list Z; fw_content : option (list Z)
}.

Section DevMgmtResponses.
Context `{WiMOD_HCI_Codes}.

Definition devmgmt_ok (s : Z) : bool := s =? devmgmt_status_code DEVMGMT_STATUS_OK.

Definition show_devmgmt (title : string) (s : Z) : res (option StatusLine) :=
  WiMOD_LoRaWAN_ShowResponse title WiMOD_DeviceMgmt_StatusStrings s.

(** [printf(num2hex(Payload[1], BYTE_F))] *)
Definition WiMOD_LoRaWAN_DevMgmt_Get_OPMODE_Rsp (m : TWiMOD_HCI_Message)
    : res (option StatusLine * option Z) :=
  let p := Payload m in
  s <- rd p 0 ;;
  line <- show_devmgmt "get OPMODE response" s ;;
  if devmgmt_ok s then o <- rd p 1 ;; Ok (line, Some o) else Ok (line, None).

(** Alarm set and daily flags at bytes 1 and 2; three bytes from
    [Payload[3]] into [help], printed as [help & 0xFF],
    [(help & 0xFF00) >> 8] and [(help & 0xFF0000) >> 16]. *)
Definition WiMOD_LoRaWAN_DevMgmt_Get_RTC_ALARM_Rsp (help0 : Z) (m : TWiMOD_HCI_Message)
    : res (option StatusLine * option RtcAlarm) :=
  let p := Payload m in
  s <- rd p 0 ;;
  line <- show_devmgmt "get RTC ALARM response" s ;;
  if devmgmt_ok s then
    a <- rd p 1 ;; d <- rd p 2 ;;
    help <- memcpy_help help0 p 3 3 ;;
    Ok (line, Some (mkAlarm a d (Z.land help 0xFF) (Z.shiftr (Z.land help 0xFF00) 8)
                            (Z.shiftr (Z.land help 0xFF0000) 16)))
  else Ok (line, None).

Definition WiMOD_LoRaWAN_DevMgmt_Get_RTC_Rsp (help0 : Z) (m : TWiMOD_HCI_Message)
    : res (option StatusLine * option RtcTime) :=
  let p := Payload m in
  s <- rd p 0 ;;
  line <- show_devmgmt "get RTC response" s ;;
  if devmgmt_ok s then help <- memcpy_help help0 p 1 4 ;; Ok (line, Some (rtc_unpack help))
  else Ok (line, None).

(** The sixteen fields, each through the [help] left by the copy before. *)
Definition WiMOD_LoRaWAN_DevMgmt_DeviceStatus_Rsp (help0 : Z) (m : TWiMOD_HCI_Message)
    : res (option StatusLine * option DeviceStatus) :=
  let p := Payload m in
  s <- rd p 0 ;;
  line <- show_devmgmt "device status response" s ;;
  if devmgmt_ok s then
    h1 <- memcpy_help help0 p 1 1 ;;
    h2 <- memcpy_help h1 p 2 4 ;;
    h3 <- memcpy_help h2 p 6 4 ;;
    h4 <- memcpy_help h3 p 10 2 ;;
    h5 <- memcpy_help h4 p 12 2 ;;
    h6 <- memcpy_help h5 p 16 4 ;;
    h7 <- memcpy_help h6 p 20 4 ;;
    h8 <- memcpy_help h7 p 24 4 ;;
    h9 <- memcpy_help h8 p 28 4 ;;
    h10 <- memcpy_help h9 p 32 4 ;;
    h11 <- memcpy_help h10 p 36 4 ;;
    h12 <- memcpy_help h11 p 40 4 ;;
    h13 <- memcpy_help h12 p 44 4 ;;
    h14 <- memcpy_help h13 p 48 4 ;;
    h15 <- memcpy_help h14 p 52 4 ;;
    h16 <- memcpy_help h15 p 56 4 ;;
    Ok (line, Some (mkDevStatus (Z.land h1 0xFF) h2 (rtc_unpack h3)
                      (Z.land h4 0xFFFF) (Z.land h5 0xFFFF)
                      h6 h7 h8 h9 h10 h11 h12 h13 h14 h15 h16))
  else Ok (line, None).

Definition WiMOD_LoRaWAN_DevMgmt_DeviceInfo_Rsp (help0 : Z) (m : TWiMOD_HCI_Message)
    : res (option StatusLine * option DeviceInfo) :=
  let p := Payload m in
  s <- rd p 0 ;;
  line <- show_devmgmt "device information response" s ;;
  if devmgmt_ok s then
    t <- rd p 1 ;;
    mt <- WiMOD_LoRaWAN_ShowResponse "Module type" WiMOD_DeviceMgmt_ModuleTypes t ;;
    a <- memcpy_help help0 p 2 4 ;;
    i <- memcpy_help a p 6 4 ;;
    Ok (line, Some (mkDevInfo mt a i))
  else Ok (line, None).

(** [memcpy(help, &Payload[5], 10); help[10] = 0;] is the build date;
    when [Length > 15], [Payload[Length] = 0] terminates the content
    string printed from [Payload[15]]. *)
Definition WiMOD_LoRaWAN_DevMgmt_FirmwareVersion_Rsp (m : TWiMOD_HCI_Message)
    : res (TWiMOD_HCI_Message * option StatusLine * option FwVersion) :=
  let p := Payload m in
  s <- rd p 0 ;;
  line <- show_devmgmt "firmware version response" s ;;
  if devmgmt_ok s then
    ma <- rd p 2 ;; mi <- rd p 1 ;; b3 <- rd p 3 ;; b4 <- rd p 4 ;;
    date <- rd_seq p 5 10 ;;
    if Length m >? 15 then
      p' <- wr p (Length m) 0 ;;
      Ok (mkMsg (Length m) (SapID m) (MsgID m) p', line,
          Some (mkFw ma mi (MAKEWORD b3 b4) (cstr (date ++ [0])) (Some (cstr (drop 15 p')))))
    else Ok (m, line, Some (mkFw ma mi (MAKEWORD b3 b4) (cstr (date ++ [0])) None))
  else Ok (m, line, None).

End DevMgmtResponses.

(** ** Lemmas *)

Section DevMgmtLemmas.
Context `{WiMOD_HCI_Codes}.

(** Copying [n] bytes into [help] and masking with [ones(8n)] yields the
    bytes copied, whatever [help] held. *)
Lemma memcpy_low h X k L :
  0 <= k -> 0 <= L < 2 ^ k -> Z.land (Z.lor (Z.land h (Z.shiftl X k)) L) (Z.ones k) = L.
Proof.
  intros Hk HL. apply Z.bits_inj'. intros i Hi.
  rewrite Z.land_spec, Z.lor_spec, Z.land_spec, Z.shiftl_spec, Z.testbit_ones_nonneg by lia.
  destruct (Z.ltb_spec i k).
  - rewrite (Z.testbit_neg_r X) by lia. rewrite andb_false_r, orb_false_l, andb_true_r.
    reflexivity.
  - rewrite !andb_false_r. symmetry.
    rewrite <- (Z.mod_small L (2 ^ k)) by lia. apply Z.mod_pow2_bits_high. lia.
Qed.

(** A field below bit [m] only depends on the [m] low bits. *)
Lemma bit_field_low v m k n :
  0 <= k -> 0 <= n -> k + n <= m -> bit_field v k n = bit_field (Z.land v (Z.ones m)) k n.
Proof.
  intros. unfold bit_field. apply Z.bits_inj'. intros i Hi.
  rewrite !Z.land_spec, !Z.shiftr_spec, Z.land_spec by lia.
  destruct (Z.ltb_spec i n).
  - rewrite !Z.testbit_ones_nonneg by lia. destruct (Z.ltb_spec (i + k) m); [|lia].
    destruct (Z.ltb_spec i n); [|lia]. rewrite !andb_true_r. reflexivity.
  - rewrite (Z.testbit_ones_nonneg n i) by lia. destruct (Z.ltb_spec i n); [lia|].
    rewrite !andb_false_r. reflexivity.
Qed.

Lemma memcpy_help_ok h p off n :
  0 <= off -> off + Z.of_nat n <= Z.of_nat (length p) ->
  memcpy_help h p off n
  = Ok (Z.lor (Z.land h (Z.shiftl (Z.ones (32 - 8 * Z.of_nat n)) (8 * Z.of_nat n)))
              (le_read (slice p off n))).
Proof. intros. unfold memcpy_help. rewrite rd_seq_ok by lia. reflexivity. Qed.

(** A four-byte copy replaces [help] entirely. *)
Lemma memcpy_help_4 h p off :
  0 <= off -> off + 4 <= Z.of_nat (length p) -> bytes_ok p = true ->
  memcpy_help h p off 4 = Ok (le_read (slice p off 4)).
Proof.
  intros. rewrite memcpy_help_ok by lia. simpl (Z.ones _). rewrite Z.shiftl_0_l, Z.land_0_r.
  reflexivity.
Qed.

Lemma le_read_slice_bound p off n :
  bytes_ok p = true -> 0 <= le_read (slice p off n) < 2 ^ (8 * Z.of_nat n).
Proof.
  intros Hb. unfold slice.
  pose proof (le_read_bound (take n (drop (Z.to_nat off) p))) as Hr.
  rewrite length_take in Hr. destruct Hr as [Hr1 Hr2]; [auto with wimod|].
  split; [exact Hr1|]. eapply Z.lt_le_trans; [exact Hr2|].
  apply Z.pow_le_mono_r; lia.
Qed.

(** Copies of one or two bytes, read through [help & 0xFF] or
    [help & 0xFFFF]. *)
Lemma memcpy_help_masked h p off n mask :
  0 <= off -> off + Z.of_nat n <= Z.of_nat (length p) -> bytes_ok p = true ->
  mask = Z.ones (8 * Z.of_nat n) ->
  res_map (fun v => Z.land v mask) (memcpy_help h p off n) = Ok (le_read (slice p off n)).
Proof.
  intros ? ? Hb ->. rewrite memcpy_help_ok by lia. simpl.
  rewrite memcpy_low; [reflexivity|lia|apply le_read_slice_bound, Hb].
Qed.

(** The status line of a Device-Management response. *)
Definition devmgmt_line (title : string) (s : Z) : option StatusLine :=
  match assoc_label (table_entries WiMOD_DeviceMgmt_StatusStrings) s with
  | Some l => Some (mkStatusLine title s l)
  | None => None
  end.

Lemma show_devmgmt_ok title s : show_devmgmt title s = Ok (devmgmt_line title s).
Proof.
  unfold show_devmgmt, WiMOD_LoRaWAN_ShowResponse.
  rewrite TIDString_scan_entries by reflexivity. rewrite res_bind_Ok. reflexivity.
Qed.

(** One copy into [help] inside the payload, bound to the rest of the
    routine. *)
Lemma bind_memcpy {A} h p off n (k : Z -> res A) :
  0 <= off -> off + Z.of_nat n <= Z.of_nat (length p) ->
  (x <- memcpy_help h p off n ;; k x)
  = k (Z.lor (Z.land h (Z.shiftl (Z.ones (32 - 8 * Z.of_nat n)) (8 * Z.of_nat n)))
             (le_read (slice p off n))).
Proof. intros. rewrite memcpy_help_ok by lia. reflexivity. Qed.

Lemma bind_memcpy_4 {A} h p off (k : Z -> res A) :
  0 <= off -> off + 4 <= Z.of_nat (length p) -> bytes_ok p = true ->
  (x <- memcpy_help h p off 4 ;; k x) = k (le_read (slice p off 4)).
Proof. intros. rewrite memcpy_help_4 by assumption. reflexivity. Qed.

(** The little-endian field of [n] bytes at [off]. *)
Definition le_field (p : list Z) (off : Z) (n : nat) : Z := le_read (slice p off n).

Lemma le_field_S p off n :
  bytes_ok p = true -> 0 <= off < Z.of_nat (length p) ->
  le_field p off (S n) = byte p off + le_field p (off + 1) n * 256.
Proof.
  intros Hb Ho. unfold le_field. rewrite slice_S by lia. apply le_read_cons.
  apply (bytes_ok_In p); [exact Hb|]. apply nth_In. lia.
Qed.

Lemma le_field_0 p off : le_field p off 0 = 0.
Proof. reflexivity. Qed.

(** [help & 0xFF], [(help & 0xFF00) >> 8], [(help & 0xFF0000) >> 16]:
    byte [k] of [help]. *)
Lemma help_byte v k : 0 <= k -> Z.shiftr (Z.land v (Z.shiftl (Z.ones 8) (8 * k))) (8 * k) = bit_field v (8 * k) 8.
Proof. intros. apply mask_field; lia. Qed.

(** The module-type line for the type byte [t]. *)
Definition module_type_line (t : Z) : option StatusLine :=
  match assoc_label (table_entries WiMOD_DeviceMgmt_ModuleTypes) t with
  | Some l => Some (mkStatusLine "Module type" t l)
  | None => None
  end.

Lemma show_module_type_ok t :
  WiMOD_LoRaWAN_ShowResponse "Module type" WiMOD_DeviceMgmt_ModuleTypes t = Ok (module_type_line t).
Proof.
  unfold WiMOD_LoRaWAN_ShowResponse.
  rewrite TIDString_scan_entries by reflexivity. rewrite res_bind_Ok. reflexivity.
Qed.

(** A NUL ends the C string whatever follows it. *)
(** After [Payload[L] = 0], the string from [Payload[15]] holds the bytes
    15 to [L - 1] up to their first NUL. *)
Lemma cstr_drop_insert_nul p L :
  (15 <= L < length p)%nat ->
  cstr (drop 15 (<[L := 0]> p)) = cstr (slice p 15 (L - 15)).
Proof.
  intros HL. rewrite drop_insert_ge by lia.
  rewrite (insert_take_drop (drop 15 p)) by (rewrite length_drop; lia).
  apply cstr_app_nul.
Qed.

End DevMgmtLemmas.

#[local] Hint Rewrite @show_devmgmt_ok : wimod_reads.

(** ** Theorems *)

Section DevMgmtTheorems.
Context `{WiMOD_HCI_Codes}.

(** The device-status record at the offsets of the specification. *)
Definition device_status_at (p : list Z) : DeviceStatus :=
  mkDevStatus (le_field p 1 1) (le_field p 2 4) (rtc_unpack (le_field p 6 4))
    (le_field p 10 2) (le_field p 12 2) (le_field p 16 4) (le_field p 20 4)
    (le_field p 24 4) (le_field p 28 4) (le_field p 32 4) (le_field p 36 4)
    (le_field p 40 4) (le_field p 44 4) (le_field p 48 4) (le_field p 52 4)
    (le_field p 56 4).

Ltac copies Hb := first
  [ rewrite bind_memcpy_4 by (exact Hb || lia)
  | rewrite bind_memcpy by lia ]; cbv beta.

(** Evaluate the device-status response of a well-formed message. *)
Ltac eval_device_status :=
  pose proof payload_size_range;
  match goal with Hwf : msg_wf _ = true |- _ => apply msg_wf_spec in Hwf as (? & ? & _) end;
  unfold WiMOD_LoRaWAN_DevMgmt_DeviceStatus_Rsp; cbv zeta; reads;
  destruct (devmgmt_ok _); [|reflexivity];
  match goal with Hb : bytes_ok _ = true |- _ => do 16 copies Hb end;
  change 0xFF with (Z.ones (8 * Z.of_nat 1)); change 0xFFFF with (Z.ones (8 * Z.of_nat 2));
  rewrite !memcpy_low by (try apply le_read_slice_bound; auto; lia);
  reflexivity.

(** C26: the device-status response.  For every well-formed message and
    every value the uninitialised [help] may hold, the routine prints the
    status line and, when the status is [DEVMGMT_STATUS_OK], the record
    at the little-endian offsets of the specification (tick resolution
    at 1, system tick at 2, target time at 6 decoded as an RTC word, NVM
    status at 10, battery level at 12, the eleven counters from 16 to
    56); on any other status no record.  [Length] is not consulted: a
    short response is decoded from whatever the payload array holds
    beyond it. *)
Theorem DeviceStatus_Rsp_spec help0 m :
  msg_wf m = true ->
  WiMOD_LoRaWAN_DevMgmt_DeviceStatus_Rsp help0 m
  = Ok (devmgmt_line "device status response" (byte (Payload m) 0),
        if devmgmt_ok (byte (Payload m) 0) then Some (device_status_at (Payload m)) else None).
Proof. intros Hwf. eval_device_status. Qed.

(** The record of a device-status response is the one at the offsets
    of the specification. *)
Lemma DeviceStatus_Rsp_record help0 m l d :
  msg_wf m = true ->
  WiMOD_LoRaWAN_DevMgmt_DeviceStatus_Rsp help0 m = Ok (l, Some d) ->
  d = device_status_at (Payload m) /\ bytes_ok (Payload m) = true.
Proof.
  intros Hwf Hr. assert (Hb : bytes_ok (Payload m) = true) by (apply msg_wf_spec in Hwf; tauto).
  enough (E : WiMOD_LoRaWAN_DevMgmt_DeviceStatus_Rsp help0 m
              = Ok (devmgmt_line "device status response" (byte (Payload m) 0),
                    if devmgmt_ok (byte (Payload m) 0) then Some (device_status_at (Payload m))
                    else None)).
  { rewrite E in Hr. destruct (devmgmt_ok _); injection Hr; auto. discriminate. }
  eval_device_status.
Qed.

(** C28: the device-information response.  Whatever the uninitialised
    [help] holds, on [DEVMGMT_STATUS_OK] the routine prints the module
    type of [Payload[1]] from the module-type table and the device
    address and device identifier, the little-endian words at offsets 2
    and 6 of the specification. *)
Theorem DeviceInfo_Rsp_spec help0 m :
  msg_wf m = true ->
  WiMOD_LoRaWAN_DevMgmt_DeviceInfo_Rsp help0 m
  = Ok (devmgmt_line "device information response" (byte (Payload m) 0),
        if devmgmt_ok (byte (Payload m) 0)
        then Some (mkDevInfo (module_type_line (byte (Payload m) 1))
                    (le_field (Payload m) 2 4) (le_field (Payload m) 6 4))
        else None).
Proof.
  intros Hwf. pose proof payload_size_range.
  apply msg_wf_spec in Hwf as (Hl & Hb & _).
  unfold WiMOD_LoRaWAN_DevMgmt_DeviceInfo_Rsp. cbv zeta. reads.
  destruct (devmgmt_ok _); [|reflexivity].
  reads. rewrite show_module_type_ok, res_bind_Ok.
  do 2 copies Hb. reflexivity.
Qed.

(** The RTC-alarm response.  For every well-formed message and
    every value of the uninitialised [help], on [DEVMGMT_STATUS_OK] the
    routine reports the alarm flag (byte 1), the daily flag (byte 2) and
    hour, minute and second from bytes 3, 4 and 5: the three-byte copy
    into [help] and the byte masks recover them exactly. *)
Theorem Get_RTC_ALARM_Rsp_fields help0 m :
  msg_wf m = true -> devmgmt_ok (byte (Payload m) 0) = true ->
  WiMOD_LoRaWAN_DevMgmt_Get_RTC_ALARM_Rsp help0 m
  = Ok (devmgmt_line "get RTC ALARM response" (byte (Payload m) 0),
        Some (mkAlarm (byte (Payload m) 1) (byte (Payload m) 2) (byte (Payload m) 3)
                      (byte (Payload m) 4) (byte (Payload m) 5))).
Proof.
  intros Hwf Hok. pose proof payload_size_range.
  apply msg_wf_spec in Hwf as (Hl & Hb & _).
  unfold WiMOD_LoRaWAN_DevMgmt_Get_RTC_ALARM_Rsp. cbv zeta. reads. rewrite Hok. reads.
  rewrite bind_memcpy by lia. cbv beta.
  set (v := Z.lor _ _).
  assert (Hv : Z.land v (Z.ones 24) = le_field (Payload m) 3 3).
  { apply (memcpy_low _ _ (8 * Z.of_nat 3)); [lia|]. apply le_read_slice_bound, Hb. }
  rewrite !le_field_S, le_field_0 in Hv by (auto; lia).
  assert (F : forall k, 0 <= k -> k + 8 <= 24 -> bit_field v k 8
                 = ((byte (Payload m) 3 + (byte (Payload m) (3 + 1)
                     + (byte (Payload m) (3 + 1 + 1) + 0 * 256) * 256) * 256) / 2 ^ k) mod 2 ^ 8).
  { intros. rewrite (bit_field_low v 24), Hv, bit_field_div by lia. reflexivity. }
  replace (Z.land v 0xFF) with (bit_field v 0 8)
    by (unfold bit_field; rewrite Z.shiftr_0_r; reflexivity).
  replace (Z.shiftr (Z.land v 0xFF00) 8) with (bit_field v 8 8) by (symmetry; exact (mask_field v 8 8 ltac:(lia) ltac:(lia))).
  replace (Z.shiftr (Z.land v 0xFF0000) 16) with (bit_field v 16 8) by (symmetry; exact (mask_field v 16 8 ltac:(lia) ltac:(lia))).
  rewrite !F by lia.
  replace (3 + 1 + 1) with 5 by lia. replace (3 + 1) with 4 by lia.
  pose proof (bytes_ok_byte _ 3 Hb). pose proof (bytes_ok_byte _ 4 Hb).
  pose proof (bytes_ok_byte _ 5 Hb).
  do 4 f_equal; Z.div_mod_to_equations; lia.
Qed.

(** C29: the RTC response decodes the date and time the module sends.
    Whatever the uninitialised [help] holds, when the four bytes at
    [Payload[1]] are the little-endian RTC word of a valid time [t]
    (year 2000-2063), the routine reports [t]. *)
Theorem Get_RTC_Rsp_roundtrip help0 m t :
  msg_wf m = true -> devmgmt_ok (byte (Payload m) 0) = true -> rtc_valid t = true ->
  slice (Payload m) 1 4 = le_bytes 4 (rtc_pack t) ->
  WiMOD_LoRaWAN_DevMgmt_Get_RTC_Rsp help0 m
  = Ok (devmgmt_line "get RTC response" (byte (Payload m) 0), Some t).
Proof.
  intros Hwf Hok Hv Hs. pose proof payload_size_range. pose proof (rtc_pack_bound t Hv).
  apply msg_wf_spec in Hwf as (Hl & Hb & _).
  unfold WiMOD_LoRaWAN_DevMgmt_Get_RTC_Rsp. cbv zeta. reads. rewrite Hok.
  rewrite bind_memcpy_4 by (exact Hb || lia).
  rewrite Hs, le_read_le_bytes, Z.mod_small, rtc_unpack_pack_valid by (exact Hv || simpl; lia).
  reflexivity.
Qed.

(** C36: [Payload[Length] = 0] in the firmware-version response writes
    past the payload array when the response fills it.  A well-formed
    message with status OK and [Length = WIMOD_HCI_MSG_PAYLOAD_SIZE]
    makes the routine fault. *)
Theorem FirmwareVersion_Rsp_full_frame m :
  msg_wf m = true -> devmgmt_ok (byte (Payload m) 0) = true ->
  Length m = WIMOD_HCI_MSG_PAYLOAD_SIZE ->
  WiMOD_LoRaWAN_DevMgmt_FirmwareVersion_Rsp m = Fault.
Proof.
  intros Hwf Hok HL. pose proof payload_size_range.
  apply msg_wf_spec in Hwf as (Hl & Hb & _).
  unfold WiMOD_LoRaWAN_DevMgmt_FirmwareVersion_Rsp. cbv zeta. reads. rewrite Hok. reads.
  rewrite rd_seq_ok by lia. rewrite res_bind_Ok.
  replace (Length m >? 15) with true by (symmetry; apply Z.gtb_lt; lia).
  rewrite wr_fault by lia. reflexivity.
Qed.

(** The firmware-version response inside the array.  With status OK
    and [15 < Length < WIMOD_HCI_MSG_PAYLOAD_SIZE], the routine reports
    major version [Payload[2]], minor version [Payload[1]], build
    [MAKEWORD(Payload[3], Payload[4])], the date string of bytes 5-14 and
    the content string of bytes 15 to [Length - 1], each up to its first
    NUL, and leaves [Payload[Length] = 0] in the message. *)
Theorem FirmwareVersion_Rsp_fields m :
  msg_wf m = true -> devmgmt_ok (byte (Payload m) 0) = true ->
  15 < Length m < WIMOD_HCI_MSG_PAYLOAD_SIZE ->
  WiMOD_LoRaWAN_DevMgmt_FirmwareVersion_Rsp m
  = Ok (mkMsg (Length m) (SapID m) (MsgID m) (<[Z.to_nat (Length m) := 0]> (Payload m)),
        devmgmt_line "firmware version response" (byte (Payload m) 0),
        Some (mkFw (byte (Payload m) 2) (byte (Payload m) 1)
                (MAKEWORD (byte (Payload m) 3) (byte (Payload m) 4))
                (cstr (slice (Payload m) 5 10))
                (Some (cstr (slice (Payload m) 15 (Z.to_nat (Length m) - 15)))))).
Proof.
  intros Hwf Hok HL. pose proof payload_size_range.
  apply msg_wf_spec in Hwf as (Hl & Hb & _).
  unfold WiMOD_LoRaWAN_DevMgmt_FirmwareVersion_Rsp. cbv zeta. reads. rewrite Hok. reads.
  rewrite rd_seq_ok by lia. rewrite res_bind_Ok.
  replace (Length m >? 15) with true by (symmetry; apply Z.gtb_lt; lia).
  rewrite wr_ok by lia. rewrite res_bind_Ok.
  rewrite cstr_app_nul, cstr_drop_insert_nul by lia. reflexivity.
Qed.

End DevMgmtTheorems.

(** ** Witnesses, with the values of [WiMOD_LoRaWAN_API.h] *)

#[local] Existing Instance WiMOD_API_h.

(** A device-status response of six bytes: the record is still decoded,
    from the zeros of the array beyond [Length]. *)
Definition rx_status : TWiMOD_HCI_Message :=
  rx_msg (devmgmt_msg_code DEVMGMT_MSG_GET_DEVICE_STATUS_RSP) [0; 1; 16; 39; 0; 0].

Lemma DeviceStatus_Rsp_spec_witness :
  WiMOD_LoRaWAN_DevMgmt_DeviceStatus_Rsp 3735928559 rx_status
  = Ok (devmgmt_line "device status response" 0,
        Some (mkDevStatus 1 10000 (rtc_unpack 0) 0 0 0 0 0 0 0 0 0 0 0 0 0)).
Proof.
  refine (eq_trans (DeviceStatus_Rsp_spec 3735928559 rx_status eq_refl) _).
  vm_compute. reflexivity.
Defined.

(** An iM880B-L module (type 152), address 0x12345678, identifier 7. *)
Definition rx_info : TWiMOD_HCI_Message :=
  rx_msg (devmgmt_msg_code DEVMGMT_MSG_GET_DEVICE_INFO_RSP) [0; 152; 120; 86; 52; 18; 7; 0; 0; 0].

Lemma DeviceInfo_Rsp_spec_witness :
  WiMOD_LoRaWAN_DevMgmt_DeviceInfo_Rsp 3735928559 rx_info
  = Ok (devmgmt_line "device information response" 0,
        Some (mkDevInfo (Some (mkStatusLine "Module type" 152 "iM880B-L")) 305419896 7)).
Proof.
  refine (eq_trans (DeviceInfo_Rsp_spec 3735928559 rx_info eq_refl) _).
  vm_compute. reflexivity.
Defined.

(** Alarm set, not daily, at 07:30:15; [help] starts all ones. *)
Definition rx_alarm : TWiMOD_HCI_Message :=
  rx_msg (devmgmt_msg_code DEVMGMT_MSG_GET_RTC_ALARM_RSP) [0; 1; 0; 7; 30; 15].

Lemma Get_RTC_ALARM_Rsp_fields_witness :
  WiMOD_LoRaWAN_DevMgmt_Get_RTC_ALARM_Rsp 4294967295 rx_alarm
  = Ok (devmgmt_line "get RTC ALARM response" 0, Some (mkAlarm 1 0 7 30 15)).
Proof.
  refine (eq_trans (Get_RTC_ALARM_Rsp_fields 4294967295 rx_alarm
                      eq_refl eq_refl) _).
  vm_compute. reflexivity.
Defined.

Definition rtc_example : RtcTime := mkRtcTime 2024 2 29 23 59 58.

Definition rx_rtc : TWiMOD_HCI_Message :=
  rx_msg (devmgmt_msg_code DEVMGMT_MSG_GET_RTC_RSP) (0 :: le_bytes 4 (rtc_pack rtc_example)).

Lemma Get_RTC_Rsp_roundtrip_witness :
  WiMOD_LoRaWAN_DevMgmt_Get_RTC_Rsp 0 rx_rtc
  = Ok (devmgmt_line "get RTC response" 0, Some rtc_example).
Proof.
  exact (Get_RTC_Rsp_roundtrip 0 rx_rtc rtc_example eq_refl
           eq_refl eq_refl
           eq_refl).
Defined.

(** A firmware-version response filling the whole array. *)
Definition rx_fw_full : TWiMOD_HCI_Message :=
  mkMsg 300 1 (devmgmt_msg_code DEVMGMT_MSG_GET_FW_VERSION_RSP) (zeros 300).

Lemma FirmwareVersion_Rsp_full_frame_witness :
  WiMOD_LoRaWAN_DevMgmt_FirmwareVersion_Rsp rx_fw_full = Fault.
Proof.
  exact (FirmwareVersion_Rsp_full_frame rx_fw_full eq_refl
           eq_refl eq_refl).
Defined.

(** Version 1.2, build 0x1234, date [24-01-31], content [LoRa]. *)
Definition rx_fw : TWiMOD_HCI_Message :=
  rx_msg (devmgmt_msg_code DEVMGMT_MSG_GET_FW_VERSION_RSP)
    ([0; 2; 1; 52; 18] ++ [50; 52; 45; 48; 49; 45; 51; 49; 0; 0] ++ [76; 111; 82; 97]).

Lemma FirmwareVersion_Rsp_fields_witness :
  exists m', WiMOD_LoRaWAN_DevMgmt_FirmwareVersion_Rsp rx_fw
  = Ok (m', devmgmt_line "firmware version response" 0,
        Some (mkFw 1 2 4660 [50; 52; 45; 48; 49; 45; 51; 49] (Some [76; 111; 82; 97]))).
Proof.
  eexists. refine (eq_trans (FirmwareVersion_Rsp_fields rx_fw eq_refl eq_refl
                      (conj eq_refl eq_refl)) _).
  vm_compute. reflexivity.
Defined.
