(* ===== verification/RxSafety.v ===== *)
(** * The decoders return normally

    Each decoder the dispatcher calls returns normally ([res_ok]: an
    [Ok] result, neither [Fault] nor [NoFuel]) on every message that
    meets two conditions.  The message must be well formed, with a
    [Length] that leaves at least one byte of the payload array after
    it.  A data or MAC-command indication must also not announce the 5
    channel-information bytes in fewer than 5 bytes.  So each decoder
    reads, and the firmware-version decoder writes, only inside the
    array.  The C-Data indication is the exception, since its loop
    spins.  It gets "no [Fault]" for any fuel, and [res_ok] only when at
    most one byte follows the flags.  The two hypotheses are shared by
    the section; [Dispatcher] combines the lemmas. *)

From Stdlib Require Import ZArith Lia List.
From stdpp Require Import base list strings decidable.
From S2P Require Import Prelude SerialFormat HciDefs StatusTables LoRaWANRx LoRaWANRsp DevMgmtRsp.
Import ListNotations.
Open Scope Z_scope.
Open Scope wimod_scope.

#[local] Hint Rewrite @show_lorawan_ok @show_devmgmt_ok @show_module_type_ok : wimod_reads.

Section DecoderSafety.
Context `{WiMOD_HCI_Codes}.
Variable m : TWiMOD_HCI_Message.
Hypothesis Hwf : msg_wf m = true.
Hypothesis Hroom : Length m < WIMOD_HCI_MSG_PAYLOAD_SIZE.

Ltac facts :=
  pose proof payload_size_range;
  pose proof (proj1 (msg_wf_spec m) Hwf) as (Hl & Hb & HL & _).

Ltac copy_ok := rewrite memcpy_help_ok by lia.

Lemma U_DATA_TxIndication_ok : res_ok (WiMOD_LoRaWAN_Process_U_DATA_TxIndication m).
Proof. facts. unfold WiMOD_LoRaWAN_Process_U_DATA_TxIndication, tx_info. run_ok. Qed.

Lemma C_DATA_TxIndication_ok : res_ok (WiMOD_LoRaWAN_Process_C_DATA_TxIndication m).
Proof. facts. unfold WiMOD_LoRaWAN_Process_C_DATA_TxIndication, tx_info. run_ok. Qed.

Lemma JoinTxIndication_ok : res_ok (WiMOD_LoRaWAN_Process_JoinTxIndication m).
Proof. facts. unfold WiMOD_LoRaWAN_Process_JoinTxIndication. run_ok. Qed.

Lemma JoinNetworkIndication_ok : res_ok (WiMOD_LoRaWAN_Process_JoinNetworkIndication m).
Proof.
  facts. unfold WiMOD_LoRaWAN_Process_JoinNetworkIndication, join_address, read_channel_info.
  run_ok.
Qed.

Lemma Reactivate_Rsp_ok : res_ok (WiMOD_LoRaWAN_Process_Reactivate_Rsp m).
Proof. facts. unfold WiMOD_LoRaWAN_Process_Reactivate_Rsp. run_ok. Qed.

Lemma Get_LINK_ADR_RSP_ok : res_ok (WiMOD_LoRaWAN_Process_Get_LINK_ADR_RSP m).
Proof. facts. unfold WiMOD_LoRaWAN_Process_Get_LINK_ADR_RSP. run_ok. Qed.

Lemma Get_Network_Status_RSP_ok : res_ok (WiMOD_LoRaWAN_Process_Get_Network_Status_RSP m).
Proof. facts. unfold WiMOD_LoRaWAN_Process_Get_Network_Status_RSP. run_ok. Qed.

Lemma Get_Custom_CFG_RSP_ok : res_ok (WiMOD_LoRaWAN_Process_Get_Custom_CFG_RSP m).
Proof. facts. unfold WiMOD_LoRaWAN_Process_Get_Custom_CFG_RSP. run_ok. Qed.

Lemma Get_Device_EUI_RSP_ok : res_ok (WiMOD_LoRaWAN_Process_Get_Device_EUI_RSP m).
Proof. facts. unfold WiMOD_LoRaWAN_Process_Get_Device_EUI_RSP. run_ok. Qed.

Lemma Get_Support_Band_RSP_ok : res_ok (WiMOD_LoRaWAN_Process_Get_Support_Band_RSP m).
Proof.
  facts. unfold WiMOD_LoRaWAN_Process_Get_Support_Band_RSP. run_ok.
  rewrite band_loop_ok by (try apply Nat.lt_succ_r, Z2Nat.inj_le; Z.div_mod_to_equations; lia).
  eexists; reflexivity.
Qed.

Lemma Set_RSTACK_RSP_ok : res_ok (WiMOD_LoRaWAN_Process_Set_RSTACK_RSP m).
Proof. facts. unfold WiMOD_LoRaWAN_Process_Set_RSTACK_RSP. run_ok. Qed.

Lemma Get_RSTACK_RSP_ok : res_ok (WiMOD_LoRaWAN_Process_Get_RSTACK_RSP m).
Proof. facts. unfold WiMOD_LoRaWAN_Process_Get_RSTACK_RSP. run_ok. Qed.

Lemma Get_OPMODE_Rsp_ok : res_ok (WiMOD_LoRaWAN_DevMgmt_Get_OPMODE_Rsp m).
Proof. facts. unfold WiMOD_LoRaWAN_DevMgmt_Get_OPMODE_Rsp. run_ok. Qed.

Lemma Get_RTC_ALARM_Rsp_ok help0 : res_ok (WiMOD_LoRaWAN_DevMgmt_Get_RTC_ALARM_Rsp help0 m).
Proof. facts. unfold WiMOD_LoRaWAN_DevMgmt_Get_RTC_ALARM_Rsp. run_ok; copy_ok; run_ok. Qed.

Lemma Get_RTC_Rsp_ok help0 : res_ok (WiMOD_LoRaWAN_DevMgmt_Get_RTC_Rsp help0 m).
Proof. facts. unfold WiMOD_LoRaWAN_DevMgmt_Get_RTC_Rsp. run_ok; copy_ok; run_ok. Qed.

Lemma DeviceStatus_Rsp_ok help0 : res_ok (WiMOD_LoRaWAN_DevMgmt_DeviceStatus_Rsp help0 m).
Proof.
  facts. unfold WiMOD_LoRaWAN_DevMgmt_DeviceStatus_Rsp. run_ok.
  all: repeat (copy_ok; run_ok).
Qed.

Lemma DeviceInfo_Rsp_ok help0 : res_ok (WiMOD_LoRaWAN_DevMgmt_DeviceInfo_Rsp help0 m).
Proof.
  facts. unfold WiMOD_LoRaWAN_DevMgmt_DeviceInfo_Rsp. run_ok.
  all: repeat (copy_ok; run_ok).
Qed.

Lemma FirmwareVersion_Rsp_ok : res_ok (WiMOD_LoRaWAN_DevMgmt_FirmwareVersion_Rsp m).
Proof.
  facts. unfold WiMOD_LoRaWAN_DevMgmt_FirmwareVersion_Rsp. run_ok.
  rewrite wr_ok by lia. run_ok.
Qed.

(** The C-Data loop only ever reads [Payload[2]]. *)
Lemma C_Data_print_loop_nf fuel p ps :
  2 < Z.of_nat (length p) -> C_Data_print_loop fuel p 1 ps <> Fault.
Proof.
  intros Hl. induction fuel as [|fuel IH]; cbn [C_Data_print_loop]; [discriminate|].
  destruct (1 <? ps); [|discriminate].
  rewrite rd_ok by lia. rewrite res_bind_Ok. apply res_bind_nf; [exact IH|discriminate].
Qed.

(** The data indications, when the channel information they announce
    fits in the message. *)
Hypothesis Hinfo : flag (byte (Payload m) 0) 0 = true -> 5 <= Length m.

Lemma U_DataRxIndication_ok : res_ok (WiMOD_LoRaWAN_Process_U_DataRxIndication m).
Proof.
  facts. pose proof (rx_payload_size_bound (byte (Payload m) 0) (Length m)).
  rewrite U_Data_result by (auto; lia). cbv zeta. run_ok.
Qed.

Lemma C_DataRxIndication_nf fuel : WiMOD_LoRaWAN_Process_C_DataRxIndication fuel m <> Fault.
Proof.
  facts. unfold WiMOD_LoRaWAN_Process_C_DataRxIndication. no_fault.
  all: first [ apply C_Data_print_loop_nf; lia
             | rewrite rx_channel_info_ok by assumption; discriminate ].
Qed.

(** With at most one byte after the flags the print loop exits at once,
    so one iteration's worth of fuel decodes the frame. *)
Lemma C_DataRxIndication_ok fuel :
  rx_payload_size (byte (Payload m) 0) (Length m) <= 1 ->
  res_ok (WiMOD_LoRaWAN_Process_C_DataRxIndication (S fuel) m).
Proof.
  intros Hps. facts. unfold WiMOD_LoRaWAN_Process_C_DataRxIndication.
  rewrite rd_ok by lia. rewrite res_bind_Ok. cbv zeta.
  change (nth (Z.to_nat 0) (Payload m) 0) with (byte (Payload m) 0).
  apply res_ok_bind.
  - destruct (_ >=? 1); [|eexists; reflexivity].
    rewrite rd_ok by lia. rewrite res_bind_Ok, C_Data_print_loop_exits by lia.
    eexists; reflexivity.
  - intros ? _. rewrite rx_channel_info_ok by assumption. eexists; reflexivity.
Qed.

Lemma MAC_CMDRxIndication_ok : res_ok (WiMOD_LoRaWAN_Process_MAC_CMDRxIndication m).
Proof.
  facts. pose proof (rx_payload_size_bound (byte (Payload m) 0) (Length m)).
  unfold WiMOD_LoRaWAN_Process_MAC_CMDRxIndication. run_ok;
    rewrite rx_channel_info_ok by assumption; eexists; reflexivity.
Qed.

End DecoderSafety.

Create HintDb rx_safety.
#[export] Hint Resolve res_ok_nf : rx_safety.
#[export] Hint Resolve U_DATA_TxIndication_ok C_DATA_TxIndication_ok JoinTxIndication_ok
  JoinNetworkIndication_ok Reactivate_Rsp_ok Get_LINK_ADR_RSP_ok Get_Network_Status_RSP_ok
  Get_Custom_CFG_RSP_ok Get_Device_EUI_RSP_ok Get_Support_Band_RSP_ok Set_RSTACK_RSP_ok
  Get_RSTACK_RSP_ok Get_OPMODE_Rsp_ok Get_RTC_ALARM_Rsp_ok Get_RTC_Rsp_ok DeviceStatus_Rsp_ok
  DeviceInfo_Rsp_ok FirmwareVersion_Rsp_ok : rx_safety.
