(* ===== verification/Dispatcher.v ===== *)
(** * The receive dispatcher

    [WiMOD_LoRaWAN_Process_RxMessage] (lines 675-691 of
    [WiMOD_LoRaWAN_API.c]) switches on [SapID], then
    [WiMOD_LoRaWAN_Process_DevMgmt_Message] (lines 701-744) and
    [WiMOD_LoRaWAN_Process_LoRaWAN_Message] (lines 1051-1162) switch on
    [MsgID] and call the decoders of [DevMgmtRsp], [LoRaWANRx] and
    [LoRaWANRsp], or print the status line for the responses that carry
    only a status byte.  A C [switch] on a code selects the identifier
    whose code it is: [devmgmt_msg_of_code] and [lorawan_msg_of_code]
    followed by a [match] whose last branch is the [default] label.

    [WiMOD_LoRaWAN_Init] registers [WiMOD_LoRaWAN_Process_RxMessage] as
    the receive callback of the HCI layer, with the global [RxMessage]
    as the receive buffer (lines 206-208).  The callback is called with
    that buffer and returns it for the next message.  The model returns
    the event it produced and the buffer's contents after the call: the
    firmware-version decoder writes into it.  The
    SAP switch has no [default]: a message of another endpoint produces
    [RxIgnored].  The static buffer of [num2hex] is the parameter
    [HexValue]; the uninitialised [help] of the device-management
    decoders is [help0]; [fuel] bounds the loop of the C-Data
    indication. *)

From Stdlib Require Import ZArith Lia List.
From stdpp Require Import base list strings decidable.
From S2P Require Import Prelude SerialFormat HciDefs StatusTables RtcCodec LoRaWANRx LoRaWANRsp DevMgmtRsp RxSafety.
Import ListNotations.
Open Scope Z_scope.
Open Scope wimod_scope.

(** What [WiMOD_LoRaWAN_Process_DevMgmt_Message] does with a message. *)
Inductive DevMgmtEvent :=
| DevShown (title : string) (line : option StatusLine)
| DevInfo (r : option StatusLine * option DeviceInfo)
| DevFirmware (line : option StatusLine) (fw : option FwVersion)
| DevStatus (r : option StatusLine * option DeviceStatus)
| DevRtc (r : option StatusLine * option RtcTime)
| DevRtcAlarm (r : option StatusLine * option RtcAlarm)
| DevOpmode (r : option StatusLine * option Z)
| DevUnhandled (msgid : Z).

(** What [WiMOD_LoRaWAN_Process_LoRaWAN_Message] does with a message. *)
Inductive LoRaWANEvent :=
| LwShown (title : string) (line : option StatusLine)
| LwReactivate (r : option StatusLine * option Z)
| LwUDataTx (i : TxIndication)
| LwCDataTx (i : TxIndication)
| LwJoinTx (e : JoinTxEvent)
| LwJoin (e : JoinEvent)
| LwUDataRx (o : URxOutcome)
| LwCDataRx (r : CRxReport)
| LwMacCmd (r : option (list Z) * option RxChannelInfo)
| LwNoData
| LwSetRstack (r : option StatusLine * option (bool * bool * bool))
| LwGetRstack (r : option StatusLine * RadioStackConfig)
| LwBands (r : option StatusLine * option (list (Z * Z)))
| LwDeviceEUI (r : option StatusLine * option (list Z))
| LwCustomCfg (r : option StatusLine * option Z)
| LwNwkStatus (r : option StatusLine * option NwkStatus)
| LwLinkADR (r : option StatusLine * option LinkADRReqOption)
| LwUnhandled (hex : list Z).

Inductive RxEvent :=
| RxDevMgmt (e : DevMgmtEvent)
| RxLoRaWAN (e : LoRaWANEvent)
| RxIgnored.

Section Dispatch.
Context `{WiMOD_HCI_Codes}.

(** A decoder that leaves the message as it is. *)
Definition with_msg {A E} (m : TWiMOD_HCI_Message) (f : A -> E) (r : res A)
    : res (TWiMOD_HCI_Message * E) :=
  x <- r ;; Ok (m, f x).

Definition dev_shown (title : string) (m : TWiMOD_HCI_Message) :=
  with_msg m (DevShown title) (s <- rd (Payload m) 0 ;; show_devmgmt title s).

Definition lw_shown (title : string) (m : TWiMOD_HCI_Message) :=
  with_msg m (LwShown title) (s <- rd (Payload m) 0 ;; show_lorawan title s).

Definition WiMOD_LoRaWAN_Process_DevMgmt_Message (help0 : Z) (m : TWiMOD_HCI_Message)
    : res (TWiMOD_HCI_Message * DevMgmtEvent) :=
  match devmgmt_msg_of_code (MsgID m) with
  | Some DEVMGMT_MSG_PING_RSP => dev_shown "ping response" m
  | Some DEVMGMT_MSG_GET_DEVICE_INFO_RSP =>
      with_msg m DevInfo (WiMOD_LoRaWAN_DevMgmt_DeviceInfo_Rsp help0 m)
  | Some DEVMGMT_MSG_GET_FW_VERSION_RSP =>
      r <- WiMOD_LoRaWAN_DevMgmt_FirmwareVersion_Rsp m ;;
      let '(m', line, fw) := r in Ok (m', DevFirmware line fw)
  | Some DEVMGMT_MSG_RESET_RSP => dev_shown "reset response" m
  | Some DEVMGMT_MSG_GET_DEVICE_STATUS_RSP =>
      with_msg m DevStatus (WiMOD_LoRaWAN_DevMgmt_DeviceStatus_Rsp help0 m)
  | Some DEVMGMT_MSG_GET_RTC_RSP =>
      with_msg m DevRtc (WiMOD_LoRaWAN_DevMgmt_Get_RTC_Rsp help0 m)
  | Some DEVMGMT_MSG_SET_RTC_RSP => dev_shown "set RTC response" m
  | Some DEVMGMT_MSG_GET_RTC_ALARM_RSP =>
      with_msg m DevRtcAlarm (WiMOD_LoRaWAN_DevMgmt_Get_RTC_ALARM_Rsp help0 m)
  | Some DEVMGMT_MSG_SET_RTC_ALARM_RSP => dev_shown "set RTC Alarm response" m
  | Some DEVMGMT_MSG_CLEAR_RTC_ALARM_RSP => dev_shown "clear RTC Alarm response" m
  | Some DEVMGMT_MSG_GET_OPMODE_RSP =>
      with_msg m DevOpmode (WiMOD_LoRaWAN_DevMgmt_Get_OPMODE_Rsp m)
  | _ => Ok (m, DevUnhandled (u8 (MsgID m)))
  end.

Definition WiMOD_LoRaWAN_Process_LoRaWAN_Message (fuel : nat) (HexValue : list Z)
    (m : TWiMOD_HCI_Message) : res (TWiMOD_HCI_Message * LoRaWANEvent) :=
  match lorawan_msg_of_code (MsgID m) with
  | Some LORAWAN_MSG_ACTIVATE_DEVICE_RSP => lw_shown "activate device response" m
  | Some LORAWAN_MSG_REACTIVATE_DEVICE_RSP =>
      with_msg m LwReactivate (WiMOD_LoRaWAN_Process_Reactivate_Rsp m)
  | Some LORAWAN_MSG_DEACTIVATE_DEVICE_RSP => lw_shown "deactivate device response" m
  | Some LORAWAN_MSG_JOIN_NETWORK_RSP => lw_shown "join network response" m
  | Some LORAWAN_MSG_SEND_UDATA_RSP => lw_shown "send U-Data response" m
  | Some LORAWAN_MSG_SEND_UDATA_IND =>
      with_msg m LwUDataTx (WiMOD_LoRaWAN_Process_U_DATA_TxIndication m)
  | Some LORAWAN_MSG_SEND_CDATA_RSP => lw_shown "send C-Data response" m
  | Some LORAWAN_MSG_SEND_CDATA_IND =>
      with_msg m LwCDataTx (WiMOD_LoRaWAN_Process_C_DATA_TxIndication m)
  | Some LORAWAN_MSG_JOIN_TRANSMIT_IND =>
      with_msg m LwJoinTx (WiMOD_LoRaWAN_Process_JoinTxIndication m)
  | Some LORAWAN_MSG_JOIN_NETWORK_IND =>
      with_msg m LwJoin (WiMOD_LoRaWAN_Process_JoinNetworkIndication m)
  | Some LORAWAN_MSG_RECV_UDATA_IND =>
      with_msg m LwUDataRx (WiMOD_LoRaWAN_Process_U_DataRxIndication m)
  | Some LORAWAN_MSG_RECV_CDATA_IND =>
      with_msg m LwCDataRx (WiMOD_LoRaWAN_Process_C_DataRxIndication fuel m)
  | Some LORAWAN_MSG_SEND_MAC_CMD_RSP => lw_shown "send MAC CMD response" m
  | Some LORAWAN_MSG_RECV_MAC_CMD_IND =>
      with_msg m LwMacCmd (WiMOD_LoRaWAN_Process_MAC_CMDRxIndication m)
  | Some LORAWAN_MSG_RECV_NODATA_IND => Ok (m, LwNoData)
  | Some LORAWAN_MSG_SET_RSTACK_CONFIG_RSP =>
      with_msg m LwSetRstack (WiMOD_LoRaWAN_Process_Set_RSTACK_RSP m)
  | Some LORAWAN_MSG_GET_RSTACK_CONFIG_RSP =>
      with_msg m LwGetRstack (WiMOD_LoRaWAN_Process_Get_RSTACK_RSP m)
  | Some LORAWAN_MSG_GET_SUPPORTED_BANDS_RSP =>
      with_msg m LwBands (WiMOD_LoRaWAN_Process_Get_Support_Band_RSP m)
  | Some LORAWAN_MSG_GET_DEVICE_EUI_RSP =>
      with_msg m LwDeviceEUI (WiMOD_LoRaWAN_Process_Get_Device_EUI_RSP m)
  | Some LORAWAN_MSG_GET_CUSTOM_CFG_RSP =>
      with_msg m LwCustomCfg (WiMOD_LoRaWAN_Process_Get_Custom_CFG_RSP m)
  | Some LORAWAN_MSG_SET_CUSTOM_CFG_RSP => lw_shown "set custom cfg response" m
  | Some LORAWAN_MSG_FACTORY_RESET_RSP => lw_shown "factory reset response" m
  | Some LORAWAN_MSG_GET_NWK_STATUS_RSP =>
      with_msg m LwNwkStatus (WiMOD_LoRaWAN_Process_Get_Network_Status_RSP m)
  | Some LORAWAN_MSG_GET_LINKADRREQ_CONFIG_RSP =>
      with_msg m LwLinkADR (WiMOD_LoRaWAN_Process_Get_LINK_ADR_RSP m)
  | Some LORAWAN_MSG_SET_LINKADRREQ_CONFIG_RSP => lw_shown "set link adr response" m
  | _ => h <- num2hex HexValue (MsgID m) BYTE_F ;; Ok (m, LwUnhandled (cstr h))
  end.

(** The event of an endpoint, tagged with the endpoint. *)
Definition with_msg_event {E F} (f : E -> F) (r : res (TWiMOD_HCI_Message * E))
    : res (TWiMOD_HCI_Message * F) :=
  x <- r ;; let '(m', e) := x in Ok (m', f e).

Definition WiMOD_LoRaWAN_Process_RxMessage (fuel : nat) (HexValue : list Z) (help0 : Z)
    (m : TWiMOD_HCI_Message) : res (TWiMOD_HCI_Message * RxEvent) :=
  if SapID m =? DEVMGMT_SAP_ID then
    with_msg_event RxDevMgmt (WiMOD_LoRaWAN_Process_DevMgmt_Message help0 m)
  else if SapID m =? LORAWAN_SAP_ID then
    with_msg_event RxLoRaWAN (WiMOD_LoRaWAN_Process_LoRaWAN_Message fuel HexValue m)
  else Ok (m, RxIgnored).

(** The received messages the dispatcher handles to the end: well
    formed, with room after [Length] in the payload array, announcing
    the channel information of a data or MAC-command indication only
    when it fits, and a C-Data indication with at most one byte after
    its flags (a longer one makes the print loop spin). *)
Definition rx_info_fits (m : TWiMOD_HCI_Message) : bool :=
  negb (SapID m =? LORAWAN_SAP_ID)
  || negb (existsb (Z.eqb (MsgID m))
             (map lorawan_msg_code [LORAWAN_MSG_RECV_UDATA_IND; LORAWAN_MSG_RECV_CDATA_IND;
                                    LORAWAN_MSG_RECV_MAC_CMD_IND]))
  || negb (flag (byte (Payload m) 0) 0) || (5 <=? Length m).

Definition rx_cdata_short (m : TWiMOD_HCI_Message) : bool :=
  negb (SapID m =? LORAWAN_SAP_ID)
  || negb (MsgID m =? lorawan_msg_code LORAWAN_MSG_RECV_CDATA_IND)
  || (rx_payload_size (byte (Payload m) 0) (Length m) <=? 1).

Definition rx_deliverable (m : TWiMOD_HCI_Message) : bool :=
  msg_wf m && (Length m <? WIMOD_HCI_MSG_PAYLOAD_SIZE) && rx_info_fits m && rx_cdata_short m.

End Dispatch.

(** The actions that leave the board: the [tcp_write] of a port-100
    downlink and the [NVIC_SystemReset] of a port-99 downlink. *)
Definition rx_tcp_write (e : RxEvent) : option (list Z) :=
  match e with
  | RxLoRaWAN (LwUDataRx (URxReport _ (Some d) _ _ _)) => Some d
  | _ => None
  end.

Definition rx_system_reset (e : RxEvent) : bool :=
  match e with
  | RxLoRaWAN (LwUDataRx URxSystemReset) => true
  | _ => false
  end.

(** ** Lemmas *)

Section DispatchLemmas.
Context `{WiMOD_HCI_Codes}.

Lemma with_msg_inv {A E} m (f : A -> E) r m' e :
  with_msg m f r = Ok (m', e) -> m' = m /\ exists x, r = Ok x /\ e = f x.
Proof. unfold with_msg. intros Hr. bind_inv Hr. injection Hr as <- <-. eauto. Qed.

Lemma with_msg_event_inv {E F} (f : E -> F) r m' e :
  with_msg_event f r = Ok (m', e) -> exists e0, r = Ok (m', e0) /\ e = f e0.
Proof.
  unfold with_msg_event. intros Hr. bind_inv Hr. destruct a as [m0 e0].
  injection Hr as <- <-. eauto.
Qed.

(** The firmware-version decoder leaves the message, or the message with
    [Payload[Length] = 0] when [Length > 15]. *)
Lemma FirmwareVersion_Rsp_msg m m' l fw :
  WiMOD_LoRaWAN_DevMgmt_FirmwareVersion_Rsp m = Ok (m', l, fw) ->
  m' = m \/ (15 < Length m < Z.of_nat (length (Payload m))
             /\ m' = mkMsg (Length m) (SapID m) (MsgID m) (<[Z.to_nat (Length m) := 0]> (Payload m))).
Proof.
  unfold WiMOD_LoRaWAN_DevMgmt_FirmwareVersion_Rsp. cbv zeta. intros Hr. bind_inv Hr.
  destruct (devmgmt_ok a); [|injection Hr; auto].
  bind_inv Hr. destruct (Z.gtb_spec (Length m) 15); [|injection Hr; auto].
  bind_inv Hr. match goal with Hw : wr _ _ _ = Ok _ |- _ => apply wr_Ok_inv in Hw as [Hi ->] end.
  injection Hr as <-. right. split; [lia | reflexivity].
Qed.

(** Every branch of the LoRaWAN switch but [LORAWAN_MSG_RECV_UDATA_IND]
    leaves the message and produces another event than [LwUDataRx]. *)
Lemma Process_LoRaWAN_Message_inv fuel HexValue m m' e :
  WiMOD_LoRaWAN_Process_LoRaWAN_Message fuel HexValue m = Ok (m', e) ->
  m' = m /\ ((forall o, e <> LwUDataRx o) \/ MsgID m = lorawan_msg_code LORAWAN_MSG_RECV_UDATA_IND).
Proof.
  unfold WiMOD_LoRaWAN_Process_LoRaWAN_Message, lw_shown.
  destruct (lorawan_msg_of_code (MsgID m)) as [k|] eqn:Ek;
    [destruct k|]; intros Hr;
    try (apply with_msg_inv in Hr as [-> [x [_ ->]]]);
    try (bind_inv Hr; injection Hr as <- <-);
    try (injection Hr as <- <-);
    (split; [reflexivity|]); try (left; discriminate).
  right. symmetry. apply (of_code_Some _ _ _ _ Ek).
Qed.

Lemma Process_DevMgmt_Message_msg help0 m m' e :
  WiMOD_LoRaWAN_Process_DevMgmt_Message help0 m = Ok (m', e) ->
  m' = m \/ (MsgID m = devmgmt_msg_code DEVMGMT_MSG_GET_FW_VERSION_RSP
             /\ 15 < Length m < Z.of_nat (length (Payload m))
             /\ m' = mkMsg (Length m) (SapID m) (MsgID m) (<[Z.to_nat (Length m) := 0]> (Payload m))).
Proof.
  unfold WiMOD_LoRaWAN_Process_DevMgmt_Message, dev_shown.
  destruct (devmgmt_msg_of_code (MsgID m)) as [k|] eqn:Ek;
    [destruct k|]; intros Hr;
    try (apply with_msg_inv in Hr as [-> _]; left; reflexivity);
    try (injection Hr as <- _; left; reflexivity).
  bind_inv Hr. destruct a as [[m0 l] fw]. injection Hr as <- _.
  apply FirmwareVersion_Rsp_msg in Ha as [->|Hfw]; [left; reflexivity|].
  right. split; [symmetry; apply (of_code_Some _ _ _ _ Ek)|exact Hfw].
Qed.

Lemma with_msg_nf {A E} m (f : A -> E) r : r <> Fault -> with_msg m f r <> Fault.
Proof. intros Hr. apply res_bind_nf; [exact Hr | discriminate]. Qed.

Lemma with_msg_event_nf {E F} (f : E -> F) r : r <> Fault -> with_msg_event f r <> Fault.
Proof. intros Hr. apply res_bind_nf; [exact Hr | intros [? ?] _; discriminate]. Qed.

Lemma with_msg_ok {A E} m (f : A -> E) r : res_ok r -> res_ok (with_msg m f r).
Proof. intros Hr. apply res_ok_bind; [exact Hr | intros ? _; eexists; reflexivity]. Qed.

Lemma with_msg_event_ok {E F} (f : E -> F) r : res_ok r -> res_ok (with_msg_event f r).
Proof. intros Hr. apply res_ok_bind; [exact Hr | intros [? ?] _; eexists; reflexivity]. Qed.

Lemma rx_info_fits_spec m :
  rx_info_fits m = true -> SapID m = LORAWAN_SAP_ID ->
  In (MsgID m) (map lorawan_msg_code
                  [LORAWAN_MSG_RECV_UDATA_IND; LORAWAN_MSG_RECV_CDATA_IND;
                   LORAWAN_MSG_RECV_MAC_CMD_IND]) ->
  flag (byte (Payload m) 0) 0 = true -> 5 <= Length m.
Proof.
  unfold rx_info_fits. intros Hf Hs Hin Hfl. rewrite Hs, Z.eqb_refl, Hfl in Hf.
  assert (existsb (Z.eqb (MsgID m)) (map lorawan_msg_code
            [LORAWAN_MSG_RECV_UDATA_IND; LORAWAN_MSG_RECV_CDATA_IND;
             LORAWAN_MSG_RECV_MAC_CMD_IND]) = true) as Hex
    by (apply existsb_exists; exists (MsgID m); split; [exact Hin | apply Z.eqb_refl]).
  rewrite Hex in Hf. apply Z.leb_le. exact Hf.
Qed.

Lemma rx_cdata_short_spec m :
  rx_cdata_short m = true -> SapID m = LORAWAN_SAP_ID ->
  MsgID m = lorawan_msg_code LORAWAN_MSG_RECV_CDATA_IND ->
  rx_payload_size (byte (Payload m) 0) (Length m) <= 1.
Proof.
  unfold rx_cdata_short. intros Hc Hs Hi. rewrite Hs, Hi, !Z.eqb_refl in Hc.
  apply Z.leb_le. exact Hc.
Qed.

(** The receive buffer after dispatch: unchanged, or the firmware-version
    response with [Payload[Length] = 0]. *)
Lemma Process_RxMessage_msg fuel HexValue help0 m m' e :
  WiMOD_LoRaWAN_Process_RxMessage fuel HexValue help0 m = Ok (m', e) ->
  m' = m \/ (SapID m = DEVMGMT_SAP_ID
            /\ MsgID m = devmgmt_msg_code DEVMGMT_MSG_GET_FW_VERSION_RSP
            /\ 15 < Length m < Z.of_nat (length (Payload m))
            /\ m' = mkMsg (Length m) (SapID m) (MsgID m) (<[Z.to_nat (Length m) := 0]> (Payload m))).
Proof.
  unfold WiMOD_LoRaWAN_Process_RxMessage. intros Hr.
  destruct (Z.eqb_spec (SapID m) DEVMGMT_SAP_ID).
  - apply with_msg_event_inv in Hr as (ev & Hr & _).
    apply Process_DevMgmt_Message_msg in Hr as [->|Hfw]; auto.
  - left. destruct (Z.eqb_spec (SapID m) LORAWAN_SAP_ID); [|injection Hr as <- _; reflexivity].
    apply with_msg_event_inv in Hr as (ev & Hr & _).
    apply Process_LoRaWAN_Message_inv in Hr as [-> _]. reflexivity.
Qed.

Lemma msg_wf_nul m :
  msg_wf m = true -> Length m < Z.of_nat (length (Payload m)) ->
  msg_wf (mkMsg (Length m) (SapID m) (MsgID m) (<[Z.to_nat (Length m) := 0]> (Payload m))) = true.
Proof.
  intros Hwf HL. apply msg_wf_spec in Hwf as (Hl & Hb & HL' & HS & HI).
  apply msg_wf_spec. simpl. rewrite length_insert.
  split; [exact Hl|]. split; [apply bytes_ok_insert; auto|]. auto.
Qed.

(** Dispatch keeps the receive buffer well formed. *)
Lemma Process_RxMessage_wf fuel HexValue help0 m m' e :
  msg_wf m = true ->
  WiMOD_LoRaWAN_Process_RxMessage fuel HexValue help0 m = Ok (m', e) ->
  msg_wf m' = true.
Proof.
  intros Hwf Hr. apply Process_RxMessage_msg in Hr as [->|(_ & _ & HL & ->)]; [exact Hwf|].
  apply msg_wf_nul; [exact Hwf | lia].
Qed.

(** A confirmed-data indication with more than one byte after its flags
    makes the dispatcher spin for every amount of fuel. *)
Lemma Process_RxMessage_cdata_hangs fuel HexValue help0 m :
  msg_wf m = true -> SapID m = LORAWAN_SAP_ID ->
  MsgID m = lorawan_msg_code LORAWAN_MSG_RECV_CDATA_IND ->
  2 <= rx_payload_size (byte (Payload m) 0) (Length m) ->
  WiMOD_LoRaWAN_Process_RxMessage fuel HexValue help0 m = NoFuel.
Proof.
  intros Hwf Hs Hi Hps. pose proof sap_ids_distinct.
  unfold WiMOD_LoRaWAN_Process_RxMessage, WiMOD_LoRaWAN_Process_LoRaWAN_Message.
  rewrite Hs, Z.eqb_refl. destruct (Z.eqb_spec LORAWAN_SAP_ID DEVMGMT_SAP_ID); [congruence|].
  rewrite Hi, lorawan_msg_of_code_code. unfold with_msg.
  rewrite C_DataRxIndication_diverges by assumption. reflexivity.
Qed.

End DispatchLemmas.

#[local] Hint Rewrite @show_lorawan_ok @show_devmgmt_ok : wimod_reads.

(** ** Theorems *)

(** The identifiers the two [switch] statements have a [case] for. *)
Definition devmgmt_handled : list DevMgmtMsgId :=
  [DEVMGMT_MSG_PING_RSP; DEVMGMT_MSG_GET_DEVICE_INFO_RSP; DEVMGMT_MSG_GET_FW_VERSION_RSP;
   DEVMGMT_MSG_RESET_RSP; DEVMGMT_MSG_GET_DEVICE_STATUS_RSP; DEVMGMT_MSG_GET_RTC_RSP;
   DEVMGMT_MSG_SET_RTC_RSP; DEVMGMT_MSG_GET_RTC_ALARM_RSP; DEVMGMT_MSG_SET_RTC_ALARM_RSP;
   DEVMGMT_MSG_CLEAR_RTC_ALARM_RSP; DEVMGMT_MSG_GET_OPMODE_RSP].

Definition lorawan_handled : list LoRaWANMsgId :=
  [LORAWAN_MSG_ACTIVATE_DEVICE_RSP; LORAWAN_MSG_REACTIVATE_DEVICE_RSP;
   LORAWAN_MSG_DEACTIVATE_DEVICE_RSP; LORAWAN_MSG_JOIN_NETWORK_RSP;
   LORAWAN_MSG_SEND_UDATA_RSP; LORAWAN_MSG_SEND_UDATA_IND; LORAWAN_MSG_SEND_CDATA_RSP;
   LORAWAN_MSG_SEND_CDATA_IND; LORAWAN_MSG_JOIN_TRANSMIT_IND; LORAWAN_MSG_JOIN_NETWORK_IND;
   LORAWAN_MSG_RECV_UDATA_IND; LORAWAN_MSG_RECV_CDATA_IND; LORAWAN_MSG_SEND_MAC_CMD_RSP;
   LORAWAN_MSG_RECV_MAC_CMD_IND; LORAWAN_MSG_RECV_NODATA_IND;
   LORAWAN_MSG_SET_RSTACK_CONFIG_RSP; LORAWAN_MSG_GET_RSTACK_CONFIG_RSP;
   LORAWAN_MSG_GET_SUPPORTED_BANDS_RSP; LORAWAN_MSG_GET_DEVICE_EUI_RSP;
   LORAWAN_MSG_GET_CUSTOM_CFG_RSP; LORAWAN_MSG_SET_CUSTOM_CFG_RSP;
   LORAWAN_MSG_FACTORY_RESET_RSP; LORAWAN_MSG_GET_NWK_STATUS_RSP;
   LORAWAN_MSG_GET_LINKADRREQ_CONFIG_RSP; LORAWAN_MSG_SET_LINKADRREQ_CONFIG_RSP].

Section DispatchTheorems.
Context `{WiMOD_HCI_Codes}.

(** A deliverable message is dispatched to the end: every decoder the
    switches select returns, with one iteration of fuel for the C-Data
    loop. *)
Lemma Process_RxMessage_ok fuel HexValue help0 m :
  rx_deliverable m = true -> length HexValue = 9%nat ->
  res_ok (WiMOD_LoRaWAN_Process_RxMessage (S fuel) HexValue help0 m).
Proof.
  unfold rx_deliverable. intros Hd Hhex. rewrite !andb_true_iff, Z.ltb_lt in Hd.
  destruct Hd as [[[Hwf Hroom] Hinfo] Hshort]. pose proof payload_size_range.
  pose proof (proj1 (msg_wf_spec m) Hwf) as (Hl & Hb & HL & _ & HI).
  unfold WiMOD_LoRaWAN_Process_RxMessage.
  destruct (Z.eqb_spec (SapID m) DEVMGMT_SAP_ID) as [Hs|Hs];
    [|destruct (Z.eqb_spec (SapID m) LORAWAN_SAP_ID) as [Hs'|]; [|eexists; reflexivity]];
    apply with_msg_event_ok.
  - unfold WiMOD_LoRaWAN_Process_DevMgmt_Message, dev_shown.
    destruct (devmgmt_msg_of_code (MsgID m)) as [[]|];
      try (apply with_msg_ok; solve [eauto with rx_safety | run_ok]);
      try (eexists; reflexivity).
    apply res_ok_bind; [eauto with rx_safety | intros [[? ?] ?] _; eexists; reflexivity].
  - pose proof (rx_info_fits_spec m Hinfo Hs') as Hfit.
    pose proof (rx_cdata_short_spec m Hshort Hs') as Hc.
    unfold WiMOD_LoRaWAN_Process_LoRaWAN_Message, lw_shown.
    destruct (lorawan_msg_of_code (MsgID m)) as [k|] eqn:Ek;
      [destruct k; try (apply with_msg_ok; solve [eauto with rx_safety | run_ok]);
       try (eexists; reflexivity)|];
      try (apply of_code_Some in Ek; apply with_msg_ok;
           first [ apply U_DataRxIndication_ok | apply C_DataRxIndication_ok
                 | apply MAC_CMDRxIndication_ok ]; auto;
           intros; apply Hfit; [rewrite <- Ek; simpl; tauto | assumption]).
    all: rewrite num2hex_buffer by (auto; lia); eexists; reflexivity.
Qed.

(** C30: a message of an endpoint other than Device Management and
    LoRaWAN is dropped without a trace: the SAP [switch] has no
    [default], so there is no [UnknownKind] outcome, whatever the
    message holds. *)
Theorem Process_RxMessage_unknown_sap fuel HexValue help0 m :
  SapID m <> DEVMGMT_SAP_ID -> SapID m <> LORAWAN_SAP_ID ->
  WiMOD_LoRaWAN_Process_RxMessage fuel HexValue help0 m = Ok (m, RxIgnored).
Proof.
  intros Hd Hl. unfold WiMOD_LoRaWAN_Process_RxMessage.
  destruct (Z.eqb_spec (SapID m) DEVMGMT_SAP_ID); [contradiction|].
  destruct (Z.eqb_spec (SapID m) LORAWAN_SAP_ID); [contradiction|reflexivity].
Qed.

(** Only a LoRaWAN unconfirmed-data indication makes the dispatcher
    write to the TCP client or reset the MCU. *)
Lemma Process_RxMessage_origin fuel HexValue help0 m m' e :
  WiMOD_LoRaWAN_Process_RxMessage fuel HexValue help0 m = Ok (m', e) ->
  rx_tcp_write e <> None \/ rx_system_reset e = true ->
  SapID m = LORAWAN_SAP_ID /\ MsgID m = lorawan_msg_code LORAWAN_MSG_RECV_UDATA_IND.
Proof.
  unfold WiMOD_LoRaWAN_Process_RxMessage. intros Hr Hact.
  destruct (Z.eqb_spec (SapID m) DEVMGMT_SAP_ID).
  { apply with_msg_event_inv in Hr as (ev & _ & ->). simpl in Hact. intuition congruence. }
  destruct (Z.eqb_spec (SapID m) LORAWAN_SAP_ID); [|injection Hr as _ <-; simpl in Hact; intuition congruence].
  apply with_msg_event_inv in Hr as (ev & Hr & ->).
  apply Process_LoRaWAN_Message_inv in Hr as [_ [Hne|Hid]]; [|auto].
  destruct ev; try (simpl in Hact; intuition congruence).
  exfalso. eapply Hne. reflexivity.
Qed.

(** C8: the receive buffer after dispatch.  A well-formed message stays
    well formed, and the dispatcher leaves it unchanged except for a
    Device-Management firmware-version response with [Length > 15],
    after which [Payload[Length]] is 0. *)
Theorem Process_RxMessage_buffer fuel HexValue help0 m m' e :
  msg_wf m = true ->
  WiMOD_LoRaWAN_Process_RxMessage fuel HexValue help0 m = Ok (m', e) ->
  msg_wf m' = true
  /\ (m' = m
      \/ (SapID m = DEVMGMT_SAP_ID /\ MsgID m = devmgmt_msg_code DEVMGMT_MSG_GET_FW_VERSION_RSP
          /\ 15 < Length m
          /\ m' = mkMsg (Length m) (SapID m) (MsgID m) (<[Z.to_nat (Length m) := 0]> (Payload m)))).
Proof.
  intros Hwf Hr. split; [eapply Process_RxMessage_wf; eassumption|].
  apply Process_RxMessage_msg in Hr as [->|(Hs & Hi & HL & ->)]; [left; reflexivity|].
  right. repeat split; auto; lia.
Qed.

(** A Device-Management message with an identifier the [switch]
    has no [case] for (a request code, or a code the module adds later)
    is reported as unhandled with the identifier, without reading the
    payload. *)
Theorem DevMgmt_unhandled fuel HexValue help0 m :
  SapID m = DEVMGMT_SAP_ID ->
  (forall k, In k devmgmt_handled -> MsgID m <> devmgmt_msg_code k) ->
  WiMOD_LoRaWAN_Process_RxMessage fuel HexValue help0 m
  = Ok (m, RxDevMgmt (DevUnhandled (u8 (MsgID m)))).
Proof.
  intros Hs Hk. unfold WiMOD_LoRaWAN_Process_RxMessage, WiMOD_LoRaWAN_Process_DevMgmt_Message.
  rewrite Hs, Z.eqb_refl.
  destruct (devmgmt_msg_of_code (MsgID m)) as [k|] eqn:Ek; [|reflexivity].
  apply of_code_Some in Ek.
  destruct k; try reflexivity; exfalso; (eapply Hk; [|symmetry; exact Ek]; simpl; tauto).
Qed.

(** C31: a LoRaWAN message with an identifier the [switch] has no [case]
    for is reported as unhandled with its identifier printed by
    [num2hex(MsgID, BYTE_F)]: two upper-case hexadecimal digits. *)
Theorem LoRaWAN_unhandled fuel HexValue help0 m :
  SapID m = LORAWAN_SAP_ID -> 0 <= MsgID m -> length HexValue = 9%nat ->
  (forall k, In k lorawan_handled -> MsgID m <> lorawan_msg_code k) ->
  WiMOD_LoRaWAN_Process_RxMessage fuel HexValue help0 m
  = Ok (m, RxLoRaWAN (LwUnhandled (hexdigits 2 (MsgID m)))).
Proof.
  intros Hs Hn Hl Hk. pose proof sap_ids_distinct.
  unfold WiMOD_LoRaWAN_Process_RxMessage, WiMOD_LoRaWAN_Process_LoRaWAN_Message.
  rewrite Hs, Z.eqb_refl. destruct (Z.eqb_spec LORAWAN_SAP_ID DEVMGMT_SAP_ID); [congruence|].
  assert (Hd : (h <- num2hex HexValue (MsgID m) BYTE_F ;; Ok (m, LwUnhandled (cstr h)))
               = Ok (m, LwUnhandled (hexdigits 2 (MsgID m)))).
  { rewrite num2hex_buffer by assumption. simpl (Z.to_nat (hex_digits BYTE_F)).
    rewrite res_bind_Ok, cstr_hexdigits. reflexivity. }
  destruct (lorawan_msg_of_code (MsgID m)) as [k|] eqn:Ek; [|rewrite Hd; reflexivity].
  apply of_code_Some in Ek.
  destruct k; try (rewrite Hd; reflexivity); exfalso; (eapply Hk; [|symmetry; exact Ek]; simpl; tauto).
Qed.

(** C3: dispatching is memory safe on every message but the two kinds
    the findings name.  For a well-formed received message whose
    [Length] leaves room after it in the payload array, no decoder reads
    or writes outside the array, unless the message is a data or
    MAC-command indication that announces the 5-byte channel information
    in fewer than 5 bytes.  Non-termination of the C-Data loop is
    [NoFuel], not a fault. *)
Theorem Process_RxMessage_memory_safe fuel HexValue help0 m :
  msg_wf m = true -> Length m < WIMOD_HCI_MSG_PAYLOAD_SIZE -> length HexValue = 9%nat ->
  (SapID m = LORAWAN_SAP_ID ->
   In (MsgID m) (map lorawan_msg_code
                   [LORAWAN_MSG_RECV_UDATA_IND; LORAWAN_MSG_RECV_CDATA_IND;
                    LORAWAN_MSG_RECV_MAC_CMD_IND]) ->
   flag (byte (Payload m) 0) 0 = true -> 5 <= Length m) ->
  WiMOD_LoRaWAN_Process_RxMessage fuel HexValue help0 m <> Fault.
Proof.
  intros Hwf Hroom Hhex Hinfo. pose proof payload_size_range.
  pose proof (proj1 (msg_wf_spec m) Hwf) as (Hl & Hb & HL & _ & HI).
  unfold WiMOD_LoRaWAN_Process_RxMessage.
  destruct (Z.eqb_spec (SapID m) DEVMGMT_SAP_ID) as [Hs|Hs]; [|destruct (Z.eqb_spec (SapID m) LORAWAN_SAP_ID) as [Hs'|]; [|discriminate]];
    apply with_msg_event_nf.
  - unfold WiMOD_LoRaWAN_Process_DevMgmt_Message, dev_shown.
    destruct (devmgmt_msg_of_code (MsgID m)) as [[]|]; try discriminate;
      try (apply with_msg_nf; solve [eauto with rx_safety]); try (apply with_msg_nf; solve [no_fault]).
    apply res_bind_nf; [eauto with rx_safety | intros [[? ?] ?] _; discriminate].
  - unfold WiMOD_LoRaWAN_Process_LoRaWAN_Message, lw_shown.
    destruct (lorawan_msg_of_code (MsgID m)) as [k|] eqn:Ek;
      [destruct k; try discriminate; try (apply with_msg_nf; solve [eauto with rx_safety]);
       try (apply with_msg_nf; solve [no_fault])|];
      try (apply of_code_Some in Ek;
           apply with_msg_nf; first [ apply res_ok_nf, U_DataRxIndication_ok
                                    | apply C_DataRxIndication_nf
                                    | apply res_ok_nf, MAC_CMDRxIndication_ok ]; auto;
           apply Hinfo; [exact Hs'|]; rewrite <- Ek; simpl; tauto).
    all: rewrite num2hex_buffer by (auto; lia); discriminate.
Qed.

End DispatchTheorems.

(** ** Witnesses, with the values of [WiMOD_LoRaWAN_API.h] *)

#[local] Existing Instance WiMOD_API_h.

(** A Device-Management message of [Length] bytes. *)
Definition dev_msg (msg_id : Z) (bytes : list Z) : TWiMOD_HCI_Message :=
  mkMsg (Z.of_nat (length bytes)) 1 msg_id (bytes ++ zeros (300 - Z.of_nat (length bytes))).

(** The run of the dispatcher on a message, with 10 iterations of fuel,
    a zeroed [num2hex] buffer and [help = 0]. *)
Definition run (m : TWiMOD_HCI_Message) : TWiMOD_HCI_Message * RxEvent :=
  match WiMOD_LoRaWAN_Process_RxMessage 10 (zeros 9) 0 m with
  | Ok r => r
  | _ => (m, RxIgnored)
  end.

Lemma Process_RxMessage_unknown_sap_witness :
  WiMOD_LoRaWAN_Process_RxMessage 10 (zeros 9) 0 (mkMsg 1 2 5 (zeros 300))
  = Ok (mkMsg 1 2 5 (zeros 300), RxIgnored).
Proof. apply Process_RxMessage_unknown_sap; discriminate. Defined.

(** A firmware-version response of 19 bytes through the Device-Management
    SAP: the dispatcher stores a NUL at [Payload[19]]. *)
Definition dev_fw : TWiMOD_HCI_Message :=
  dev_msg 6 ([0; 2; 1; 52; 18] ++ [50; 52; 45; 48; 49; 45; 51; 49; 0; 0] ++ [76; 111; 82; 97]).

Lemma Process_RxMessage_buffer_witness :
  msg_wf (fst (run dev_fw)) = true
  /\ (fst (run dev_fw) = dev_fw
      \/ (SapID dev_fw = DEVMGMT_SAP_ID
          /\ MsgID dev_fw = devmgmt_msg_code DEVMGMT_MSG_GET_FW_VERSION_RSP
          /\ 15 < Length dev_fw
          /\ fst (run dev_fw)
             = mkMsg (Length dev_fw) (SapID dev_fw) (MsgID dev_fw)
                 (<[Z.to_nat (Length dev_fw) := 0]> (Payload dev_fw)))).
Proof.
  apply (Process_RxMessage_buffer 10 (zeros 9) 0 dev_fw _ (snd (run dev_fw))).
  - vm_compute. reflexivity.
  - vm_compute. reflexivity.
Defined.

(** [DEVMGMT_MSG_PING_REQ] (0x01) received from the module. *)
Lemma DevMgmt_unhandled_witness :
  WiMOD_LoRaWAN_Process_RxMessage 10 (zeros 9) 0 (dev_msg 1 [0])
  = Ok (dev_msg 1 [0], RxDevMgmt (DevUnhandled 1)).
Proof.
  apply DevMgmt_unhandled; [reflexivity|].
  intros k Hk. simpl in Hk. intuition (subst; vm_compute; discriminate).
Defined.

(** [LORAWAN_MSG_ACTIVATE_DEVICE_REQ] (0x01) received from the module:
    printed as [01]. *)
Lemma LoRaWAN_unhandled_witness :
  WiMOD_LoRaWAN_Process_RxMessage 10 (zeros 9) 0 (rx_msg 1 [0])
  = Ok (rx_msg 1 [0], RxLoRaWAN (LwUnhandled [48; 49])).
Proof.
  refine (eq_trans (LoRaWAN_unhandled 10 (zeros 9) 0 (rx_msg 1 [0]) eq_refl
                      ltac:(vm_compute; discriminate) eq_refl _) _).
  - intros k Hk. simpl in Hk. intuition (subst; vm_compute; discriminate).
  - vm_compute. reflexivity.
Defined.

(** The port-100 downlink with channel information: no access outside
    the payload array. *)
Lemma Process_RxMessage_memory_safe_witness :
  WiMOD_LoRaWAN_Process_RxMessage 10 (zeros 9) 0 rx_port100 <> Fault.
Proof.
  apply Process_RxMessage_memory_safe.
  - vm_compute. reflexivity.
  - vm_compute. reflexivity.
  - reflexivity.
  - intros _ _ _. vm_compute. discriminate.
Defined.
