(* ===== verification/Bridge.v ===== *)
(** * The application layer: initialisation and the receive process

    [WiMOD_LoRaWAN_Init] (lines 196-211 of [WiMOD_LoRaWAN_API.c]) hands
    the serial port, the receive callback [WiMOD_LoRaWAN_Process_RxMessage]
    and the static [RxMessage] to [WiMOD_HCI_Init];
    [WiMOD_LoRaWAN_Process] (lines 660-665) calls [WiMOD_HCI_Process].
    The HCI layer is not part of the sources: its model follows the
    transport contract of the specification.  [WiMOD_HCI_Init] registers
    the callback and the buffer and opens the serial device with
    [SerialDevice_Open(comPort, Baudrate_115200, DataBits_8, Parity_None)].
    The framing layer (SLIP, CRC) turns received bytes into complete
    frames, the queue [hci_frames]; a call of [WiMOD_HCI_Process]
    copies the next frame into the registered buffer and calls the
    callback on it.  One frame per call: on the STM32 branch
    [SerialDevice_ReadData] returns one byte per call.

    The program state is the record [Bridge]: [TxMessage] with what was
    sent, [RxMessage], the serial driver, the [num2hex] buffer, the HCI
    registration and the queue, and the log of dispatched frames with
    their events.  [bridge_step] interleaves the four things that change
    it: initialisation, a request of the application, a call of
    [WiMOD_LoRaWAN_Process], and the arrival of a frame. *)

From Stdlib Require Import ZArith Lia List.
From stdpp Require Import base list gmap decidable.
From S2P Require Import Prelude SerialDevice HciDefs LoRaWANRx Encoder Dispatcher.
Import ListNotations.
Open Scope Z_scope.
Open Scope wimod_scope.

(** The non-Windows branch of [SerialDevice.h]. *)
Definition Baudrate_115200 : Z := 115200.
Definition DataBits_8 `{STM32_UART_HAL} : Z := UART_WORDLENGTH_8B.
Definition Parity_None `{STM32_UART_HAL} : Z := UART_PARITY_NONE.

Record Bridge := mkBridge {
  br_tx : TxState;
  RxMessage : TWiMOD_HCI_Message;
  br_serial : SerialState;
  HexValue : list Z;
  hci_cb : bool;
  hci_open : bool;
  hci_frames : list TWiMOD_HCI_Message;
  rx_log : list (TWiMOD_HCI_Message * RxEvent)
}.

Definition set_tx (tx : TxState) (st : Bridge) : Bridge :=
  mkBridge tx (RxMessage st) (br_serial st) (HexValue st) (hci_cb st) (hci_open st)
    (hci_frames st) (rx_log st).

Definition push_frame (f : TWiMOD_HCI_Message) (st : Bridge) : Bridge :=
  mkBridge (br_tx st) (RxMessage st) (br_serial st) (HexValue st) (hci_cb st) (hci_open st)
    (hci_frames st ++ [f]) (rx_log st).

Section Bridge.
Context `{WiMOD_HCI_Codes} `{WiMOD_HCI_Transport} `{STM32_UART_HAL}.

(** [HCI.CbRxMessage = cbRxMessage], the receive buffer set to
    [rxMessage], then [return SerialDevice_Open(...)]. *)
Definition WiMOD_HCI_Init (comPort : Z) (st : Bridge) : res (bool * Bridge) :=
  r <- SerialDevice_Open comPort Baudrate_115200 DataBits_8 Parity_None (br_serial st) ;;
  let '(ok, ser) := r in
  Ok (ok, mkBridge (br_tx st) (RxMessage st) ser (HexValue st) true ok
            (hci_frames st) (rx_log st)).

Definition WiMOD_LoRaWAN_Init (comPort : Z) (st : Bridge) : res (bool * Bridge) :=
  WiMOD_HCI_Init comPort st.

(** The next frame is written into the registered buffer [RxMessage] and
    the callback is called on it; the buffer it returns, [&RxMessage],
    receives the next frame. *)
Definition WiMOD_HCI_Process (fuel : nat) (help0 : Z) (st : Bridge) : res Bridge :=
  if hci_open st then
    match hci_frames st with
    | [] => Ok st
    | f :: rest =>
        let st := mkBridge (br_tx st) f (br_serial st) (HexValue st) (hci_cb st) (hci_open st)
                    rest (rx_log st) in
        if hci_cb st then
          r <- WiMOD_LoRaWAN_Process_RxMessage fuel (HexValue st) help0 (RxMessage st) ;;
          let '(m', e) := r in
          Ok (mkBridge (br_tx st) m' (br_serial st) (HexValue st) (hci_cb st) (hci_open st)
                rest (rx_log st ++ [(RxMessage st, e)]))
        else Ok st
    end
  else Ok st.

Definition WiMOD_LoRaWAN_Process (fuel : nat) (help0 : Z) (st : Bridge) : res Bridge :=
  WiMOD_HCI_Process fuel help0 st.

(** The interleavings.  A request is any call of the two encoders with
    a buffer of bytes (the encoders convert the identifier and the
    length to their C types); the [help] of a decoder and the fuel of a
    loop are chosen per call; a frame arrives only on an open port, and
    the framing layer delivers only frames that fit the
    [TWiMOD_HCI_Message] structure. *)
Inductive bridge_step : Bridge -> Bridge -> Prop :=
| StepInit comPort ok st st' :
    WiMOD_LoRaWAN_Init comPort st = Ok (ok, st') -> bridge_step st st'
| StepDevMgmtReq msg_id val len r tx st :
    bytes_ok val = true ->
    WiMOD_DevMgmt_Msg_Req msg_id val len (br_tx st) = Ok (r, tx) ->
    bridge_step st (set_tx tx st)
| StepLoRaWANReq msg_id val len r tx st :
    bytes_ok val = true ->
    WiMOD_LoRaWAN_Msg_Req msg_id val len (br_tx st) = Ok (r, tx) ->
    bridge_step st (set_tx tx st)
| StepProcess fuel help0 st st' :
    WiMOD_LoRaWAN_Process fuel help0 st = Ok st' -> bridge_step st st'
| StepFrame f st :
    hci_open st = true -> msg_wf f = true -> bridge_step st (push_frame f st).

(** The zero-initialised globals at reset. *)
Definition msg0 : TWiMOD_HCI_Message := mkMsg 0 0 0 (zeros WIMOD_HCI_MSG_PAYLOAD_SIZE).

(** The globals at reset; [ser0] is the driver at reset, whose
    [uart_objs] are the UART handles [main.c] declares. *)
Definition bridge_reset (ser0 : SerialState) : Bridge :=
  mkBridge (mkTx msg0 []) msg0 ser0 (zeros 9) false false [] [].

Definition reachable (ser0 : SerialState) (st : Bridge) : Prop :=
  star bridge_step (bridge_reset ser0) st.

(** One iteration of the main loop. *)
Definition process_step (st st' : Bridge) : Prop :=
  exists fuel help0, WiMOD_LoRaWAN_Process fuel help0 st = Ok st'.

End Bridge.

(** The buffers a reachable state keeps well formed. *)
Definition bridge_wf `{WiMOD_HCI_Codes} (st : Bridge) : bool :=
  msg_wf (TxMessage (br_tx st)) && forallb msg_wf (tx_sent (br_tx st))
  && msg_wf (RxMessage st) && forallb msg_wf (hci_frames st)
  && (length (HexValue st) =? 9)%nat.

(** Whether an event leaves the board. *)
Definition rx_external (e : RxEvent) : bool :=
  match rx_tcp_write e with Some _ => true | None => false end || rx_system_reset e.

(** Every logged event that leaves the board came from a LoRaWAN
    unconfirmed-data indication. *)
Definition log_origin_ok `{WiMOD_HCI_Codes} (st : Bridge) : bool :=
  forallb (fun '(f, e) => negb (rx_external e)
                          || ((SapID f =? LORAWAN_SAP_ID)
                              && (MsgID f =? lorawan_msg_code LORAWAN_MSG_RECV_UDATA_IND)))
    (rx_log st).

(** ** Lemmas *)

Section BridgeLemmas.
Context `{WiMOD_HCI_Codes} `{WiMOD_HCI_Transport} `{STM32_UART_HAL}.

Lemma bridge_wf_spec st :
  bridge_wf st = true <->
  msg_wf (TxMessage (br_tx st)) = true /\ (forall m, In m (tx_sent (br_tx st)) -> msg_wf m = true)
  /\ msg_wf (RxMessage st) = true /\ (forall f, In f (hci_frames st) -> msg_wf f = true)
  /\ length (HexValue st) = 9%nat.
Proof. unfold bridge_wf. rewrite !andb_true_iff, !forallb_forall, Nat.eqb_eq. tauto. Qed.

Lemma msg0_wf : msg_wf msg0 = true.
Proof.
  pose proof payload_size_range. apply msg_wf_spec. unfold msg0; simpl.
  rewrite length_zeros, bytes_ok_zeros by lia. repeat split; lia.
Qed.

(** A call of [WiMOD_LoRaWAN_Process] on an open port with a registered
    callback and a frame waiting is the dispatch of that frame. *)
Lemma Process_next fuel help0 st f rest :
  hci_open st = true -> hci_cb st = true -> hci_frames st = f :: rest ->
  WiMOD_LoRaWAN_Process fuel help0 st
  = (r <- WiMOD_LoRaWAN_Process_RxMessage fuel (HexValue st) help0 f ;;
     let '(m', e) := r in
     Ok (mkBridge (br_tx st) m' (br_serial st) (HexValue st) true true rest
           (rx_log st ++ [(f, e)]))).
Proof.
  intros Ho Hc Hf. unfold WiMOD_LoRaWAN_Process, WiMOD_HCI_Process.
  rewrite Ho, Hf. simpl. rewrite Hc. reflexivity.
Qed.

Lemma Process_cases fuel help0 st st' :
  WiMOD_LoRaWAN_Process fuel help0 st = Ok st' ->
  st' = st
  \/ (exists f rest, hci_frames st = f :: rest
        /\ st' = mkBridge (br_tx st) f (br_serial st) (HexValue st) (hci_cb st) (hci_open st)
                  rest (rx_log st))
  \/ (exists f rest m' e, hci_frames st = f :: rest
        /\ WiMOD_LoRaWAN_Process_RxMessage fuel (HexValue st) help0 f = Ok (m', e)
        /\ st' = mkBridge (br_tx st) m' (br_serial st) (HexValue st) (hci_cb st) (hci_open st)
                  rest (rx_log st ++ [(f, e)])).
Proof.
  unfold WiMOD_LoRaWAN_Process, WiMOD_HCI_Process. intros Hr.
  destruct (hci_open st); [|injection Hr; auto].
  destruct (hci_frames st) as [|f rest] eqn:Ef; [injection Hr; auto|]. simpl in Hr.
  destruct (hci_cb st); [|injection Hr as <-; eauto 7].
  bind_inv Hr. destruct a as [m' e]. injection Hr as <-. eauto 10.
Qed.

Lemma bridge_wf_step st st' :
  bridge_wf st = true -> bridge_step st st' -> bridge_wf st' = true.
Proof.
  rewrite !bridge_wf_spec. intros (Htx & Hsent & Hrx & Hfr & Hhex) Hstep.
  destruct Hstep as [comPort ok st st' Hi| msg_id val len r tx st Hb E
                    | msg_id val len r tx st Hb E | fuel help0 st st' Hp | f st Ho Hf].
  - unfold WiMOD_LoRaWAN_Init, WiMOD_HCI_Init in Hi. bind_inv Hi. destruct a as [ok' ser].
    injection Hi as _ <-. simpl. auto.
  - destruct (Msg_Req_preserves_wf msg_id val len (br_tx st) r tx) as [Htx' Hs']; auto.
    simpl. repeat split; auto.
    destruct Hs' as [-> | ->]; [auto|]. intros m. rewrite in_app_iff. intros [?|[<-|[]]]; auto.
  - destruct (Msg_Req_preserves_wf msg_id val len (br_tx st) r tx) as [Htx' Hs']; auto.
    simpl. repeat split; auto.
    destruct Hs' as [-> | ->]; [auto|]. intros m. rewrite in_app_iff. intros [?|[<-|[]]]; auto.
  - apply Process_cases in Hp as [->|[(f & rest & Ef & ->)|(f & rest & m' & e & Ef & Hr & ->)]];
      [auto| |]; rewrite Ef in Hfr; simpl; repeat split; auto using in_cons, in_eq.
    eapply Process_RxMessage_wf; [apply Hfr, in_eq | exact Hr].
  - simpl. repeat split; auto. intros g. rewrite in_app_iff. intros [?|[<-|[]]]; auto.
Qed.

Lemma log_origin_step st st' :
  log_origin_ok st = true -> bridge_step st st' -> log_origin_ok st' = true.
Proof.
  intros Hlog Hstep. destruct Hstep as [comPort ok st st' Hi| | | fuel help0 st st' Hp|]; auto.
  - unfold WiMOD_LoRaWAN_Init, WiMOD_HCI_Init in Hi. bind_inv Hi. destruct a as [ok' ser].
    injection Hi as _ <-. exact Hlog.
  - apply Process_cases in Hp as [->|[(f & rest & Ef & ->)|(f & rest & m' & e & Ef & Hr & ->)]];
      [exact Hlog|exact Hlog|].
    unfold log_origin_ok in *. simpl. rewrite forallb_app, Hlog. simpl.
    destruct (rx_external e) eqn:Ex; [|reflexivity]. simpl.
    destruct (Process_RxMessage_origin fuel (HexValue st) help0 f m' e Hr) as [-> ->].
    { unfold rx_external in Ex. apply orb_true_iff in Ex as [Ex|Ex]; [left|right; exact Ex].
      destruct (rx_tcp_write e); discriminate. }
    rewrite !Z.eqb_refl. reflexivity.
Qed.

End BridgeLemmas.

(** ** Theorems *)

Section BridgeTheorems.
Context `{WiMOD_HCI_Codes} `{WiMOD_HCI_Transport} `{STM32_UART_HAL}.

(** The shared buffers stay well formed in every reachable state:
    [TxMessage] and every message handed to the HCI layer, by
    [Msg_Req_preserves_wf]; [RxMessage] and the queue, since the framing
    layer delivers well-formed frames; the [num2hex] buffer, carried
    unchanged by the model, keeps its 9 bytes. *)
Lemma reachable_bridge_wf ser0 st :
  reachable ser0 st -> bridge_wf st = true.
Proof.
  intros Hr. apply (star_inv _ (fun s => bridge_wf s = true) bridge_wf_step _ _ Hr).
  apply bridge_wf_spec. simpl. split; [apply msg0_wf|]. split; [intros _ []|].
  split; [apply msg0_wf|]. split; [intros _ []|]. reflexivity.
Qed.

(** C2: only a LoRaWAN unconfirmed-data indication reaches the outside
    of the board, in every run of the program.  In every reachable
    state, each dispatched frame whose event writes to the TCP client or
    resets the MCU came through the LoRaWAN SAP with
    [MsgID = LORAWAN_MSG_RECV_UDATA_IND]. *)
Theorem reachable_log_origin ser0 st :
  reachable ser0 st -> log_origin_ok st = true.
Proof.
  intros Hr. exact (star_inv _ (fun s => log_origin_ok s = true) log_origin_step _ _ Hr eq_refl).
Qed.

(** C12: the main loop delivers every deliverable frame.  On an open
    port with the callback registered, if every queued frame is
    deliverable ([rx_deliverable]: well formed, room after [Length],
    channel information that fits, no C-Data indication of more than
    one byte), then however [WiMOD_LoRaWAN_Process] is called, the queue
    eventually empties and the log has grown by the queued frames, in
    their order. *)
Theorem Process_delivers_all st :
  hci_open st = true -> hci_cb st = true -> length (HexValue st) = 9%nat ->
  forallb rx_deliverable (hci_frames st) = true ->
  eventually process_step
    (fun s => hci_frames s = [] /\ map fst (rx_log s) = map fst (rx_log st) ++ hci_frames st) st.
Proof.
  intros Ho Hc Hx Hd. remember (hci_frames st) as fs eqn:Ef. revert st Ho Hc Hx Ef.
  induction fs as [|f rest IH]; intros st Ho Hc Hx Ef.
  { apply eventually_now. rewrite app_nil_r. auto. }
  apply andb_true_iff in Hd as [Hf Hd]. symmetry in Ef.
  apply eventually_later.
  - destruct (Process_RxMessage_ok O (HexValue st) 0 f Hf Hx) as [[m' e] Hr].
    eexists. exists 1%nat, 0. rewrite (Process_next _ _ _ _ _ Ho Hc Ef), Hr. reflexivity.
  - intros s' (fuel & help0 & Hs'). rewrite (Process_next _ _ _ _ _ Ho Hc Ef) in Hs'.
    bind_inv Hs'. destruct a as [m' e]. injection Hs' as <-.
    refine (eventually_mono _ _ _ _ _
              (IH Hd (mkBridge (br_tx st) m' (br_serial st) (HexValue st) true true rest
                        (rx_log st ++ [(f, e)])) eq_refl eq_refl Hx eq_refl)).
    intros s [Hs1 Hs2]. split; [exact Hs1|]. rewrite Hs2. simpl.
    rewrite map_app, <- app_assoc. reflexivity.
Qed.

(** C13: one confirmed-data indication with more than one byte after
    its flags stops the receive path for good.  When such a frame is
    next in the queue, no call of [WiMOD_LoRaWAN_Process] returns, so no
    later frame, whatever it is, is ever dispatched: the log never
    grows again. *)
Theorem CData_blocks_receive st f rest :
  hci_open st = true -> hci_cb st = true -> hci_frames st = f :: rest ->
  msg_wf f = true -> SapID f = LORAWAN_SAP_ID ->
  MsgID f = lorawan_msg_code LORAWAN_MSG_RECV_CDATA_IND ->
  2 <= rx_payload_size (byte (Payload f) 0) (Length f) ->
  ~ eventually process_step (fun s => (length (rx_log st) < length (rx_log s))%nat) st.
Proof.
  intros Ho Hc Hf Hwf Hs Hi Hps. apply eventually_stuck; [lia|].
  intros s' (fuel & help0 & Hs'). rewrite (Process_next _ _ _ _ _ Ho Hc Hf) in Hs'.
  rewrite Process_RxMessage_cdata_hangs in Hs' by assumption. discriminate.
Qed.

End BridgeTheorems.

(** ** Witnesses: the STM32F4 HAL, the values of [WiMOD_LoRaWAN_API.h] *)

#[local] Existing Instance WiMOD_API_h.
#[local] Existing Instance length_transport.
#[local] Instance F4_ok : STM32_UART_HAL := F4_HAL HAL_OK.

(** [huart6] at 0x20000100, zero-initialised by [main.c]. *)
Definition ser_reset : SerialState :=
  mkSerial {[536871168 := mkUartHandle 0 (mkUartInit 0 0 0 0 0 0 0)]} 0 0 false [].

Definition after_init (r : res (bool * Bridge)) : Bridge :=
  match r with Ok (_, s) => s | _ => bridge_reset ser_reset end.

Definition after_process (r : res Bridge) : Bridge :=
  match r with Ok s => s | _ => bridge_reset ser_reset end.

(** [WiMOD_LoRaWAN_Init(&huart6)], a ping request, then a firmware
    response and the port-100 downlink arrive. *)
Definition st_init : Bridge := after_init (WiMOD_LoRaWAN_Init 536871168 (bridge_reset ser_reset)).

Definition st_ping : Bridge :=
  match WiMOD_DevMgmt_Msg_Req 1 [] 0 (br_tx st_init) with
  | Ok (_, tx) => set_tx tx st_init
  | _ => st_init
  end.

Definition st_rx : Bridge := push_frame rx_port100 (push_frame dev_fw st_ping).

Definition st_done : Bridge :=
  after_process (WiMOD_LoRaWAN_Process 1 0 (after_process (WiMOD_LoRaWAN_Process 1 0 st_rx))).

Lemma st_done_reachable : reachable ser_reset st_done.
Proof.
  eapply star_step; [apply (StepInit 536871168 true); vm_compute; reflexivity|].
  eapply star_step; [apply (StepDevMgmtReq 1 [] 0 0); [reflexivity | vm_compute; reflexivity]|].
  eapply star_step; [apply (StepFrame dev_fw); vm_compute; reflexivity|].
  eapply star_step; [apply (StepFrame rx_port100); vm_compute; reflexivity|].
  eapply star_step; [apply (StepProcess 1 0); vm_compute; reflexivity|].
  eapply star_step; [apply (StepProcess 1 0); vm_compute; reflexivity|].
  apply star_refl.
Qed.

(** The port-100 downlink was written to the TCP client. *)
Lemma reachable_log_origin_witness :
  rx_external (snd (nth 1 (rx_log st_done) (dev_fw, RxIgnored))) = true
  /\ log_origin_ok st_done = true.
Proof.
  split; [vm_compute; reflexivity|].
  exact (reachable_log_origin ser_reset st_done st_done_reachable).
Defined.

Lemma Process_delivers_all_witness :
  eventually process_step
    (fun s => hci_frames s = [] /\ map fst (rx_log s) = map fst (rx_log st_rx) ++ hci_frames st_rx)
    st_rx.
Proof. apply Process_delivers_all; vm_compute; reflexivity. Defined.

(** A confirmed downlink on port 5 with two data bytes, then the ping
    response. *)
Definition st_blocked : Bridge :=
  push_frame (dev_msg 2 [0]) (push_frame (rx_msg 20 [0; 5; 1; 2]) st_init).

Lemma CData_blocks_receive_witness :
  ~ eventually process_step (fun s => (length (rx_log st_blocked) < length (rx_log s))%nat) st_blocked.
Proof.
  apply (CData_blocks_receive st_blocked (rx_msg 20 [0; 5; 1; 2]) [dev_msg 2 [0]]);
    vm_compute; first [reflexivity | discriminate].
Defined.
